(** * Code execution server: the execution orchestrator of server.js

    A shallow embedding of the orchestrator (admission queue, batch and
    interactive executors, Docker log cleaner, stdin detector, input
    routing) and of the start script, together with the properties its
    specification states and further properties read off the code.

    The server embedded is the one with both execution modes, whose text
    follows the start script in [src/start.sh]. [src/server/server.js] is
    an earlier, batch-only variant of it: same queue, endpoint and log
    cleaner, six languages, and a memory limit of 100 MiB for all of them.

    Conventions of the embedding.
    - A JavaScript string is a [string]; one character stands for the
      UTF-16 code unit of the same number, so the model covers texts whose
      code units are below 256.
    - A request field is a string or absent ([option string]), the type the
      interface documents ([{language, code, input?}]). The code accepts
      any truthy [language]: [Wire] has the batch executor, and [Session]
      the interactive one, for a language that need not be a string.
    - Every call that leaves the process (file system, Docker engine,
      socket) is recorded, in order, in the [World]; whether such a call
      succeeds is decided by the environment [Env].
    - What reaches the process while an executor awaits the container is
      given by the environment, all arrivals first and then the deadline
      ([Prim.wait]); [Session] takes the moments of the wait, and those
      after the socket listener has returned, in any order.
    - [console.log] and [console.error] are not recorded. *)

From Stdlib Require Import String Ascii List ZArith Bool Lia.
From Stdlib Require Import Permutation.
Import ListNotations.
Local Open Scope string_scope.
Local Open Scope Z_scope.

(** ** JavaScript values that reach the orchestrator *)

Module JS.

(** The values of the expressions embedded here are [undefined], booleans
    and strings. In an ['input'] message any other JSON value (a number,
    [null], an object) is, like a boolean, something that is not a
    string. *)
Inductive value : Type :=
| undefined
| boolean (b : bool)
| str (s : string).

(** ToBoolean: [undefined], [false] and [''] are falsy. *)
Definition truthy (v : value) : bool :=
  match v with
  | undefined => false
  | boolean b => b
  | str "" => false
  | str _ => true
  end.

(** [a && b] yields the left operand when it is falsy, else the right. *)
Definition and (a b : value) : value := if truthy a then b else a.

(** A destructured request field: absent fields read as [undefined]. *)
Definition field (f : option string) : value :=
  match f with
  | None => undefined
  | Some s => str s
  end.

Definition nl : string := String (ascii_of_nat 10) "".

(** [s.endsWith(c)] for a one-character [c]. *)
Fixpoint endsWithChar (s : string) (c : ascii) : bool :=
  match s with
  | "" => false
  | String d "" => Ascii.eqb d c
  | String _ s' => endsWithChar s' c
  end.

(** [s.includes(sub)]. *)
Fixpoint includes (sub s : string) : bool :=
  String.prefix sub s ||
  match s with
  | "" => false
  | String _ s' => includes sub s'
  end.

End JS.

(** ** Language registry *)

Module Registry.

Record LanguageSpec : Type := {
  image : string;
  fileExtension : string;
  command : list string
}.

Definition python : LanguageSpec :=
  {| image := "code-execution-python:latest"; fileExtension := ".py";
     command := ["python"; "script.py"] |}.
Definition javascript : LanguageSpec :=
  {| image := "code-execution-javascript:latest"; fileExtension := ".js";
     command := ["node"; "script.js"] |}.
Definition java : LanguageSpec :=
  {| image := "code-execution-java:latest"; fileExtension := ".java";
     command := ["sh"; "-c"; "javac -d /tmp Main.java && java -cp /tmp Main"] |}.
Definition cpp : LanguageSpec :=
  {| image := "code-execution-cpp:latest"; fileExtension := ".cpp";
     command := ["sh"; "-c"; "g++ -o /tmp/program main.cpp && /tmp/program"] |}.
Definition ruby : LanguageSpec :=
  {| image := "code-execution-ruby:latest"; fileExtension := ".rb";
     command := ["ruby"; "script.rb"] |}.
Definition go : LanguageSpec :=
  {| image := "code-execution-go:latest"; fileExtension := ".go";
     command := ["go"; "run"; "main.go"] |}.
Definition dart : LanguageSpec :=
  {| image := "code-execution-dart:latest"; fileExtension := ".dart";
     command := ["dart"; "run"; "main.dart"] |}.

(** The own properties of the [supportedLanguages] object literal. *)
Definition supportedLanguages : list (string * LanguageSpec) :=
  [ ("python", python); ("javascript", javascript); ("java", java);
    ("cpp", cpp); ("ruby", ruby); ("go", go); ("dart", dart) ].

(** Names every object literal inherits from [Object.prototype]; reading
    one of them yields a function (or the prototype), which is truthy. *)
Definition objectPrototypeKeys : list string :=
  [ "constructor"; "hasOwnProperty"; "isPrototypeOf";
    "propertyIsEnumerable"; "toLocaleString"; "toString"; "valueOf";
    "__proto__"; "__defineGetter__"; "__defineSetter__";
    "__lookupGetter__"; "__lookupSetter__" ].

(** Result of the property read [obj[key]] on an object literal. *)
Inductive property (A : Type) : Type :=
| Own (a : A)
| Inherited
| Missing.
Arguments Own {A} a.
Arguments Inherited {A}.
Arguments Missing {A}.

Fixpoint assoc {A : Type} (k : string) (l : list (string * A)) : option A :=
  match l with
  | [] => None
  | (k', a) :: l' => if String.eqb k k' then Some a else assoc k l'
  end.

Definition get {A : Type} (obj : list (string * A)) (key : string) : property A :=
  match assoc key obj with
  | Some a => Own a
  | None =>
      if existsb (String.eqb key) objectPrototypeKeys then Inherited else Missing
  end.

(** [obj[key]] is truthy unless the key is missing altogether. *)
Definition present {A : Type} (p : property A) : bool :=
  match p with
  | Missing => false
  | _ => true
  end.

(** [supportedLanguages[language].fileExtension] inside a template
    literal: an inherited property has no such field and prints as
    ["undefined"]. *)
Definition extensionText (language : string) : string :=
  match get supportedLanguages language with
  | Own l => fileExtension l
  | _ => "undefined"
  end.

(** The source file name, as both executors compute it. *)
Definition fileName (language : string) : string :=
  if String.eqb language "java" then "Main.java"
  else if String.eqb language "cpp" then "main.cpp"
  else if String.eqb language "go" then "main.go"
  else if String.eqb language "dart" then "main.dart"
  else "script" ++ extensionText language.

(** Language-specific memory limit in bytes. *)
Definition memoryLimit (language : string) : Z :=
  if String.eqb language "dart" then 256 * 1024 * 1024
  else if String.eqb language "java" then 256 * 1024 * 1024
  else 100 * 1024 * 1024.

End Registry.

(** ** Stdin detector: the regular expressions of [detectInteractiveCode] *)

Module Detect.

(** The fragment of regular expressions the seven patterns use: literal
    characters (matched without regard to case, flag [i]), the word
    boundary [\b] and [\s*]. A pattern is a sequence of atoms; a regular
    expression is a list of alternatives. *)
Inductive atom : Type :=
| Lit (c : ascii)
| WordBoundary
| SpaceStar.

Definition pattern : Type := list atom.
Definition regex : Type := list pattern.

Definition between (lo hi : nat) (c : ascii) : bool :=
  (Nat.leb lo (nat_of_ascii c) && Nat.leb (nat_of_ascii c) hi)%bool.

(** [\w] is [A-Za-z0-9_]. *)
Definition isWord (c : ascii) : bool :=
  between 65 90 c || between 97 122 c || between 48 57 c
  || Nat.eqb (nat_of_ascii c) 95.

(** [\s] on code units below 256: tab, line feed, vertical tab, form
    feed, carriage return, space and no-break space. *)
Definition isSpace (c : ascii) : bool :=
  between 9 13 c || Nat.eqb (nat_of_ascii c) 32 || Nat.eqb (nat_of_ascii c) 160.

Definition lower (c : ascii) : ascii :=
  if between 65 90 c then ascii_of_nat (nat_of_ascii c + 32) else c.

(** Case-insensitive comparison of two code units. *)
Definition sameLetter (c d : ascii) : bool := Ascii.eqb (lower c) (lower d).

Definition wordAt (c : option ascii) : bool :=
  match c with
  | Some a => isWord a
  | None => false
  end.

Definition next (s : string) : option ascii :=
  match s with
  | "" => None
  | String c _ => Some c
  end.

(** Does pattern [p] match a prefix of [s], when [prev] is the character
    just before [s]? The star backtracks over every number of spaces. *)
Fixpoint matchHere (p : pattern) (prev : option ascii) (s : string) : bool :=
  match p with
  | [] => true
  | Lit c :: p' =>
      match s with
      | "" => false
      | String d s' => sameLetter c d && matchHere p' (Some d) s'
      end
  | WordBoundary :: p' =>
      xorb (wordAt prev) (wordAt (next s)) && matchHere p' prev s
  | SpaceStar :: p' =>
      (fix star (prev : option ascii) (s : string) : bool :=
         matchHere p' prev s ||
         match s with
         | "" => false
         | String d s' => isSpace d && star (Some d) s'
         end) prev s
  end.

(** [regex.test(code)]: some alternative matches at some position. *)
Fixpoint searchFrom (r : regex) (prev : option ascii) (s : string) : bool :=
  existsb (fun p => matchHere p prev s) r ||
  match s with
  | "" => false
  | String c s' => searchFrom r (Some c) s'
  end.

Definition test (r : regex) (code : string) : bool := searchFrom r None code.

Definition lit (s : string) : pattern := map Lit (list_ascii_of_string s).
Definition word (s : string) : pattern := WordBoundary :: lit s ++ [WordBoundary].

Definition patterns : list (string * regex) :=
  [ ("python", [ WordBoundary :: lit "input" ++ [SpaceStar; Lit "("%char] ]);
    ("javascript", [ word "readline"; word "process.stdin" ]);
    ("java", [ word "Scanner"; WordBoundary :: lit "System.console()";
               word "BufferedReader" ]);
    ("cpp", [ word "cin"; word "getline"; word "scanf" ]);
    ("ruby", [ word "gets"; word "readline" ]);
    ("go", [ word "Scan"; word "Reader.ReadString"; word "Reader.Read" ]);
    ("dart", [ word "readLineSync"; WordBoundary :: lit "stdin.read" ]) ].

(** [patterns[language] && patterns[language].test(code)]. A language
    without a pattern gives [undefined]; an inherited property is truthy
    but has no [test] method, and calling it throws a TypeError. *)
Definition detectInteractiveCode (language code : string) : string + JS.value :=
  match Registry.get patterns language with
  | Registry.Own r => inr (JS.boolean (test r code))
  | Registry.Inherited => inl "patterns[language].test is not a function"
  | Registry.Missing => inr JS.undefined
  end.

End Detect.

(** ** Docker log cleaner of the batch executor *)

Module Demux.

(** [b === 0x01 || b === 0x02]. *)
Definition isTag (b : Z) : bool := (b =? 1) || (b =? 2).

(** [bufferLogs[i] === 0x01 || bufferLogs[i] === 0x02]; an index past the
    end reads [undefined], which equals neither. *)
Definition tagAt (bufferLogs : list Z) (i : nat) : bool :=
  match nth_error bufferLogs i with
  | Some b => isTag b
  | None => false
  end.

(** The inner [while]: advance [endOfLine] while
    [(endOfLine < length && !tag) || endOfLine < position + 1]. *)
Fixpoint findEnd (fuel : nat) (bufferLogs : list Z) (position endOfLine : nat)
  : option nat :=
  match fuel with
  | O => None
  | S fuel' =>
      if (Nat.ltb endOfLine (length bufferLogs) && negb (tagAt bufferLogs endOfLine))
         || Nat.ltb endOfLine (position + 1)
      then findEnd fuel' bufferLogs position (S endOfLine)
      else Some endOfLine
  end.

(** [buf.slice(a, b)]: indices are clamped to the buffer. *)
Definition slice (bufferLogs : list Z) (a b : nat) : list Z :=
  firstn (b - a) (skipn a bufferLogs).

(** The outer [while (position < bufferLogs.length)]; the slices are
    collected in the order they are appended to [cleanedLogs]. *)
Fixpoint cleanLoop (fuel : nat) (bufferLogs : list Z) (position : nat)
    (slices : list (list Z)) : option (list (list Z)) :=
  match fuel with
  | O => None
  | S fuel' =>
      if Nat.ltb position (length bufferLogs) then
        let position := (position + 8)%nat in
        match findEnd (length bufferLogs + 2) bufferLogs position position with
        | None => None
        | Some endOfLine =>
            cleanLoop fuel' bufferLogs endOfLine
                      (slices ++ [slice bufferLogs position endOfLine])
        end
      else Some slices
  end.

Definition logSlices (logs : list Z) : option (list (list Z)) :=
  cleanLoop (S (length logs)) logs 0 [].

Section Decoding.

(** [Buffer.toString('utf8')], applied to every slice. *)
Variable toString : list Z -> string.

Definition cleanDockerLogs (logs : list Z) : option string :=
  match logSlices logs with
  | Some slices => Some (String.concat "" (map toString slices))
  | None => None
  end.

End Decoding.

(** UTF-8 decoding of bytes below 0x80: one character per byte. *)
Definition asciiText (bytes : list Z) : string :=
  string_of_list_ascii (map (fun b => ascii_of_nat (Z.to_nat b)) bytes).

(** The framing the container engine puts on its log stream (the engine
    is not code of this repository): an 8-byte header (stream tag, three
    zero bytes, payload length big-endian) followed by the payload. *)
Inductive streamTag : Type := stdout | stderr.

Definition tagByte (t : streamTag) : Z :=
  match t with
  | stdout => 1
  | stderr => 2
  end.

Definition header (t : streamTag) (len : Z) : list Z :=
  [ tagByte t; 0; 0; 0;
    Z.land (Z.shiftr len 24) 255; Z.land (Z.shiftr len 16) 255;
    Z.land (Z.shiftr len 8) 255; Z.land len 255 ].

Definition frame (f : streamTag * list Z) : list Z :=
  header (fst f) (Z.of_nat (length (snd f))) ++ snd f.

Definition frames (fs : list (streamTag * list Z)) : list Z :=
  flat_map frame fs.

End Demux.

(** ** The world outside the process: file system, Docker engine, socket *)

Module Engine.

Record Mount : Type := {
  Type_ : string;
  Source : string;
  Target : string;
  ReadOnly : bool
}.

Record HostConfig : Type := {
  Memory : Z;
  MemorySwap : Z;
  NanoCpus : Z;
  PidsLimit : Z;
  StopTimeout : option Z;
  NetworkMode : string;
  Privileged : bool;
  SecurityOpt : list string;
  CapDrop : list string;
  Mounts : list Mount
}.

(** The object handed to [docker.createContainer]. Fields a call site
    leaves out are [None]; [Image] and [Cmd] are [None] when the registry
    read they come from is [undefined]. *)
Record ContainerOptions : Type := {
  Image : option string;
  Cmd : option (list string);
  Host : HostConfig;
  OpenStdin : JS.value;
  StdinOnce : bool;
  AttachStdin : option bool;
  AttachStdout : bool;
  AttachStderr : bool;
  Tty : bool;
  WorkingDir : option string
}.

(** Messages the server emits on the caller's socket. *)
Inductive Event : Type :=
| Output (data : string) (type : option string)
| ExecutionStart (executionId : string)
| ExecutionComplete (status : string) (exitCode : option Z)
                    (executionId : option string)
| Error (message : string).

(** Calls that leave the process, in the order they are made. *)
Inductive Call : Type :=
| Mkdir (path : string)
| WriteFile (path content : string)
| BuildImage (context : string) (src : list string) (tag : string)
| CreateContainer (opts : ContainerOptions)
| Attach (container : string)
| StreamWrite (data : string)
| StreamEnd
| Start (container : string)
| SetTimeout (ms : Z)
| ClearTimeout
| Inspect (container : string)
| Stop (container : string)
| Wait (container : string)
| Logs (container : string)
| Remove (container : string)
| RemoveImage (name : string)
| Rm (path : string)
| SocketOn (event : string)
| SocketOff (event : string)
| Emit (e : Event).

(** The fallible operations; the environment decides which ones fail. *)
Inductive Op : Type :=
| OpMkdir | OpWriteFile | OpBuild | OpCreate | OpAttach | OpStart
| OpInspect | OpStop | OpWait | OpLogs | OpRemove | OpRemoveImage | OpRm.

(** The attached stream, as far as the executors look at it. *)
Record Stream : Type := {
  destroyed : bool;
  written : list string
}.

(** A pending [setTimeout]: its delay, the container its callback stops
    and whether the callback also emits the timeout notice. *)
Record Timer : Type := {
  delay : Z;
  target : string;
  notice : bool
}.

(** What the caller's socket sends to the server's ['input'] listener. *)
Record InputData : Type := {
  executionId : JS.value;
  data : JS.value
}.

(** What reaches the process while it awaits the container: a frame the
    engine's demultiplexer hands to the stdout or stderr sink (already
    decoded), an ['input'] message of the caller (possibly [null]), the
    end of the stream's readable side, or the loss of the stream. *)
Inductive Arrival : Type :=
| Frame (t : Demux.streamTag) (chunk : string)
| Input (m : option InputData)
| StreamEof
| StreamLost.

Record Env : Type := {
  uuid : string;
  containerId : string;
  fails : Op -> bool;
  statusCode : Z;
  logs : list Z;
  expires : bool;
  arrivals : list Arrival
}.

Record World : Type := {
  dirs : list string;
  files : list (string * string);
  images : list string;
  containers : list string;
  running : list string;
  timer : option Timer;
  stream : option Stream;
  listening : bool;
  calls : list Call
}.

Definition empty : World :=
  {| dirs := []; files := []; images := []; containers := []; running := [];
     timer := None; stream := None; listening := false; calls := [] |}.

(** A computation runs on the world and ends in a value or a thrown
    error message; the world keeps what was done before a throw. *)
Definition M (A : Type) : Type := World -> (string + A) * World.

Definition ret {A : Type} (a : A) : M A := fun w => (inr a, w).

Definition throw {A : Type} (message : string) : M A := fun w => (inl message, w).

Definition bind {A B : Type} (m : M A) (k : A -> M B) : M B :=
  fun w =>
    match m w with
    | (inr a, w') => k a w'
    | (inl e, w') => (inl e, w')
    end.

(** [try { m } catch (e) { handler e }]. *)
Definition tryCatch {A : Type} (m : M A) (handler : string -> M A) : M A :=
  fun w =>
    match m w with
    | (inr a, w') => (inr a, w')
    | (inl e, w') => handler e w'
    end.

(** [try { m } finally { fin }]: [fin] always runs; when it throws, its
    error replaces the outcome of [m]. *)
Definition tryFinally {A : Type} (m : M A) (fin : M unit) : M A :=
  fun w =>
    match m w with
    | (r, w') =>
        match fin w' with
        | (inr _, w'') => (r, w'')
        | (inl e, w'') => (inl e, w'')
        end
    end.

Definition modify (f : World -> World) : M unit := fun w => (inr tt, f w).

Definition gets {A : Type} (f : World -> A) : M A := fun w => (inr (f w), w).

End Engine.

Declare Scope engine_scope.
Delimit Scope engine_scope with engine.
Notation "x <- c1 ;; c2" := (Engine.bind c1 (fun x => c2))
  (at level 61, c1 at next level, right associativity) : engine_scope.
Notation "c1 ;; c2" := (Engine.bind c1 (fun _ => c2))
  (at level 61, right associativity) : engine_scope.

Module Prim.
Import Engine.
Local Open Scope engine_scope.

Definition without (x : string) (l : list string) : list string :=
  filter (fun y => negb (String.eqb x y)) l.

(** Record updates: each one replaces a single field of the world. *)
Definition withCalls (f : list Call -> list Call) (w : World) : World :=
  let (d, fl, i, c, r, t, s, l, k) := w in
  {| dirs := d; files := fl; images := i; containers := c; running := r;
     timer := t; stream := s; listening := l; calls := f k |}.

Definition withDirs (f : list string -> list string) (w : World) : World :=
  let (d, fl, i, c, r, t, s, l, k) := w in
  {| dirs := f d; files := fl; images := i; containers := c; running := r;
     timer := t; stream := s; listening := l; calls := k |}.

Definition withFiles (f : list (string * string) -> list (string * string))
    (w : World) : World :=
  let (d, fl, i, c, r, t, s, l, k) := w in
  {| dirs := d; files := f fl; images := i; containers := c; running := r;
     timer := t; stream := s; listening := l; calls := k |}.

Definition withImages (f : list string -> list string) (w : World) : World :=
  let (d, fl, i, c, r, t, s, l, k) := w in
  {| dirs := d; files := fl; images := f i; containers := c; running := r;
     timer := t; stream := s; listening := l; calls := k |}.

Definition withContainers (f : list string -> list string) (w : World) : World :=
  let (d, fl, i, c, r, t, s, l, k) := w in
  {| dirs := d; files := fl; images := i; containers := f c; running := r;
     timer := t; stream := s; listening := l; calls := k |}.

Definition withRunning (f : list string -> list string) (w : World) : World :=
  let (d, fl, i, c, r, t, s, l, k) := w in
  {| dirs := d; files := fl; images := i; containers := c; running := f r;
     timer := t; stream := s; listening := l; calls := k |}.

Definition withTimer (t' : option Timer) (w : World) : World :=
  let (d, fl, i, c, r, t, s, l, k) := w in
  {| dirs := d; files := fl; images := i; containers := c; running := r;
     timer := t'; stream := s; listening := l; calls := k |}.

Definition withStream (s' : option Stream) (w : World) : World :=
  let (d, fl, i, c, r, t, s, l, k) := w in
  {| dirs := d; files := fl; images := i; containers := c; running := r;
     timer := t; stream := s'; listening := l; calls := k |}.

Definition withListening (b : bool) (w : World) : World :=
  let (d, fl, i, c, r, t, s, l, k) := w in
  {| dirs := d; files := fl; images := i; containers := c; running := r;
     timer := t; stream := s; listening := b; calls := k |}.

Definition record (c : Call) : M unit := modify (withCalls (fun l => (l ++ [c])%list)).

Fixpoint forEach {A : Type} (l : list A) (f : A -> M unit) : M unit :=
  match l with
  | [] => ret tt
  | a :: l' => f a ;; forEach l' f
  end.

(** The text of the interactive timeout notice (the source prefixes it
    with a stopwatch pictograph). *)
Definition timeoutNotice : string :=
  JS.nl ++ "Execution timeout (5 minutes)" ++ JS.nl.

Section WithEnv.

Variable env : Env.

Definition failing (op : Op) (message : string) : M unit :=
  if fails env op then throw message else ret tt.

(** [fs.mkdir(path, {recursive: true})]. *)
Definition mkdir (path : string) : M unit :=
  record (Mkdir path) ;;
  failing OpMkdir "mkdir failed" ;;
  modify (withDirs (fun d => path :: without path d)).

(** [fs.writeFile(path, content)]. *)
Definition writeFile (path content : string) : M unit :=
  record (WriteFile path content) ;;
  failing OpWriteFile "writeFile failed" ;;
  modify (withFiles (fun fl =>
    (path, content) :: filter (fun f => negb (String.eqb path (fst f))) fl)).

(** [fs.rm(path, {recursive: true, force: true})]: the directory and
    every file below it go away. *)
Definition rm (path : string) : M unit :=
  record (Rm path) ;;
  failing OpRm "rm failed" ;;
  modify (withDirs (without path)) ;;
  modify (withFiles (filter (fun f => negb (String.prefix (path ++ "/") (fst f))))).

(** [docker.buildImage] followed to completion. *)
Definition buildImage (context : string) (src : list string) (tag : string)
  : M unit :=
  record (BuildImage context src tag) ;;
  failing OpBuild "build failed" ;;
  modify (withImages (fun i => tag :: without tag i)).

Definition createContainer (opts : ContainerOptions) : M string :=
  record (CreateContainer opts) ;;
  failing OpCreate "create failed" ;;
  modify (withContainers (fun c => containerId env :: without (containerId env) c)) ;;
  ret (containerId env).

Definition attach (container : string) : M Stream :=
  record (Attach container) ;;
  failing OpAttach "attach failed" ;;
  ret {| destroyed := false; written := [] |}.

Definition start (container : string) : M unit :=
  record (Start container) ;;
  failing OpStart "start failed" ;;
  modify (withRunning (fun r => container :: without container r)).

(** [container.inspect()], read at [State.Running]. *)
Definition inspect (container : string) : M bool :=
  record (Inspect container) ;;
  failing OpInspect "inspect failed" ;;
  gets (fun w => existsb (String.eqb container) (running w)).

Definition stop (container : string) : M unit :=
  record (Stop container) ;;
  failing OpStop "stop failed" ;;
  modify (withRunning (without container)).

Definition containerLogs (container : string) : M (list Z) :=
  record (Logs container) ;;
  failing OpLogs "logs failed" ;;
  ret (logs env).

Definition remove (container : string) : M unit :=
  record (Remove container) ;;
  failing OpRemove "remove failed" ;;
  modify (withContainers (without container)).

Definition removeImage (name : string) : M unit :=
  record (RemoveImage name) ;;
  failing OpRemoveImage "image remove failed" ;;
  modify (withImages (without name)).

Definition emit (e : Event) : M unit := record (Emit e).

Definition setTimeout (t : Timer) : M unit :=
  record (SetTimeout (delay t)) ;;
  modify (withTimer (Some t)).

Definition clearTimeout : M unit :=
  record ClearTimeout ;;
  modify (withTimer None).

(** The callback both executors hand to [setTimeout]: inspect the
    container and stop it when it is still running; the interactive one
    then tells the caller. Errors are caught and logged. *)
Definition onTimeout (t : Timer) : M unit :=
  tryCatch
    (isRunning <- inspect (target t) ;;
     if isRunning : bool then
       stop (target t) ;;
       if notice t then emit (Output timeoutNotice (Some "error")) else ret tt
     else ret tt)
    (fun _ => ret tt).

(** [await container.wait()]: while the process waits, the arrivals are
    handled in order; when the deadline passes before the program ends,
    the pending timer fires; then the container has exited. *)
Definition wait (handle : Arrival -> M unit) (container : string) : M Z :=
  record (Wait container) ;;
  forEach (arrivals env) handle ;;
  pending <- gets timer ;;
  match pending with
  | Some t => if expires env then onTimeout t else ret tt
  | None => ret tt
  end ;;
  failing OpWait "wait failed" ;;
  modify (withRunning (without container)) ;;
  ret (statusCode env).

End WithEnv.

End Prim.

(** ** Batch executor: [executeCode] *)

Module Batch.
Import Engine Prim.
Local Open Scope engine_scope.

Record Result : Type := {
  executionId : string;
  status : string;
  output : string;
  exitCode : Z
}.

(** [input] with its trailing newline, as written to [input.txt]. *)
Definition inputContent (input : string) : string :=
  if JS.truthy (JS.str input) && negb (JS.endsWithChar input (ascii_of_nat 10))
  then input ++ JS.nl
  else input.

(** The temporary Dockerfile. *)
Definition dockerfileContent (baseImage fileName input : string) : string :=
  JS.nl ++
  "      FROM " ++ baseImage ++ JS.nl ++
  "      COPY " ++ fileName ++ " /code/" ++ fileName ++ JS.nl ++
  "      " ++ (if JS.truthy (JS.str input) then "COPY input.txt /code/input.txt" else "")
           ++ JS.nl ++
  "      USER coderunner" ++ JS.nl ++
  "      WORKDIR /code" ++ JS.nl ++
  "      ".

(** The files handed to the image build. *)
Definition buildSources (fileName input : string) : list string :=
  ["Dockerfile"; fileName] ++ (if JS.truthy (JS.str input) then ["input.txt"] else []).

(** The command that pipes [input.txt] into the program. *)
Definition pipedCommand (language : string) (cmd : list string) : list string :=
  if String.eqb language "java" then
    ["sh"; "-c"; "cd /code && javac -d /tmp Main.java && cat input.txt | java -cp /tmp Main"]
  else if String.eqb language "cpp" then
    ["sh"; "-c"; "cd /code && g++ -o /tmp/program main.cpp && cat input.txt | /tmp/program"]
  else if String.eqb language "go" then
    ["sh"; "-c"; "cat /code/input.txt | go run /code/main.go"]
  else if String.eqb language "ruby" then
    ["sh"; "-c"; "cat /code/input.txt | ruby /code/script.rb"]
  else if String.eqb language "python" then
    ["sh"; "-c"; "cat /code/input.txt | python /code/script.py"]
  else if String.eqb language "javascript" then
    ["sh"; "-c"; "cat /code/input.txt | node /code/script.js"]
  else if String.eqb language "dart" then
    ["sh"; "-c"; "cat /code/input.txt | dart run /code/main.dart"]
  else cmd.

(** [cmd], after the [if (hasInteractiveInput && input)] block. *)
Definition command (language : string) (plain : list string)
    (hasInteractiveInput : JS.value) (input : string) : list string :=
  if JS.truthy (JS.and hasInteractiveInput (JS.str input))
  then pipedCommand language plain
  else plain.

(** [hasInteractiveInput && input && !cmd[0].includes('sh')]. *)
Definition directStdin (hasInteractiveInput : JS.value) (input : string)
    (cmd : list string) : JS.value :=
  JS.and (JS.and hasInteractiveInput (JS.str input))
         (JS.boolean (negb (JS.includes "sh" (hd "" cmd)))).

Definition containerOptions (tmpImageName : string) (cmd : list string)
    (memoryLimit : Z) (openStdin : JS.value) : ContainerOptions :=
  {| Image := Some tmpImageName;
     Cmd := Some cmd;
     Host := {| Memory := memoryLimit;
                MemorySwap := memoryLimit;
                NanoCpus := 1 * 1000000000;
                PidsLimit := 50;
                StopTimeout := Some 10;
                NetworkMode := "none";
                Privileged := false;
                SecurityOpt := ["no-new-privileges"];
                CapDrop := ["ALL"];
                Mounts := [] |};
     OpenStdin := openStdin;
     StdinOnce := true;
     AttachStdin := None;
     AttachStdout := true;
     AttachStderr := true;
     Tty := false;
     WorkingDir := None |}.

(** [hasInteractiveInput ? 15000 : 10000], in milliseconds. *)
Definition timeoutDuration (hasInteractiveInput : JS.value) : Z :=
  if JS.truthy hasInteractiveInput then 15000 else 10000.

Section WithEnv.

Variable env : Env.
Variable toString : list Z -> string.

(** The body of the [try] block. *)
Definition run (language code input executionId workDir : string) : M Result :=
  mkdir env workDir ;;
  let fileName := Registry.fileName language in
  let filePath := workDir ++ "/" ++ fileName in
  writeFile env filePath code ;;
  hasInteractiveInput <-
    match Detect.detectInteractiveCode language code with
    | inl e => throw e
    | inr v => ret v
    end ;;
  (if JS.truthy (JS.str input)
   then writeFile env (workDir ++ "/input.txt") (inputContent input)
   else ret tt) ;;
  let tempDockerfilePath := workDir ++ "/Dockerfile" in
  match Registry.get Registry.supportedLanguages language with
  | Registry.Own spec =>
      let baseImage := Registry.image spec in
      writeFile env tempDockerfilePath (dockerfileContent baseImage fileName input) ;;
      let tmpImageName := "code-exec-tmp-" ++ executionId in
      buildImage env workDir (buildSources fileName input) tmpImageName ;;
      let cmd := command language (Registry.command spec) hasInteractiveInput input in
      let memoryLimit := Registry.memoryLimit language in
      let openStdin := directStdin hasInteractiveInput input cmd in
      container <- createContainer env
                     (containerOptions tmpImageName cmd memoryLimit openStdin) ;;
      (if JS.truthy openStdin then
         _ <- attach env container ;;
         record (StreamWrite (inputContent input)) ;;
         record StreamEnd
       else ret tt) ;;
      start env container ;;
      setTimeout {| delay := timeoutDuration hasInteractiveInput;
                    target := container; notice := false |} ;;
      data <- wait env (fun _ => ret tt) container ;;
      clearTimeout ;;
      logs <- containerLogs env container ;;
      output <-
        match Demux.cleanDockerLogs toString logs with
        | Some text => ret text
        | None => throw "cleanDockerLogs does not return"
        end ;;
      tryCatch (remove env container) (fun _ => ret tt) ;;
      tryCatch (removeImage env tmpImageName) (fun _ => ret tt) ;;
      ret {| executionId := executionId;
             status := if data =? 0 then "success" else "error";
             output := output;
             exitCode := data |}
  | _ => throw "Cannot read properties of undefined"
  end.

(** [executeCode(language, code, input = '')]. *)
Definition executeCode (language code input : string) : M Result :=
  if negb (Registry.present (Registry.get Registry.supportedLanguages language))
  then throw ("Unsupported language: " ++ language)
  else
    let executionId := uuid env in
    let workDir := "/tmp/" ++ executionId in
    tryFinally
      (tryCatch (run language code input executionId workDir)
                (fun error => throw error))
      (tryCatch (rm env workDir) (fun _ => ret tt)).

End WithEnv.

End Batch.

(** ** Interactive executor: [executeCodeInteractive] and its socket handler *)

Module Interactive.
Import Engine Prim.
Local Open Scope engine_scope.

(** The text of the notice sent before the container is created (the
    source prefixes it with a rocket pictograph). *)
Definition startingNotice : string :=
  "Starting execution..." ++ JS.nl ++ JS.nl.

(** [v !== executionId], for a string [executionId]. *)
Definition differs (v : JS.value) (executionId : string) : bool :=
  match v with
  | JS.str s => negb (String.eqb s executionId)
  | _ => true
  end.

(** [stream.write(data)]. *)
Definition streamWrite (data : string) : M unit :=
  record (StreamWrite data) ;;
  modify (fun w =>
    withStream
      (match stream w with
       | Some st => Some {| destroyed := destroyed st;
                            written := written st ++ [data] |}
       | None => None
       end) w).

(** [if (stream && !stream.destroyed) stream.end()]. *)
Definition streamEndIfAlive : M unit :=
  st <- gets stream ;;
  match st with
  | Some s => if destroyed s then ret tt else record StreamEnd
  | None => ret tt
  end.

(** The ['input'] listener bound to one execution. *)
Definition inputHandler (executionId : string) (inputData : option InputData)
  : M unit :=
  st <- gets stream ;;
  match st with
  | None => ret tt
  | Some s =>
      if destroyed s then ret tt
      else
        match inputData with
        | None => ret tt
        | Some m =>
            if differs (Engine.executionId m) executionId then ret tt
            else
              match data m with
              | JS.str d =>
                  if (String.length d =? 0)%nat then ret tt
                  else streamWrite (d ++ JS.nl)
              | _ => ret tt
              end
        end
  end.

(** The listeners that are active while the container runs. *)
Definition handle (executionId : string) (a : Arrival) : M unit :=
  match a with
  | Frame Demux.stdout chunk => record (Emit (Output chunk None))
  | Frame Demux.stderr chunk => record (Emit (Output chunk (Some "stderr")))
  | Input m =>
      bound <- gets listening ;;
      if bound : bool then inputHandler executionId m else ret tt
  | StreamEof => streamEndIfAlive
  | StreamLost =>
      modify (fun w =>
        withStream
          (match stream w with
           | Some st => Some {| destroyed := true; written := written st |}
           | None => None
           end) w)
  end.

Definition containerOptions (language executionId : string) : ContainerOptions :=
  {| Image := match Registry.get Registry.supportedLanguages language with
              | Registry.Own spec => Some (Registry.image spec)
              | _ => None
              end;
     Cmd := match Registry.get Registry.supportedLanguages language with
            | Registry.Own spec => Some (Registry.command spec)
            | _ => None
            end;
     Host := {| Memory := Registry.memoryLimit language;
                MemorySwap := Registry.memoryLimit language;
                NanoCpus := 1 * 1000000000;
                PidsLimit := 50;
                StopTimeout := None;
                NetworkMode := "none";
                Privileged := false;
                SecurityOpt := ["no-new-privileges"];
                CapDrop := ["ALL"];
                Mounts := [ {| Type_ := "volume";
                               Source := "code_execution_server_code-workdir";
                               Target := "/workdir";
                               ReadOnly := false |} ] |};
     OpenStdin := JS.boolean true;
     StdinOnce := false;
     AttachStdin := Some true;
     AttachStdout := true;
     AttachStderr := true;
     Tty := false;
     WorkingDir := Some ("/workdir/" ++ executionId) |}.

(** The interactive deadline in milliseconds. *)
Definition timeoutDuration : Z := 300000.

Section WithEnv.

Variable env : Env.

(** The body of the [try] block. *)
Definition run (language code executionId workDir : string) : M unit :=
  mkdir env workDir ;;
  let fileName := Registry.fileName language in
  let filePath := workDir ++ "/" ++ fileName in
  writeFile env filePath code ;;
  emit (Output startingNotice None) ;;
  container <- createContainer env (containerOptions language executionId) ;;
  st <- attach env container ;;
  modify (withStream (Some st)) ;;
  record (SocketOn "input") ;;
  modify (withListening true) ;;
  emit (ExecutionStart executionId) ;;
  start env container ;;
  setTimeout {| delay := timeoutDuration; target := container; notice := true |} ;;
  exitData <- wait env (handle executionId) container ;;
  clearTimeout ;;
  record StreamEnd ;;
  remove env container ;;
  emit (ExecutionComplete (if exitData =? 0 then "success" else "error")
                          (Some exitData) (Some executionId)).

(** The [finally] block. *)
Definition cleanup (workDir : string) : M unit :=
  bound <- gets listening ;;
  (if bound : bool
   then record (SocketOff "input") ;; modify (withListening false)
   else ret tt) ;;
  streamEndIfAlive ;;
  tryCatch (rm env workDir) (fun _ => ret tt).

Definition executeCodeInteractive (language code : string) : M unit :=
  if negb (Registry.present (Registry.get Registry.supportedLanguages language))
  then throw ("Unsupported language: " ++ language)
  else
    let executionId := uuid env in
    let workDir := "/workdir/" ++ executionId in
    tryFinally
      (tryCatch (run language code executionId workDir)
                (fun error => throw error))
      (cleanup workDir).

(** The ['execute-interactive'] listener of a connected socket. *)
Definition onExecuteInteractive (language code : string) : M unit :=
  tryCatch (executeCodeInteractive language code)
           (fun message =>
              emit (Error message) ;;
              emit (ExecutionComplete "error" None None)).

End WithEnv.

(** The events a world's calls sent to the caller, oldest first. *)
Definition events (w : World) : list Event :=
  flat_map (fun c => match c with Emit e => [e] | _ => [] end) (calls w).

End Interactive.

(** ** Admission queue and the HTTP endpoint *)

Module Server.

(** The body of [POST /execute], after [const {language, code, input}]. *)
Record Request : Type := {
  language : option string;
  code : option string;
  input : option string
}.

(** A queue entry: the request fields and the response handle [res]. *)
Record Task : Type := {
  task_language : option string;
  task_code : option string;
  task_input : option string;
  res : nat
}.

Inductive Body : Type :=
| ErrorBody (error : string)
| ResultBody (result : Batch.Result).

(** [res.status(code).json(body)]; a plain [res.json] has status 200. *)
Record Response : Type := {
  status : Z;
  body : Body
}.

Inductive Mode : Type := batch | interactive.

(** Where a started execution stands; the phases are the stretches
    between the awaits of the two executors. *)
Inductive Phase : Type :=
| preparing | building | starting | running | draining | cleanup.

Record Execution : Type := {
  mode : Mode;
  phase : Phase;
  owner : nat
}.

Record State : Type := {
  executionQueue : list Task;
  currentExecutions : Z;
  live : list Execution;
  sent : list (nat * Response)
}.

Definition initial : State :=
  {| executionQueue := []; currentExecutions := 0; live := []; sent := [] |}.

(** The default of [process.env.MAX_CONCURRENT_EXECUTIONS || 5]. *)
Definition defaultMaxConcurrentExecutions : Z := 5.

Definition nextPhase (m : Mode) (p : Phase) : Phase :=
  match p with
  | preparing => match m with batch => building | interactive => starting end
  | building => starting
  | starting => running
  | running => draining
  | draining => cleanup
  | cleanup => cleanup
  end.

Definition isBatch (e : Execution) : bool :=
  match mode e with batch => true | interactive => false end.

(** An execution in the [building] or [running] phase. *)
Definition isActive (e : Execution) : bool :=
  match phase e with
  | building | running => true
  | _ => false
  end.

(** How [processQueue] answers a settled [executeCode] promise. *)
Definition settle (outcome : string + Batch.Result) : Response :=
  match outcome with
  | inr result => {| status := 200; body := ResultBody result |}
  | inl message => {| status := 500; body := ErrorBody message |}
  end.

(** The arguments of the dispatched call
    [executeCode(task.language, task.code, task.input)]; an absent input
    takes the default [''] of the parameter. *)
Definition callArguments (t : Task) : string * string * string :=
  (match task_language t with Some l => l | None => "undefined" end,
   match task_code t with Some c => c | None => "undefined" end,
   match task_input t with Some i => i | None => "" end).

(** The promise [processQueue] awaits for a dispatched task. *)
Definition dispatched (env : Engine.Env) (toString : list Z -> string) (t : Task)
  : Engine.M Batch.Result :=
  let '(language, code, input) := callArguments t in
  Batch.executeCode env toString language code input.

Section WithCap.

Variable maxConcurrentExecutions : Z.

(** [processQueue]: start at most one queued task, when there is one and
    a slot is free. *)
Definition processQueue (s : State) : State :=
  match executionQueue s with
  | [] => s
  | task :: rest =>
      if currentExecutions s >=? maxConcurrentExecutions then s
      else {| executionQueue := rest;
              currentExecutions := currentExecutions s + 1;
              live := live s ++ [ {| mode := batch; phase := preparing;
                                     owner := res task |} ];
              sent := sent s |}
  end.

(** The handler of [POST /execute]. *)
Definition postExecute (req : Request) (res : nat) (s : State) : State :=
  if negb (JS.truthy (JS.field (language req)))
     || negb (JS.truthy (JS.field (code req)))
  then {| executionQueue := executionQueue s;
          currentExecutions := currentExecutions s;
          live := live s;
          sent := sent s ++ [ (res, {| status := 400;
                                       body := ErrorBody "Language and code are required" |}) ] |}
  else
    processQueue
      {| executionQueue := executionQueue s ++
                           [ {| task_language := language req;
                                task_code := code req;
                                task_input := input req;
                                res := res |} ];
         currentExecutions := currentExecutions s;
         live := live s;
         sent := sent s |}.

Fixpoint removeAt {A : Type} (i : nat) (l : list A) : list A :=
  match l, i with
  | [], _ => []
  | _ :: l', O => l'
  | a :: l', S i' => a :: removeAt i' l'
  end.

Fixpoint advanceAt (i : nat) (l : list Execution) : list Execution :=
  match l, i with
  | [], _ => []
  | e :: l', O =>
      {| mode := mode e; phase := nextPhase (mode e) (phase e); owner := owner e |} :: l'
  | e :: l', S i' => e :: advanceAt i' l'
  end.

(** What can happen to the server. *)
Inductive Happening : Type :=
| Post (req : Request) (res : nat)
| ExecuteInteractive (socket : nat) (language : string)
| Progress (i : nat)
| BatchSettled (i : nat) (outcome : string + Batch.Result)
| InteractiveSettled (i : nat).

Definition step (s : State) (h : Happening) : State :=
  match h with
  | Post req res => postExecute req res s
  | ExecuteInteractive socket language =>
      (* the socket listener calls executeCodeInteractive at once *)
      if Registry.present (Registry.get Registry.supportedLanguages language)
      then {| executionQueue := executionQueue s;
              currentExecutions := currentExecutions s;
              live := live s ++ [ {| mode := interactive; phase := preparing;
                                     owner := socket |} ];
              sent := sent s |}
      else s
  | Progress i =>
      {| executionQueue := executionQueue s;
         currentExecutions := currentExecutions s;
         live := advanceAt i (live s);
         sent := sent s |}
  | BatchSettled i outcome =>
      match nth_error (live s) i with
      | Some e =>
          if isBatch e then
            (* then/catch answer the request; finally frees the slot *)
            processQueue
              {| executionQueue := executionQueue s;
                 currentExecutions := currentExecutions s - 1;
                 live := removeAt i (live s);
                 sent := sent s ++ [ (owner e, settle outcome) ] |}
          else s
      | None => s
      end
  | InteractiveSettled i =>
      match nth_error (live s) i with
      | Some e =>
          if isBatch e then s
          else {| executionQueue := executionQueue s;
                  currentExecutions := currentExecutions s;
                  live := removeAt i (live s);
                  sent := sent s |}
      | None => s
      end
  end.

(** The state after a history of happenings, oldest first. *)
Definition after (history : list Happening) : State :=
  fold_left step history initial.

End WithCap.

(** Executions in [building] or [running], of both modes. *)
Definition inFlight (s : State) : nat := length (filter isActive (live s)).

(** Batch executions in [building] or [running]. *)
Definition batchInFlight (s : State) : nat :=
  length (filter (fun e => isBatch e && isActive e) (live s)).

(** Batch executions dispatched and not yet settled. *)
Definition batchLive (s : State) : nat := length (filter isBatch (live s)).

End Server.

(** ** Scenarios and predicates used by the properties *)

Module Scenario.

(** The counter agrees with the batch executions under way and respects
    the cap. *)
Definition counted (maxConcurrentExecutions : Z) (s : Server.State) : Prop :=
  Server.currentExecutions s = Z.of_nat (Server.batchLive s) /\
  Server.currentExecutions s <= maxConcurrentExecutions.

Definition sampleRequest (language : string) : Server.Request :=
  {| Server.language := Some language;
     Server.code := Some "print(1)";
     Server.input := None |}.

(** Seven batch requests under a cap of five: five are dispatched and
    reach the building phase, two wait in the queue. *)
Definition sevenPosts : list Server.Happening :=
  map (fun r => Server.Post (sampleRequest "python") r) (seq 0 7) ++
  map Server.Progress (seq 0 5).

(** Six interactive sessions, each brought to the running phase. *)
Definition sixSessions : list Server.Happening :=
  map (fun k => Server.ExecuteInteractive k "python") (seq 0 6) ++
  flat_map (fun k => [Server.Progress k; Server.Progress k]) (seq 0 6).

(** An environment in which no call fails and the program exits with
    code 0 before its deadline, printing nothing. *)
Definition quiet : Engine.Env :=
  {| Engine.uuid := "id-1";
     Engine.containerId := "c-1";
     Engine.fails := fun _ => false;
     Engine.statusCode := 0;
     Engine.logs := [];
     Engine.expires := false;
     Engine.arrivals := [] |}.

(** The 400 answer of the endpoint. *)
Definition badRequest : Server.Response :=
  {| Server.status := 400;
     Server.body := Server.ErrorBody "Language and code are required" |}.

(** The state after the endpoint answered [res] with [r] and did nothing
    else. *)
Definition answered (s : Server.State) (res : nat) (r : Server.Response)
  : Server.State :=
  {| Server.executionQueue := Server.executionQueue s;
     Server.currentExecutions := Server.currentExecutions s;
     Server.live := Server.live s;
     Server.sent := Server.sent s ++ [(res, r)] |}.

(** The queue entry of a request. *)
Definition taskOf (req : Server.Request) (res : nat) : Server.Task :=
  {| Server.task_language := Server.language req;
     Server.task_code := Server.code req;
     Server.task_input := Server.input req;
     Server.res := res |}.

(** The state after the request was appended to the queue. *)
Definition admitted (s : Server.State) (req : Server.Request) (res : nat)
  : Server.State :=
  {| Server.executionQueue := Server.executionQueue s ++ [taskOf req res];
     Server.currentExecutions := Server.currentExecutions s;
     Server.live := Server.live s;
     Server.sent := Server.sent s |}.

(** The 500 answer to a task whose language the executor refuses. *)
Definition unsupported (language : string) : Server.Response :=
  {| Server.status := 500;
     Server.body := Server.ErrorBody ("Unsupported language: " ++ language) |}.

(** A request that names a language outside the registry. *)
Definition cobolRequest : Server.Request :=
  {| Server.language := Some "cobol";
     Server.code := Some "DISPLAY 'HI'.";
     Server.input := None |}.

(** What one ['input'] message adds to the stdin of execution [id]: its
    data and a newline when the message names [id] and its data is a
    non-empty string, nothing otherwise. *)
Definition delivery (id : string) (m : option Engine.InputData) : list string :=
  match m with
  | Some {| Engine.executionId := JS.str s; Engine.data := JS.str d |} =>
      if String.eqb s id && negb (String.eqb d "") then [d ++ JS.nl] else []
  | _ => []
  end.

(** A world in which the execution's stream is attached and alive. *)
Definition attached (st : Engine.Stream) : Engine.World :=
  Prim.withStream (Some st) Engine.empty.

Definition freshStream : Engine.Stream :=
  {| Engine.destroyed := false; Engine.written := [] |}.

Definition message (id data : string) : option Engine.InputData :=
  Some {| Engine.executionId := JS.str id; Engine.data := JS.str data |}.

(** One stdout frame whose three payload bytes are 'a', 0x01 and 'b'. *)
Definition taggedPayload : list Z := [97; 1; 98].

Definition taggedLogs : list Z := Demux.frames [(Demux.stdout, taggedPayload)].

(** A computation keeps a property of calls when every call it adds to the
    record has the property. *)
Definition keeps (ok : Engine.Call -> Prop) {A : Type} (m : Engine.M A) : Prop :=
  forall w, Forall ok (Engine.calls w) -> Forall ok (Engine.calls (snd (m w))).

(** The memory class of a language: 256 MiB for Java and Dart, 100 MiB for
    every other language. *)
Definition memoryClass (language : string) : Z :=
  if String.eqb language "java" || String.eqb language "dart"
  then 256 * 1024 * 1024
  else 100 * 1024 * 1024.

(** The mandatory security profile of a container. *)
Definition securityProfile (language : string) (o : Engine.ContainerOptions) : Prop :=
  Engine.Memory (Engine.Host o) = memoryClass language /\
  Engine.MemorySwap (Engine.Host o) = memoryClass language /\
  Engine.NanoCpus (Engine.Host o) = 1000000000 /\
  Engine.PidsLimit (Engine.Host o) = 50 /\
  Engine.NetworkMode (Engine.Host o) = "none" /\
  Engine.Privileged (Engine.Host o) = false /\
  Engine.SecurityOpt (Engine.Host o) = ["no-new-privileges"] /\
  Engine.CapDrop (Engine.Host o) = ["ALL"] /\
  Engine.Tty o = false.

Definition secureCall (language : string) (c : Engine.Call) : Prop :=
  match c with
  | Engine.CreateContainer o => securityProfile language o
  | _ => True
  end.

(** The source matches the stdin detector of its language. *)
Definition detectorMatches (language code : string) : bool :=
  match Detect.detectInteractiveCode language code with
  | inr (JS.boolean true) => true
  | _ => false
  end.

(** Every timer is set to [ms] milliseconds. *)
Definition deadlineCall (ms : Z) (c : Engine.Call) : Prop :=
  match c with
  | Engine.SetTimeout d => d = ms
  | _ => True
  end.

(** The deadline of a batch execution, in milliseconds: 15 s when the
    source matches the stdin detector of its language, 10 s otherwise. *)
Definition batchDeadline (language code : string) : Z :=
  if detectorMatches language code then 15000 else 10000.

(** The deadline of an interactive execution: 300 s. *)
Definition interactiveDeadline : Z := 300000.

Definition isRunning (container : string) (w : Engine.World) : bool :=
  existsb (String.eqb container) (Engine.running w).

(** A world in which container ["c-1"] exists and runs. *)
Definition busy : Engine.World :=
  Prim.withRunning (fun _ => ["c-1"]) (Prim.withContainers (fun _ => ["c-1"]) Engine.empty).

(** As [quiet], except that [container.start()] is rejected. *)
Definition startFails : Engine.Env :=
  {| Engine.uuid := "id-1";
     Engine.containerId := "c-1";
     Engine.fails := fun op => match op with Engine.OpStart => true | _ => false end;
     Engine.statusCode := 0;
     Engine.logs := [];
     Engine.expires := false;
     Engine.arrivals := [] |}.

(** The createContainer calls among the recorded calls. *)
Definition created (w : Engine.World) : list Engine.ContainerOptions :=
  flat_map (fun c => match c with Engine.CreateContainer o => [o] | _ => [] end)
           (Engine.calls w).

(** The files written, as (path, content), in call order. *)
Definition writes (w : Engine.World) : list (string * string) :=
  flat_map (fun c => match c with Engine.WriteFile p t => [(p, t)] | _ => [] end)
           (Engine.calls w).

(** The image builds requested, as (sources, tag). *)
Definition builds (w : Engine.World) : list (list string * string) :=
  flat_map (fun c => match c with Engine.BuildImage _ src t => [(src, t)] | _ => [] end)
           (Engine.calls w).

(** A Python source that reads standard input. *)
Definition readsInput : string := "name = input()".

(** Calls the listeners make while the executor awaits the container: an
    output event, a write to stdin, the end of the stream's write side. *)
Definition listenerCall (c : Engine.Call) : Prop :=
  match c with
  | Engine.Emit (Engine.Output _ _) => True
  | Engine.StreamWrite _ => True
  | Engine.StreamEnd => True
  | _ => False
  end.

(** [w'] is [w] after the listeners ran: only the stream changed, and only
    listener calls were added. *)
Definition awaited (w w' : Engine.World) : Prop :=
  Engine.dirs w' = Engine.dirs w /\
  Engine.files w' = Engine.files w /\
  Engine.images w' = Engine.images w /\
  Engine.containers w' = Engine.containers w /\
  Engine.running w' = Engine.running w /\
  Engine.timer w' = Engine.timer w /\
  Engine.listening w' = Engine.listening w /\
  exists cs, Engine.calls w' = (Engine.calls w ++ cs)%list /\ Forall listenerCall cs.

Definition isOutput (e : Engine.Event) : Prop :=
  match e with
  | Engine.Output _ _ => True
  | _ => False
  end.

(** The two ways a started session ends: the completion that reports the
    exit code and the execution id, or an error followed by the bare
    completion of the socket listener. *)
Definition ending (id : string) (es : list Engine.Event) : Prop :=
  (exists exitCode,
      es = [Engine.ExecutionComplete (if exitCode =? 0 then "success" else "error")
                                     (Some exitCode) (Some id)]) \/
  (exists message,
      es = [Engine.Error message; Engine.ExecutionComplete "error" None None]).

(** The event sequences of one interactive request. *)
Inductive session (id : string) : list Engine.Event -> Prop :=
| refused (message : string) :
    session id [Engine.Error message; Engine.ExecutionComplete "error" None None]
| failedBeforeStart (message : string) :
    session id [Engine.Output Interactive.startingNotice None;
                Engine.Error message;
                Engine.ExecutionComplete "error" None None]
| started (outputs es : list Engine.Event) :
    Forall isOutput outputs ->
    ending id es ->
    session id (Engine.Output Interactive.startingNotice None
                :: Engine.ExecutionStart id :: outputs ++ es).



(** As [quiet], with one stdout chunk arriving while the program runs. *)
Definition chatty : Engine.Env :=
  {| Engine.uuid := "id-1";
     Engine.containerId := "c-1";
     Engine.fails := fun _ => false;
     Engine.statusCode := 0;
     Engine.logs := [];
     Engine.expires := false;
     Engine.arrivals := [Engine.Frame Demux.stdout "hi"] |}.

(** The delays of the timers set, in call order. *)
Definition timers (w : Engine.World) : list Z :=
  flat_map (fun c => match c with Engine.SetTimeout d => [d] | _ => [] end)
           (Engine.calls w).

(** The containers that received a stop call, in call order. *)
Definition stops (w : Engine.World) : list string :=
  flat_map (fun c => match c with Engine.Stop d => [d] | _ => [] end)
           (Engine.calls w).

(** As [quiet], but the program is still running when its deadline
    passes. *)
Definition endless : Engine.Env :=
  {| Engine.uuid := "id-1";
     Engine.containerId := "c-1";
     Engine.fails := fun _ => false;
     Engine.statusCode := 137;
     Engine.logs := [];
     Engine.expires := true;
     Engine.arrivals := [] |}.

(** A payload the cleaner's scan cannot misread: it is not empty and
    holds neither byte 0x01 nor byte 0x02. *)
Definition plain (payload : list Z) : Prop :=
  payload <> [] /\ Forall (fun b => Demux.isTag b = false) payload.

(** What follows a frame in a well-formed stream: nothing, or the tag
    byte of the next header. *)
Definition tagged (rest : list Z) : Prop :=
  match rest with
  | [] => True
  | b :: _ => Demux.isTag b = true
  end.

(** The calls of a batch execution whose input is the empty string: the
    only files written are the source and a Dockerfile without input, the
    build gets these two, the container runs the plain command with a
    falsy OpenStdin (the empty string exactly when the source matches the
    stdin detector), and the stream is never attached or written. *)
Definition emptyInputCall (env : Engine.Env) (language code : string)
    (c : Engine.Call) : Prop :=
  let workDir := "/tmp/" ++ Engine.uuid env in
  let fileName := Registry.fileName language in
  match c with
  | Engine.WriteFile path content =>
      (path = workDir ++ "/" ++ fileName /\ content = code) \/
      (path = workDir ++ "/Dockerfile" /\
       exists baseImage, content = Batch.dockerfileContent baseImage fileName "")
  | Engine.BuildImage _ src _ => src = ["Dockerfile"; fileName]
  | Engine.CreateContainer o =>
      (exists spec,
          Registry.get Registry.supportedLanguages language = Registry.Own spec /\
          Engine.Cmd o = Some (Registry.command spec)) /\
      JS.truthy (Engine.OpenStdin o) = false /\
      (Engine.OpenStdin o = JS.str "" <-> detectorMatches language code = true)
  | Engine.Attach _ | Engine.StreamWrite _ | Engine.StreamEnd => False
  | _ => True
  end.

(** The specDemultiplexer as the specification words it, for comparison with
    the cleaner of the source: read an 8-byte header, take the stream from
    its first byte and the length from its last four bytes (big-endian),
    read exactly that many payload bytes, repeat until the end; a partial
    header or payload is an error. *)
Definition headerLength (header : list Z) : Z :=
  match header with
  | [_; _; _; _; b4; b5; b6; b7] =>
      Z.lor (Z.shiftl b4 24) (Z.lor (Z.shiftl b5 16) (Z.lor (Z.shiftl b6 8) b7))
  | _ => 0
  end.

Definition headerTag (header : list Z) : option Demux.streamTag :=
  match header with
  | 1 :: _ => Some Demux.stdout
  | 2 :: _ => Some Demux.stderr
  | _ => None
  end.

Fixpoint specDemultiplex (fuel : nat) (bytes : list Z)
  : option (list (Demux.streamTag * list Z)) :=
  match bytes with
  | [] => Some []
  | _ :: _ =>
      match fuel with
      | O => None
      | S fuel' =>
          let header := firstn 8 bytes in
          let body := skipn 8 bytes in
          let len := Z.to_nat (headerLength header) in
          match headerTag header with
          | Some t =>
              if (Nat.ltb (length header) 8 || Nat.ltb (length body) len)%bool
              then None
              else
                match specDemultiplex fuel' (skipn len body) with
                | Some fs => Some ((t, firstn len body) :: fs)
                | None => None
                end
          | None => None
          end
      end
  end.

Definition specDemultiplexed (bytes : list Z) : option (list (Demux.streamTag * list Z)) :=
  specDemultiplex (length bytes) bytes.

End Scenario.

(** ** A language that is not a string, and the batch executor on it *)

Module Wire.
Import Engine Prim.
Local Open Scope engine_scope.

(** The [language] field as it arrives in a JSON body or a socket
    message. The interface documents a string; the code takes any truthy
    value. A value that is not a string (the array [["python"]], a
    number, an object) is used as a property key after conversion to a
    string, [key], and is strictly equal to no string. *)
Inductive Language : Type :=
| Text (s : string)
| Other (key : string).

(** The property key of [obj[language]], also the text of
    [`${language}`]. *)
Definition key (language : Language) : string :=
  match language with
  | Text s => s
  | Other k => k
  end.

(** [language === name], for a string literal [name]. *)
Definition equals (language : Language) (name : string) : bool :=
  match language with
  | Text s => String.eqb s name
  | Other _ => false
  end.

(** The source file name, as both executors compute it. *)
Definition fileName (language : Language) : string :=
  if equals language "java" then "Main.java"
  else if equals language "cpp" then "main.cpp"
  else if equals language "go" then "main.go"
  else if equals language "dart" then "main.dart"
  else "script" ++ Registry.extensionText (key language).

(** Language-specific memory limit in bytes. *)
Definition memoryLimit (language : Language) : Z :=
  if equals language "dart" then 256 * 1024 * 1024
  else if equals language "java" then 256 * 1024 * 1024
  else 100 * 1024 * 1024.

(** The command that pipes [input.txt] into the program. *)
Definition pipedCommand (language : Language) (cmd : list string) : list string :=
  if equals language "java" then
    ["sh"; "-c"; "cd /code && javac -d /tmp Main.java && cat input.txt | java -cp /tmp Main"]
  else if equals language "cpp" then
    ["sh"; "-c"; "cd /code && g++ -o /tmp/program main.cpp && cat input.txt | /tmp/program"]
  else if equals language "go" then
    ["sh"; "-c"; "cat /code/input.txt | go run /code/main.go"]
  else if equals language "ruby" then
    ["sh"; "-c"; "cat /code/input.txt | ruby /code/script.rb"]
  else if equals language "python" then
    ["sh"; "-c"; "cat /code/input.txt | python /code/script.py"]
  else if equals language "javascript" then
    ["sh"; "-c"; "cat /code/input.txt | node /code/script.js"]
  else if equals language "dart" then
    ["sh"; "-c"; "cat /code/input.txt | dart run /code/main.dart"]
  else cmd.

(** [cmd], after the [if (hasInteractiveInput && input)] block. *)
Definition command (language : Language) (plain : list string)
    (hasInteractiveInput : JS.value) (input : string) : list string :=
  if JS.truthy (JS.and hasInteractiveInput (JS.str input))
  then pipedCommand language plain
  else plain.

Section WithEnv.

Variable env : Env.
Variable toString : list Z -> string.

(** The body of the [try] block of [executeCode]. *)
Definition run (language : Language) (code input executionId workDir : string)
  : M Batch.Result :=
  mkdir env workDir ;;
  let fileName := fileName language in
  let filePath := workDir ++ "/" ++ fileName in
  writeFile env filePath code ;;
  hasInteractiveInput <-
    match Detect.detectInteractiveCode (key language) code with
    | inl e => throw e
    | inr v => ret v
    end ;;
  (if JS.truthy (JS.str input)
   then writeFile env (workDir ++ "/input.txt") (Batch.inputContent input)
   else ret tt) ;;
  let tempDockerfilePath := workDir ++ "/Dockerfile" in
  match Registry.get Registry.supportedLanguages (key language) with
  | Registry.Own spec =>
      let baseImage := Registry.image spec in
      writeFile env tempDockerfilePath
                (Batch.dockerfileContent baseImage fileName input) ;;
      let tmpImageName := "code-exec-tmp-" ++ executionId in
      buildImage env workDir (Batch.buildSources fileName input) tmpImageName ;;
      let cmd := command language (Registry.command spec) hasInteractiveInput input in
      let memoryLimit := memoryLimit language in
      let openStdin := Batch.directStdin hasInteractiveInput input cmd in
      container <- createContainer env
                     (Batch.containerOptions tmpImageName cmd memoryLimit openStdin) ;;
      (if JS.truthy openStdin then
         _ <- attach env container ;;
         record (StreamWrite (Batch.inputContent input)) ;;
         record StreamEnd
       else ret tt) ;;
      start env container ;;
      setTimeout {| delay := Batch.timeoutDuration hasInteractiveInput;
                    target := container; notice := false |} ;;
      data <- wait env (fun _ => ret tt) container ;;
      clearTimeout ;;
      logs <- containerLogs env container ;;
      output <-
        match Demux.cleanDockerLogs toString logs with
        | Some text => ret text
        | None => throw "cleanDockerLogs does not return"
        end ;;
      tryCatch (remove env container) (fun _ => ret tt) ;;
      tryCatch (removeImage env tmpImageName) (fun _ => ret tt) ;;
      ret {| Batch.executionId := executionId;
             Batch.status := if data =? 0 then "success" else "error";
             Batch.output := output;
             Batch.exitCode := data |}
  | _ => throw "Cannot read properties of undefined"
  end.

(** [executeCode(language, code, input = '')], for any [language]. *)
Definition executeCode (language : Language) (code input : string)
  : M Batch.Result :=
  if negb (Registry.present (Registry.get Registry.supportedLanguages (key language)))
  then throw ("Unsupported language: " ++ key language)
  else
    let executionId := uuid env in
    let workDir := "/tmp/" ++ executionId in
    tryFinally
      (tryCatch (run language code input executionId workDir)
                (fun error => throw error))
      (tryCatch (rm env workDir) (fun _ => ret tt)).

End WithEnv.

End Wire.

(** ** The interactive session as the caller observes it *)

Module Session.
Import Engine Prim.
Local Open Scope engine_scope.

(** Something that happens while the executor waits, or after the
    socket listener has returned: an arrival, or the moment the delay of
    the deadline timer has passed. *)
Inductive Moment : Type :=
| Arrives (a : Arrival)
| Deadline.

(** The payload of an ['execute-interactive'] message. A [code] that is
    not a string makes [fs.writeFile] reject: an environment in which
    [OpWriteFile] fails. *)
Record Payload : Type := {
  language : Wire.Language;
  code : string
}.

Definition containerOptions (language : Wire.Language) (executionId : string)
  : ContainerOptions :=
  {| Image := match Registry.get Registry.supportedLanguages (Wire.key language) with
              | Registry.Own spec => Some (Registry.image spec)
              | _ => None
              end;
     Cmd := match Registry.get Registry.supportedLanguages (Wire.key language) with
            | Registry.Own spec => Some (Registry.command spec)
            | _ => None
            end;
     Host := {| Memory := Wire.memoryLimit language;
                MemorySwap := Wire.memoryLimit language;
                NanoCpus := 1 * 1000000000;
                PidsLimit := 50;
                StopTimeout := None;
                NetworkMode := "none";
                Privileged := false;
                SecurityOpt := ["no-new-privileges"];
                CapDrop := ["ALL"];
                Mounts := [ {| Type_ := "volume";
                               Source := "code_execution_server_code-workdir";
                               Target := "/workdir";
                               ReadOnly := false |} ] |};
     OpenStdin := JS.boolean true;
     StdinOnce := false;
     AttachStdin := Some true;
     AttachStdout := true;
     AttachStderr := true;
     Tty := false;
     WorkingDir := Some ("/workdir/" ++ executionId) |}.

Section WithEnv.

Variable env : Env.

(** The delay has passed: a timer that is still pending runs its callback,
    once. A timer that was cleared, or never set, does nothing. *)
Definition fire : M unit :=
  pending <- gets timer ;;
  match pending with
  | Some t => modify (withTimer None) ;; onTimeout env t
  | None => ret tt
  end.

(** What one moment does. The listeners of the stream and of its two
    sinks exist from the attachment on and are never removed; nothing
    arrives from a stream that was never attached. *)
Definition happens (executionId : string) (m : Moment) : M unit :=
  match m with
  | Arrives a =>
      st <- gets stream ;;
      match st with
      | Some _ => Interactive.handle executionId a
      | None => ret tt
      end
  | Deadline => fire
  end.

(** The body of the [try] block; [during] is what happens, in order,
    while the executor awaits [container.wait()]. *)
Definition run (language : Wire.Language) (code executionId workDir : string)
    (during : list Moment) : M unit :=
  mkdir env workDir ;;
  let fileName := Wire.fileName language in
  let filePath := workDir ++ "/" ++ fileName in
  writeFile env filePath code ;;
  emit (Output Interactive.startingNotice None) ;;
  container <- createContainer env (containerOptions language executionId) ;;
  st <- attach env container ;;
  modify (withStream (Some st)) ;;
  record (SocketOn "input") ;;
  modify (withListening true) ;;
  emit (ExecutionStart executionId) ;;
  start env container ;;
  setTimeout {| delay := Interactive.timeoutDuration; target := container;
                notice := true |} ;;
  record (Wait container) ;;
  forEach during (happens executionId) ;;
  failing env OpWait "wait failed" ;;
  modify (withRunning (without container)) ;;
  let exitData := statusCode env in
  clearTimeout ;;
  record StreamEnd ;;
  remove env container ;;
  emit (ExecutionComplete (if exitData =? 0 then "success" else "error")
                          (Some exitData) (Some executionId)).

Definition executeCodeInteractive (language : Wire.Language) (code : string)
    (during : list Moment) : M unit :=
  if negb (Registry.present
             (Registry.get Registry.supportedLanguages (Wire.key language)))
  then throw ("Unsupported language: " ++ Wire.key language)
  else
    let executionId := uuid env in
    let workDir := "/workdir/" ++ executionId in
    tryFinally
      (tryCatch (run language code executionId workDir during)
                (fun error => throw error))
      (Interactive.cleanup env workDir).

(** The ['execute-interactive'] listener of a connected socket. The
    payload is destructured before the [try] block: a message without
    payload makes the listener throw. *)
Definition onExecuteInteractive (data : option Payload) (during : list Moment)
  : M unit :=
  match data with
  | None =>
      throw "Cannot destructure property 'language' of 'data' as it is undefined."
  | Some p =>
      tryCatch (executeCodeInteractive (language p) (code p) during)
               (fun message =>
                  emit (Error message) ;;
                  emit (ExecutionComplete "error" None None))
  end.

(** The world after the listener has run on a fresh world and [after]
    has happened since. *)
Definition observed (data : option Payload) (during after : list Moment) : World :=
  snd (forEach after (happens (uuid env))
               (snd (onExecuteInteractive data during empty))).

(** Everything the caller's socket receives, oldest first. *)
Definition events (data : option Payload) (during after : list Moment)
  : list Event :=
  Interactive.events (observed data during after).


End WithEnv.

End Session.

(** ** Notions used by the further properties *)

Module More.

(** The text with every ASCII capital replaced by its small letter. *)
Fixpoint lowerString (s : string) : string :=
  match s with
  | "" => ""
  | String c s' => String (Detect.lower c) (lowerString s')
  end.

(** The last character of a text, or [prev] for the empty text. *)
Fixpoint lastOr (prev : option ascii) (s : string) : option ascii :=
  match s with
  | "" => prev
  | String c s' => lastOr (Some c) s'
  end.

(** Every character of the text is white space. *)
Fixpoint allSpace (s : string) : bool :=
  match s with
  | "" => true
  | String c s' => Detect.isSpace c && allSpace s'
  end.

(** Two property reads of the same kind: both own, both inherited or both
    missing. *)
Definition sameKind {A B : Type} (a : Registry.property A) (b : Registry.property B)
  : Prop :=
  match a, b with
  | Registry.Own _, Registry.Own _ => True
  | Registry.Inherited, Registry.Inherited => True
  | Registry.Missing, Registry.Missing => True
  | _, _ => False
  end.

(** A call, as the Python pattern sees it: the letters of [input] in any
    case, white space, an opening parenthesis. *)
Definition pythonCall (gap rest : string) : string :=
  "input" ++ gap ++ "(" ++ rest.

(** A call that gives the container no stdin: no attach, no write to a
    stream, no end of a stream, and no container created with a truthy
    [OpenStdin]. *)
Definition noStdin (c : Engine.Call) : Prop :=
  match c with
  | Engine.Attach _ | Engine.StreamWrite _ | Engine.StreamEnd => False
  | Engine.CreateContainer o => JS.truthy (Engine.OpenStdin o) = false
  | _ => True
  end.

(** Every container is created to run [cmd]. *)
Definition runs (cmd : list string) (c : Engine.Call) : Prop :=
  match c with
  | Engine.CreateContainer o => Engine.Cmd o = Some cmd
  | _ => True
  end.

(** The directory and every file below it are gone. *)
Definition cleared (dir : string) (w : Engine.World) : Prop :=
  ~ In dir (Engine.dirs w) /\
  Forall (fun f => String.prefix (dir ++ "/") (fst f) = false) (Engine.files w).

(** A call of an interactive session: no image is built or removed, no
    container log is read, and a container of a registered language is
    created from the registry's image with the registry's command. *)
Definition sessionCall (language : string) (c : Engine.Call) : Prop :=
  match c with
  | Engine.BuildImage _ _ _ | Engine.RemoveImage _ | Engine.Logs _ => False
  | Engine.CreateContainer o =>
      forall spec,
        Registry.get Registry.supportedLanguages language = Registry.Own spec ->
        Engine.Image o = Some (Registry.image spec) /\
        Engine.Cmd o = Some (Registry.command spec)
  | _ => True
  end.

(** A call of a batch execution: no socket listener is bound or unbound,
    and a container is created from the temporary image of the execution,
    without a mount. *)
Definition batchCall (env : Engine.Env) (c : Engine.Call) : Prop :=
  match c with
  | Engine.SocketOn _ | Engine.SocketOff _ => False
  | Engine.CreateContainer o =>
      Engine.Image o = Some ("code-exec-tmp-" ++ Engine.uuid env) /\
      Engine.Mounts (Engine.Host o) = []
  | _ => True
  end.

(** A computation yields [P] when every value it returns has [P]. *)
Definition yields {A : Type} (P : A -> Prop) (m : Engine.M A) : Prop :=
  forall w a, fst (m w) = inr a -> P a.

(** The result of a batch execution, as the environment determines it. *)
Definition reported (env : Engine.Env) (toString : list Z -> string)
    (r : Batch.Result) : Prop :=
  Batch.executionId r = Engine.uuid env /\
  Batch.exitCode r = Engine.statusCode env /\
  Batch.status r = (if Engine.statusCode env =? 0 then "success" else "error") /\
  Demux.cleanDockerLogs toString (Engine.logs env) = Some (Batch.output r).

(** The response handles of the POST requests of a history, oldest
    first. *)
Definition posted (history : list Server.Happening) : list nat :=
  flat_map (fun h => match h with
                     | Server.Post _ res => [res]
                     | _ => []
                     end) history.

(** The handles of the requests that passed the endpoint's check, oldest
    first. *)
Definition queued (history : list Server.Happening) : list nat :=
  flat_map (fun h => match h with
                     | Server.Post req res =>
                         if negb (JS.truthy (JS.field (Server.language req)))
                            || negb (JS.truthy (JS.field (Server.code req)))
                         then []
                         else [res]
                     | _ => []
                     end) history.

(** Where the requests of a state are: waiting in the queue, being
    executed, or answered. *)
Definition whereabouts (s : Server.State) : list nat :=
  (map Server.res (Server.executionQueue s) ++
   map Server.owner (filter Server.isBatch (Server.live s)) ++
   map fst (Server.sent s))%list.

(** A request waits only while the counter has reached the cap. *)
Definition saturated (maxConcurrentExecutions : Z) (s : Server.State) : Prop :=
  Server.executionQueue s = [] \/
  Server.currentExecutions s >= maxConcurrentExecutions.

(** What the stream listeners send to the caller for one arrival: a
    stdout chunk as it is, a stderr chunk typed ['stderr'], nothing for
    the rest. *)
Definition relayed (a : Engine.Arrival) : list Engine.Event :=
  match a with
  | Engine.Frame Demux.stdout chunk => [Engine.Output chunk None]
  | Engine.Frame Demux.stderr chunk => [Engine.Output chunk (Some "stderr")]
  | _ => []
  end.

(** A call to the file system. *)
Definition fileCall (c : Engine.Call) : Prop :=
  match c with
  | Engine.Mkdir _ | Engine.WriteFile _ _ | Engine.Rm _ => True
  | _ => False
  end.

(** An arrival that is an output chunk or an input message. *)
Definition flowing (a : Engine.Arrival) : Prop :=
  match a with
  | Engine.Frame _ _ | Engine.Input _ => True
  | _ => False
  end.

(** What one arrival adds to the stdin of execution [id]. *)
Definition typed (id : string) (a : Engine.Arrival) : list string :=
  match a with
  | Engine.Input m => Scenario.delivery id m
  | _ => []
  end.

(** The calls the listeners of execution [id] make for one arrival. *)
Definition effect (id : string) (a : Engine.Arrival) : list Engine.Call :=
  (map Engine.Emit (relayed a) ++ map Engine.StreamWrite (typed id a))%list.

(** The letters a pattern starts with: its literals up to the first
    star (a word boundary takes no character). *)
Fixpoint stem (p : Detect.pattern) : string :=
  match p with
  | [] => ""
  | Detect.Lit c :: p' => String c (stem p')
  | Detect.WordBoundary :: p' => stem p'
  | Detect.SpaceStar :: _ => ""
  end.

(** [w'] is [w] after something happened that told the caller [outs]:
    the file system, the images, the containers and the input listener
    are as before. *)
Definition told (outs : list Engine.Event) (w w' : Engine.World) : Prop :=
  Engine.dirs w' = Engine.dirs w /\
  Engine.files w' = Engine.files w /\
  Engine.images w' = Engine.images w /\
  Engine.containers w' = Engine.containers w /\
  Engine.listening w' = Engine.listening w /\
  Interactive.events w' = (Interactive.events w ++ outs)%list.

(** The stream is attached; a timer is pending exactly when [armed], and
    it is then the deadline of a running container, with the notice. *)
Definition waiting (armed : bool) (w : Engine.World) : Prop :=
  Engine.stream w <> None /\
  if armed
  then exists t, Engine.timer w = Some t /\ Engine.notice t = true /\
                 Scenario.isRunning (Engine.target t) w = true
  else Engine.timer w = None.

(** What the caller is told by a sequence of moments when no operation
    fails: every chunk is relayed, and the first expiry of a pending
    deadline gives the timeout notice. *)
Fixpoint heard (armed : bool) (moments : list Session.Moment) : list Engine.Event :=
  match moments with
  | [] => []
  | Session.Arrives a :: rest => (relayed a ++ heard armed rest)%list
  | Session.Deadline :: rest =>
      ((if armed then [Engine.Output Prim.timeoutNotice (Some "error")] else [])
       ++ heard false rest)%list
  end.


(** Whether a deadline that was pending before the moment still is. *)
Definition stillArmed (armed : bool) (m : Session.Moment) : bool :=
  match m with
  | Session.Arrives _ => armed
  | Session.Deadline => false
  end.

(** A call of a batch execution that runs the command [plain] and hands
    the input to the program's stdin exactly when [direct]: every
    container is created to run [plain], with a truthy [OpenStdin] exactly
    when [direct], and a stream is attached, written or ended only when
    [direct]. *)
Definition stdinWhen (direct : bool) (plain : list string) (c : Engine.Call) : Prop :=
  match c with
  | Engine.CreateContainer o =>
      JS.truthy (Engine.OpenStdin o) = direct /\ Engine.Cmd o = Some plain
  | Engine.Attach _ | Engine.StreamWrite _ | Engine.StreamEnd => direct = true
  | _ => True
  end.

(** The condition under which [executeCode] writes the input to the
    container's stdin, for a language that is not a string: the detector
    matches, the input is not empty and the first word of the registry
    command does not contain [sh]. *)
Definition direct (key code input : string) (spec : Registry.LanguageSpec) : bool :=
  Scenario.detectorMatches key code
  && negb (String.eqb input "")
  && negb (JS.includes "sh" (hd "" (Registry.command spec))).

(** A text of [n] letters. *)
Fixpoint letters (n : nat) : string :=
  match n with
  | O => ""
  | S n' => String "a" (letters n')
  end.

(** A request whose source has 50 001 code points and whose stdin text
    has 10 001. *)
Definition oversized : Server.Request :=
  {| Server.language := Some "python";
     Server.code := Some (letters (Z.to_nat 50001));
     Server.input := Some (letters (Z.to_nat 10001)) |}.

(** The statuses the handler and the queue answer with. *)
Definition given (answer : nat * Server.Response) : Prop :=
  Server.status (snd answer) = 200 \/
  Server.status (snd answer) = 400 \/
  Server.status (snd answer) = 500.

(** The moments of the wait as [Prim.wait] takes them from the
    environment: every arrival, then the deadline when it expires before
    the program ends. *)
Definition schedule (env : Engine.Env) : list Session.Moment :=
  (map Session.Arrives (Engine.arrivals env) ++
   (if Engine.expires env then [Session.Deadline] else []))%list.

End More.

(** ** The start script [start.sh] *)

Module Startup.

(** What the script does, in order: the lines it prints (without their
    pictographs) and the commands it runs. *)
Inductive Action : Type :=
| Echo (line : string)
| DockerInfo
| ComposeBuild
| ComposeUp
| Sleep (seconds : Z)
| Curl (url : string).

(** The machine the script runs on: which commands succeed, and whether
    the i-th request to the health endpoint does. *)
Record Host : Type := {
  dockerInfo : bool;
  composeBuild : bool;
  composeUp : bool;
  healthy : nat -> bool
}.

Definition healthUrl : string := "http://localhost:3000/health".

Definition ready : list Action :=
  [ Echo "Server is healthy and ready!";
    Echo "";
    Echo "Application is running!";
    Echo "Access the application at: http://localhost:3000";
    Echo "";
    Echo "Useful commands:";
    Echo "  - View logs: docker-compose logs -f";
    Echo "  - Stop server: docker-compose down";
    Echo "  - Restart: docker-compose restart" ].

Definition notReady : list Action :=
  [ Echo "Server started but health check failed";
    Echo "Check logs with: docker-compose logs -f";
    Echo "";
    Echo "Application should be available at: http://localhost:3000" ].

(** [for i in {1..10}; do if curl -f ...; then ...; exit 0; fi; sleep 2;
    done], followed by the lines after the loop; the script then ends with
    the status of its last [echo]. *)
Fixpoint probe (host : Host) (attempts : list nat) : list Action * Z :=
  match attempts with
  | [] => (notReady, 0)
  | i :: rest =>
      if healthy host i then (Curl healthUrl :: ready, 0)
      else
        let (trace, status) := probe host rest in
        (Curl healthUrl :: Sleep 2 :: trace, status)
  end.

(** The whole script: its trace and its exit status. *)
Definition start (host : Host) : list Action * Z :=
  let banner := [Echo "Starting Code Execution Server..."; Echo ""; DockerInfo] in
  if negb (dockerInfo host) then
    ((banner ++ [ Echo "Error: Docker is not running!";
                  Echo "Please start Docker Desktop and try again." ])%list, 1)
  else
    let building :=
      (banner ++ [ Echo "Docker is running"; Echo "";
                   Echo "Building Docker images..."; ComposeBuild ])%list in
    if negb (composeBuild host) then
      ((building ++ [Echo "Failed to build Docker images"])%list, 1)
    else
      let starting :=
        (building ++ [ Echo "Docker images built successfully"; Echo "";
                       Echo "Starting services..."; ComposeUp ])%list in
      if negb (composeUp host) then
        ((starting ++ [Echo "Failed to start services"])%list, 1)
      else
        let (trace, status) := probe host (seq 1 10) in
        ((starting ++ [ Echo "Services started successfully"; Echo "";
                        Echo "Waiting for server to be ready..."; Sleep 5 ]
                   ++ trace)%list, status).

(** The requests made to the health endpoint. *)
Definition probes (trace : list Action) : nat :=
  length (filter (fun a => match a with Curl _ => true | _ => false end) trace).

(** The seconds spent in [sleep]. *)
Definition slept (trace : list Action) : Z :=
  fold_right (fun a total => match a with Sleep s => s + total | _ => total end)
             0 trace.

(** The compose commands in a trace, in order. *)
Definition composed (trace : list Action) : list Action :=
  filter (fun a => match a with ComposeBuild | ComposeUp => true | _ => false end)
         trace.

End Startup.

(** * Properties *)

(** ** Admission: the endpoint and the queue *)

Section Admission.

Import Server Scenario.

Variable maxConcurrentExecutions : Z.

Lemma filter_removeAt_hit {A : Type} (f : A -> bool) (i : nat) (l : list A) (a : A) :
  nth_error l i = Some a -> f a = true ->
  S (length (filter f (removeAt i l))) = length (filter f l).
Proof.
  revert i; induction l as [|b l IH]; intros [|i]; simpl; try discriminate.
  - intros [= ->] ->. reflexivity.
  - intros Hn Hf. specialize (IH i Hn Hf). destruct (f b); simpl; lia.
Qed.

Lemma filter_removeAt_miss {A : Type} (f : A -> bool) (i : nat) (l : list A) (a : A) :
  nth_error l i = Some a -> f a = false ->
  length (filter f (removeAt i l)) = length (filter f l).
Proof.
  revert i; induction l as [|b l IH]; intros [|i]; simpl; try discriminate.
  - intros [= ->] ->. reflexivity.
  - intros Hn Hf. specialize (IH i Hn Hf). destruct (f b); simpl; lia.
Qed.

Lemma isBatch_advanceAt (i : nat) (l : list Execution) :
  length (filter isBatch (advanceAt i l)) = length (filter isBatch l).
Proof.
  revert i; induction l as [|e l IH]; intros [|i]; simpl; auto.
  - unfold isBatch; simpl. destruct (mode e); reflexivity.
  - specialize (IH i). destruct (isBatch e); simpl; lia.
Qed.

Lemma counted_processQueue (s : State) :
  counted maxConcurrentExecutions s ->
  counted maxConcurrentExecutions (processQueue maxConcurrentExecutions s).
Proof.
  unfold counted, processQueue, batchLive. intros [Hc Hm].
  destruct (executionQueue s) as [|task rest]; [auto|].
  destruct (Z.geb_spec (currentExecutions s) maxConcurrentExecutions); [auto|].
  simpl. rewrite filter_app, length_app. simpl. lia.
Qed.

Lemma counted_step (s : State) (h : Happening) :
  counted maxConcurrentExecutions s ->
  counted maxConcurrentExecutions (step maxConcurrentExecutions s h).
Proof.
  intros Hs. destruct h as [req r | socket lang | i | i outcome | i]; simpl.
  - unfold postExecute.
    destruct (negb _ || negb _); [exact Hs|].
    apply counted_processQueue. exact Hs.
  - destruct (Registry.present _); [|exact Hs].
    destruct Hs as [Hc Hm]. unfold counted, batchLive in *; simpl.
    rewrite filter_app, length_app. simpl. split; [lia|exact Hm].
  - destruct Hs as [Hc Hm]. unfold counted, batchLive in *; simpl.
    rewrite (isBatch_advanceAt i (live s)). auto.
  - destruct (nth_error (live s) i) as [e|] eqn:He; [|exact Hs].
    destruct (isBatch e) eqn:Hb; [|exact Hs].
    apply counted_processQueue.
    destruct Hs as [Hc Hm]. unfold counted, batchLive in *; simpl.
    pose proof (filter_removeAt_hit isBatch i (live s) e He Hb). lia.
  - destruct (nth_error (live s) i) as [e|] eqn:He; [|exact Hs].
    destruct (isBatch e) eqn:Hb; [exact Hs|].
    destruct Hs as [Hc Hm]. unfold counted, batchLive in *; simpl.
    rewrite (filter_removeAt_miss isBatch i (live s) e He Hb). auto.
Qed.

Lemma counted_fold (history : list Happening) (s : State) :
  counted maxConcurrentExecutions s ->
  counted maxConcurrentExecutions (fold_left (step maxConcurrentExecutions) history s).
Proof.
  revert s; induction history as [|h history IH]; intros s Hs; simpl; [exact Hs|].
  apply IH, counted_step, Hs.
Qed.

Lemma batchInFlight_le_batchLive (s : State) :
  (batchInFlight s <= batchLive s)%nat.
Proof.
  unfold batchInFlight, batchLive.
  induction (live s) as [|e l IH]; simpl; [lia|].
  destruct (isBatch e); simpl; [destruct (isActive e); simpl; lia | exact IH].
Qed.

End Admission.

(** C1 (as the code has it). In every state the server reaches, the counter
    [currentExecutions] equals the number of batch executions dispatched and
    not yet settled and, for a non-negative cap, is at most
    [maxConcurrentExecutions]; so at most that many batch executions are in
    the building or running phase. Interactive executions are started by the
    socket listener without passing the queue and are not part of the
    bound. *)
Theorem C1_batch_executions_bounded :
  forall (maxConcurrentExecutions : Z) (history : list Server.Happening),
    0 <= maxConcurrentExecutions ->
    let s := Server.after maxConcurrentExecutions history in
    Server.currentExecutions s = Z.of_nat (Server.batchLive s) /\
    Z.of_nat (Server.batchLive s) <= maxConcurrentExecutions /\
    Z.of_nat (Server.batchInFlight s) <= maxConcurrentExecutions.
Proof.
  intros cap history Hcap s.
  assert (H : Scenario.counted cap s).
  { apply counted_fold. unfold Scenario.counted, Server.batchLive; simpl. lia. }
  destruct H as [Hc Hm].
  pose proof (batchInFlight_le_batchLive s).
  repeat split; lia.
Qed.

Lemma C1_batch_executions_bounded_witness :
  0 <= 5 /\
  Server.currentExecutions (Server.after 5 Scenario.sevenPosts) = 5 /\
  length (Server.executionQueue (Server.after 5 Scenario.sevenPosts)) = 2%nat /\
  Server.batchInFlight (Server.after 5 Scenario.sevenPosts) = 5%nat /\
  Z.of_nat (Server.batchInFlight (Server.after 5 Scenario.sevenPosts)) <= 5.
Proof.
  split; [lia|].
  split; [reflexivity|].
  split; [reflexivity|].
  split; [reflexivity|].
  apply (C1_batch_executions_bounded 5 Scenario.sevenPosts). lia.
Defined.

(** C1 fails as stated: under the default cap of five, six interactive
    executions are in the running phase at once, and the counter is zero. *)
Lemma C1_counterexample :
  let s := Server.after Server.defaultMaxConcurrentExecutions Scenario.sixSessions in
  Server.inFlight s = 6%nat /\
  Server.currentExecutions s = 0 /\
  ~ (Z.of_nat (Server.inFlight s) <= Server.defaultMaxConcurrentExecutions).
Proof.
  split; [vm_compute; reflexivity|].
  split; [vm_compute; reflexivity|].
  intros H. vm_compute in H. apply H. reflexivity.
Qed.

(** C10. The batch endpoint answers 400 with the message 'Language and code
    are required' when the language or the code field is present but is the
    empty string, exactly as it does when the field is missing; nothing is
    queued. *)
Theorem C10_empty_string_is_missing :
  forall (cap : Z) (req : Server.Request) (res : nat) (s : Server.State),
    Server.language req = Some "" \/ Server.code req = Some "" ->
    Server.postExecute cap req res s = Scenario.answered s res Scenario.badRequest /\
    forall req',
      Server.language req' = None \/ Server.code req' = None ->
      Server.postExecute cap req' res s = Server.postExecute cap req res s.
Proof.
  intros cap req res s H.
  assert (E : forall r, Server.language r = Some "" \/ Server.code r = Some "" \/
                        Server.language r = None \/ Server.code r = None ->
                        Server.postExecute cap r res s
                        = Scenario.answered s res Scenario.badRequest).
  { intros r Hr. unfold Server.postExecute.
    destruct Hr as [Hr | [Hr | [Hr | Hr]]]; rewrite Hr; simpl;
      rewrite ?orb_true_r; reflexivity. }
  split.
  - apply E. tauto.
  - intros req' H'. rewrite !E; tauto.
Qed.

Lemma C10_empty_string_is_missing_witness :
  Server.sent
    (Server.postExecute 5 {| Server.language := Some "python";
                             Server.code := Some "";
                             Server.input := None |} 7 Server.initial)
  = [(7%nat, Scenario.badRequest)].
Proof.
  rewrite (proj1 (C10_empty_string_is_missing 5
             {| Server.language := Some "python"; Server.code := Some "";
                Server.input := None |} 7 Server.initial
             (or_intror eq_refl))).
  reflexivity.
Defined.

(** ** Request validation *)

Lemma executeCode_unsupported (env : Engine.Env) (toString : list Z -> string)
    (language code input : string) (w : Engine.World) :
  Registry.get Registry.supportedLanguages language = Registry.Missing ->
  Batch.executeCode env toString language code input w
  = (inl ("Unsupported language: " ++ language), w).
Proof.
  intros H. unfold Batch.executeCode. rewrite H. reflexivity.
Qed.

(** ** The Docker log cleaner *)

Lemma findEnd_returns (bufferLogs : list Z) (position : nat) :
  forall (fuel endOfLine : nat),
    (Nat.max (length bufferLogs) (position + 1) - endOfLine < fuel)%nat ->
    exists e,
      Demux.findEnd fuel bufferLogs position endOfLine = Some e /\
      (position + 1 <= e)%nat.
Proof.
  induction fuel as [|fuel IH]; intros e Hfuel; [lia|].
  simpl.
  destruct (Nat.ltb_spec e (length bufferLogs)) as [Hlt|Hge];
    destruct (Nat.ltb_spec e (position + 1)) as [Hp|Hp]; simpl;
    rewrite ?orb_true_r, ?orb_false_r.
  - apply IH. lia.
  - destruct (negb (Demux.tagAt bufferLogs e)).
    + apply IH. lia.
    + exists e. split; [reflexivity|lia].
  - apply IH. lia.
  - exists e. split; [reflexivity|lia].
Qed.

Lemma cleanLoop_returns (bufferLogs : list Z) :
  forall (fuel position : nat) (slices : list (list Z)),
    (length bufferLogs - position < fuel)%nat ->
    exists result, Demux.cleanLoop fuel bufferLogs position slices = Some result.
Proof.
  induction fuel as [|fuel IH]; intros position slices Hfuel; [lia|].
  simpl.
  destruct (Nat.ltb_spec position (length bufferLogs)) as [Hlt|Hge].
  - destruct (findEnd_returns bufferLogs (position + 8)
                (length bufferLogs + 2) (position + 8)) as (e & He & Hle); [lia|].
    rewrite He. apply IH. lia.
  - eexists. reflexivity.
Qed.

(** The cleaner returns on every buffer: the loops of [cleanDockerLogs]
    terminate. *)
Lemma cleanDockerLogs_returns (toString : list Z -> string) (logs : list Z) :
  exists text, Demux.cleanDockerLogs toString logs = Some text.
Proof.
  unfold Demux.cleanDockerLogs, Demux.logSlices.
  destruct (cleanLoop_returns logs (S (length logs)) 0 []) as (r & Hr); [lia|].
  rewrite Hr. eexists. reflexivity.
Qed.

Lemma frames_tagged (fs : list (Demux.streamTag * list Z)) :
  Scenario.tagged (Demux.frames fs).
Proof.
  destruct fs as [|[[|] p] fs]; simpl; auto.
Qed.

Lemma findEnd_plain (before payload rest : list Z) :
  Scenario.plain payload -> Scenario.tagged rest ->
  forall (fuel k : nat),
    (k <= length payload)%nat ->
    (length payload - k < fuel)%nat ->
    Demux.findEnd fuel (before ++ payload ++ rest) (length before) (length before + k)
    = Some (length before + length payload)%nat.
Proof.
  intros [Hne Hplain] Hrest.
  induction fuel as [|fuel IH]; intros k Hk Hfuel; [lia|].
  simpl.
  destruct (Nat.eq_dec k (length payload)) as [->|Hlt].
  - (* at the end of the payload *)
    assert (Hstop : (Nat.ltb (length before + length payload)
                             (length (before ++ payload ++ rest))
                     && negb (Demux.tagAt (before ++ payload ++ rest)
                                          (length before + length payload)))%bool = false).
    { unfold Demux.tagAt.
      rewrite nth_error_app2 by lia.
      replace (length before + length payload - length before)%nat
        with (length payload) by lia.
      rewrite nth_error_app2 by lia. rewrite Nat.sub_diag.
      destruct rest as [|b rest]; simpl.
      - rewrite !length_app. simpl.
        replace (Nat.ltb _ _) with false; [reflexivity|].
        symmetry. apply Nat.ltb_ge. lia.
      - simpl in Hrest. rewrite Hrest. apply andb_false_r. }
    rewrite Hstop. simpl.
    replace (Nat.ltb (length before + length payload) (length before + 1)) with false.
    + reflexivity.
    + symmetry. apply Nat.ltb_ge.
      destruct payload; [contradiction Hne; reflexivity|simpl; lia].
  - (* inside the payload *)
    assert (Hgo : (Nat.ltb (length before + k) (length (before ++ payload ++ rest))
                   && negb (Demux.tagAt (before ++ payload ++ rest)
                                        (length before + k)))%bool = true).
    { apply andb_true_intro. split.
      - apply Nat.ltb_lt. rewrite !length_app. lia.
      - unfold Demux.tagAt.
        rewrite nth_error_app2 by lia.
        replace (length before + k - length before)%nat with k by lia.
        rewrite nth_error_app1 by lia.
        destruct (nth_error payload k) as [b|] eqn:Hb; [|reflexivity].
        apply nth_error_In in Hb.
        rewrite Forall_forall in Hplain. rewrite (Hplain b Hb). reflexivity. }
    rewrite Hgo. simpl.
    replace (S (length before + k)) with (length before + S k)%nat by lia.
    apply IH; lia.
Qed.

Lemma cleanLoop_plain (fs : list (Demux.streamTag * list Z)) :
  Forall (fun f => Scenario.plain (snd f)) fs ->
  forall (fuel : nat) (before : list Z) (slices : list (list Z)),
    (length fs < fuel)%nat ->
    Demux.cleanLoop fuel (before ++ Demux.frames fs) (length before) slices
    = Some (slices ++ map snd fs)%list.
Proof.
  induction 1 as [|[t p] fs Hp _ IH]; intros fuel before slices Hfuel.
  - destruct fuel; [lia|]. simpl. rewrite !app_nil_r.
    rewrite Nat.ltb_irrefl. reflexivity.
  - destruct fuel; [lia|]. simpl in Hp.
    change (Demux.frames ((t, p) :: fs))
      with ((Demux.header t (Z.of_nat (length p)) ++ p) ++ Demux.frames fs)%list.
    cbn [Demux.cleanLoop].
    replace (Nat.ltb (length before) _) with true
      by (symmetry; apply Nat.ltb_lt; rewrite !length_app; simpl; lia).
    set (h := Demux.header t (Z.of_nat (length p))).
    assert (Hh : length h = 8%nat) by reflexivity.
    replace (before ++ (h ++ p) ++ Demux.frames fs)%list
      with ((before ++ h) ++ p ++ Demux.frames fs)%list
      by (rewrite <- !app_assoc; reflexivity).
    replace (length before + 8)%nat with (length (before ++ h))
      by (rewrite length_app; lia).
    pose proof (findEnd_plain (before ++ h) p (Demux.frames fs) Hp (frames_tagged fs)
                  (length ((before ++ h) ++ p ++ Demux.frames fs) + 2) 0) as Hf.
    rewrite Nat.add_0_r in Hf. rewrite Hf by (rewrite ?length_app; lia).
    assert (Hs : Demux.slice ((before ++ h) ++ p ++ Demux.frames fs)
                             (length (before ++ h)) (length (before ++ h) + length p)
                 = p).
    { unfold Demux.slice.
      rewrite skipn_app, skipn_all, Nat.sub_diag. simpl.
      replace (length (before ++ h) + length p - length (before ++ h))%nat
        with (length p + 0)%nat by lia.
      rewrite firstn_app_2. simpl. apply app_nil_r. }
    rewrite Hs.
    replace ((before ++ h) ++ p ++ Demux.frames fs)%list
      with (((before ++ h) ++ p) ++ Demux.frames fs)%list
      by (rewrite <- !app_assoc; reflexivity).
    replace (length (before ++ h) + length p)%nat with (length ((before ++ h) ++ p))
      by (rewrite (length_app (before ++ h) p); reflexivity).
    rewrite IH by (simpl in Hfuel; lia).
    rewrite <- app_assoc. reflexivity.
Qed.

Lemma frames_length (fs : list (Demux.streamTag * list Z)) :
  (length fs <= length (Demux.frames fs))%nat.
Proof.
  induction fs as [|[t p] fs IH]; simpl; [lia|].
  rewrite length_app. lia.
Qed.

(** On frames whose payloads are not empty and hold no byte 0x01 or 0x02
    the cleaner's scan happens to end at each frame boundary, and its
    slices are the payloads. *)
Lemma cleaner_exact_on_plain_frames (fs : list (Demux.streamTag * list Z)) :
  Forall (fun f => Scenario.plain (snd f)) fs ->
  Demux.logSlices (Demux.frames fs) = Some (map snd fs).
Proof.
  intros H. unfold Demux.logSlices.
  pose proof (frames_length fs).
  exact (cleanLoop_plain fs H (S (length (Demux.frames fs))) [] [] ltac:(lia)).
Qed.

Lemma byte_parts (x : Z) :
  0 <= x < 2 ^ 32 ->
  Z.lor (Z.shiftl (Z.land (Z.shiftr x 24) 255) 24)
        (Z.lor (Z.shiftl (Z.land (Z.shiftr x 16) 255) 16)
               (Z.lor (Z.shiftl (Z.land (Z.shiftr x 8) 255) 8) (Z.land x 255))) = x.
Proof.
  intros Hx. apply Z.bits_inj'. intros n Hn.
  assert (Hhigh : 32 <= n -> Z.testbit x n = false).
  { intros H. destruct (Z.eq_dec x 0) as [->|Hne]; [apply Z.bits_0|].
    apply Z.bits_above_log2; [lia|].
    apply Z.log2_lt_pow2; [lia|].
    assert (2 ^ 32 <= 2 ^ n) by (apply Z.pow_le_mono_r; lia). lia. }
  assert (Hbyte : forall k m, 0 <= k ->
             Z.testbit (Z.shiftl (Z.land (Z.shiftr x k) 255) k) m
             = ((k <=? m) && (m <? k + 8) && Z.testbit x m)%bool).
  { intros k m Hk.
    destruct (Z.leb_spec k m) as [Hkm|Hkm]; simpl.
    - rewrite Z.shiftl_spec by lia. rewrite Z.land_spec, Z.shiftr_spec by lia.
      replace (m - k + k) with m by lia.
      change 255 with (Z.ones 8).
      destruct (Z.ltb_spec m (k + 8)) as [Hm|Hm]; simpl.
      + rewrite Z.ones_spec_low by lia. apply andb_true_r.
      + rewrite Z.ones_spec_high by lia. apply andb_false_r.
    - rewrite Z.shiftl_spec_low by lia. reflexivity. }
  assert (Hlow : Z.testbit (Z.land x 255) n = ((n <? 8) && Z.testbit x n)%bool).
  { rewrite Z.land_spec. change 255 with (Z.ones 8).
    destruct (Z.ltb_spec n 8) as [Hm|Hm]; simpl.
    - rewrite Z.ones_spec_low by lia. apply andb_true_r.
    - rewrite Z.ones_spec_high by lia. apply andb_false_r. }
  rewrite !Z.lor_spec, !Hbyte, Hlow by lia.
  destruct (Z.leb_spec 24 n), (Z.ltb_spec n (24 + 8)), (Z.leb_spec 16 n),
    (Z.ltb_spec n (16 + 8)), (Z.leb_spec 8 n), (Z.ltb_spec n (8 + 8)),
    (Z.ltb_spec n 8); simpl; try lia;
    rewrite ?orb_false_r; try reflexivity.
  symmetry. apply Hhigh. lia.
Qed.

Lemma headerLength_header (t : Demux.streamTag) (n : Z) :
  0 <= n < 2 ^ 32 -> Scenario.headerLength (Demux.header t n) = n.
Proof. intros H. unfold Scenario.headerLength, Demux.header. apply byte_parts. exact H. Qed.

Lemma headerTag_header (t : Demux.streamTag) (n : Z) (rest : list Z) :
  Scenario.headerTag (Demux.header t n ++ rest) = Some t.
Proof. destruct t; reflexivity. Qed.

Lemma specDemultiplex_step (fuel : nat) (bytes : list Z) :
  bytes <> [] ->
  Scenario.specDemultiplex (S fuel) bytes
  = match Scenario.headerTag (firstn 8 bytes) with
    | Some t =>
        if (Nat.ltb (length (firstn 8 bytes)) 8
            || Nat.ltb (length (skipn 8 bytes))
                       (Z.to_nat (Scenario.headerLength (firstn 8 bytes))))%bool
        then None
        else
          match Scenario.specDemultiplex fuel (skipn (Z.to_nat (Scenario.headerLength (firstn 8 bytes)))
                                        (skipn 8 bytes)) with
          | Some fs =>
              Some ((t, firstn (Z.to_nat (Scenario.headerLength (firstn 8 bytes))) (skipn 8 bytes))
                    :: fs)
          | None => None
          end
    | None => None
    end.
Proof. destruct bytes; [intros H; contradiction H; reflexivity|reflexivity]. Qed.

Lemma specDemultiplex_frames (fs : list (Demux.streamTag * list Z)) :
  Forall (fun f => Z.of_nat (length (snd f)) < 2 ^ 32) fs ->
  forall fuel, (length fs <= fuel)%nat ->
  Scenario.specDemultiplex fuel (Demux.frames fs) = Some fs.
Proof.
  induction 1 as [|[t p] fs Hp _ IH]; intros fuel Hfuel; [destruct fuel; reflexivity|].
  cbn [snd] in Hp. cbn [length] in Hfuel. destruct fuel as [|fuel]; [lia|].
  change (Demux.frames ((t, p) :: fs))
    with (Demux.header t (Z.of_nat (length p)) ++ (p ++ Demux.frames fs))%list.
  pose proof (headerLength_header t (Z.of_nat (length p)) ltac:(lia)) as Hlen.
  assert (Htag : Scenario.headerTag (Demux.header t (Z.of_nat (length p))) = Some t)
    by (destruct t; reflexivity).
  assert (Hh : length (Demux.header t (Z.of_nat (length p))) = 8%nat) by reflexivity.
  assert (Hcons : exists b h', Demux.header t (Z.of_nat (length p)) = b :: h')
    by (eexists _, _; reflexivity).
  generalize dependent (Demux.header t (Z.of_nat (length p))).
  intros h Hlen Htag Hh (b & h' & Hcons).
  assert (Hfirst : firstn 8 (h ++ p ++ Demux.frames fs) = h).
  { rewrite <- Hh, firstn_app, Nat.sub_diag, firstn_all, firstn_O. apply app_nil_r. }
  assert (Hskip : skipn 8 (h ++ p ++ Demux.frames fs) = (p ++ Demux.frames fs)%list).
  { rewrite <- Hh, skipn_app, Nat.sub_diag, skipn_all. reflexivity. }
  assert (Hbody : Nat.ltb (length (p ++ Demux.frames fs)) (length p) = false)
    by (apply Nat.ltb_ge; rewrite length_app; lia).
  assert (Hrest : skipn (length p) (p ++ Demux.frames fs) = Demux.frames fs).
  { rewrite skipn_app, skipn_all, Nat.sub_diag. reflexivity. }
  assert (Hpay : firstn (length p) (p ++ Demux.frames fs) = p).
  { rewrite firstn_app, firstn_all, Nat.sub_diag, firstn_O. apply app_nil_r. }
  rewrite specDemultiplex_step by (rewrite Hcons; discriminate).
  rewrite Hfirst, Hskip, Htag, Hlen, Nat2Z.id, Hh, Hbody, Hrest, Hpay.
  rewrite IH by lia. reflexivity.
Qed.

(** The round trip holds of the specified demultiplexer: it returns the
    (stream, payload) pairs of every well-formed stream. *)
Lemma specified_round_trip (fs : list (Demux.streamTag * list Z)) :
  Forall (fun f => Z.of_nat (length (snd f)) < 2 ^ 32) fs ->
  Scenario.specDemultiplexed (Demux.frames fs) = Some fs.
Proof.
  intros H. apply specDemultiplex_frames; [exact H|apply frames_length].
Qed.

(** C2 (the code departs from it). A single well-formed stdout frame whose
    payload is the three bytes 'a', 0x01, 'b': the header announces three
    payload bytes, and the specified demultiplexer returns the pair
    (stdout, payload). The batch log cleaner never reads the length; it
    ends the frame at the payload byte 0x01, skips the following eight
    positions as if they were a header (running past the end of the
    buffer, where it slices nothing), and returns "a" in place of the three
    payload bytes. The stream tags are not part of its result either. *)
Theorem C2_cleaner_stops_at_payload_tag_byte :
  Scenario.taggedLogs = [1; 0; 0; 0; 0; 0; 0; 3; 97; 1; 98] /\
  Scenario.specDemultiplexed Scenario.taggedLogs
  = Some [(Demux.stdout, Scenario.taggedPayload)] /\
  Demux.logSlices Scenario.taggedLogs = Some [[97]; []] /\
  Demux.cleanDockerLogs Demux.asciiText Scenario.taggedLogs = Some "a" /\
  Demux.logSlices Scenario.taggedLogs <> Some [Scenario.taggedPayload].
Proof.
  split; [reflexivity|].
  split; [reflexivity|].
  split; [reflexivity|].
  split; [reflexivity|].
  intros H. vm_compute in H. discriminate H.
Qed.

(** ** Properties of every call an executor makes *)

Section Keeping.

Import Engine Prim Scenario.

Variable ok : Call -> Prop.

Lemma keeps_ret {A : Type} (a : A) : keeps ok (ret a).
Proof. intros w H; exact H. Qed.

Lemma keeps_throw {A : Type} (e : string) : keeps ok (@throw A e).
Proof. intros w H; exact H. Qed.

Lemma keeps_bind {A B : Type} (m : M A) (k : A -> M B) :
  keeps ok m -> (forall a, keeps ok (k a)) -> keeps ok (bind m k).
Proof.
  intros Hm Hk w H. unfold bind. specialize (Hm w H).
  destruct (m w) as [[e|a] w']; simpl in *; [exact Hm|].
  apply Hk, Hm.
Qed.

Lemma keeps_bind_ret {A B : Type} (a : A) (k : A -> M B) :
  keeps ok (k a) -> keeps ok (bind (ret a) k).
Proof. intros Hk w H. exact (Hk w H). Qed.

Lemma keeps_tryCatch {A : Type} (m : M A) (handler : string -> M A) :
  keeps ok m -> (forall e, keeps ok (handler e)) -> keeps ok (tryCatch m handler).
Proof.
  intros Hm Hh w H. unfold tryCatch. specialize (Hm w H).
  destruct (m w) as [[e|a] w']; simpl in *; [|exact Hm].
  apply Hh, Hm.
Qed.

Lemma keeps_tryFinally {A : Type} (m : M A) (fin : M unit) :
  keeps ok m -> keeps ok fin -> keeps ok (tryFinally m fin).
Proof.
  intros Hm Hf w H. unfold tryFinally. specialize (Hm w H).
  destruct (m w) as [r w']; simpl in *. specialize (Hf w' Hm).
  destruct (fin w') as [[e|u] w'']; simpl in *; exact Hf.
Qed.

Lemma keeps_modify (f : World -> World) :
  (forall w, calls (f w) = calls w) -> keeps ok (modify f).
Proof. intros Hf w H. unfold modify; simpl. rewrite Hf. exact H. Qed.

Lemma keeps_gets {A : Type} (f : World -> A) : keeps ok (gets f).
Proof. intros w H; exact H. Qed.

Lemma keeps_record (c : Call) : ok c -> keeps ok (record c).
Proof.
  intros Hc [d fl i c0 r t s l k] H. simpl in *. apply Forall_app. split; [exact H|].
  constructor; [exact Hc|constructor].
Qed.

Lemma keeps_failing (env : Env) (op : Op) (e : string) : keeps ok (failing env op e).
Proof. unfold failing. destruct (fails env op); [apply keeps_throw|apply keeps_ret]. Qed.

Lemma keeps_forEach {A : Type} (l : list A) (f : A -> M unit) :
  (forall a, keeps ok (f a)) -> keeps ok (forEach l f).
Proof.
  intros Hf. induction l as [|a l IH]; simpl; [apply keeps_ret|].
  apply keeps_bind; [apply Hf|intros _; exact IH].
Qed.

End Keeping.

(** Breaks a computation into the calls it records. *)
Ltac keep_step :=
  first
    [ apply keeps_ret
    | apply keeps_throw
    | apply keeps_gets
    | apply keeps_failing
    | apply keeps_modify; intros []; reflexivity
    | match goal with
      | |- Scenario.keeps _ (Engine.bind (Engine.ret _) _) => apply keeps_bind_ret
      end
    | apply keeps_bind; [|intros ?]
    | apply keeps_tryCatch; [|intros ?]
    | apply keeps_tryFinally
    | apply keeps_forEach; intros ?
    | apply keeps_record
    | match goal with
      | |- Scenario.keeps _ (if ?b then _ else _) => destruct b
      | |- Scenario.keeps _ (match ?x with _ => _ end) => destruct x
      end ].

Ltac keep := repeat keep_step.

Lemma memoryLimit_is_memoryClass (language : string) :
  Registry.memoryLimit language = Scenario.memoryClass language.
Proof.
  unfold Registry.memoryLimit, Scenario.memoryClass.
  destruct (String.eqb language "dart"), (String.eqb language "java"); reflexivity.
Qed.

Lemma batch_options_secure (language tmpImageName : string) (cmd : list string)
    (openStdin : JS.value) :
  Scenario.securityProfile language
    (Batch.containerOptions tmpImageName cmd (Registry.memoryLimit language) openStdin).
Proof.
  unfold Scenario.securityProfile; simpl.
  rewrite memoryLimit_is_memoryClass. repeat split.
Qed.

Lemma interactive_options_secure (language executionId : string) :
  Scenario.securityProfile language (Interactive.containerOptions language executionId).
Proof.
  unfold Scenario.securityProfile; simpl.
  rewrite memoryLimit_is_memoryClass. repeat split.
Qed.

(** C5. Every container either executor creates carries the mandatory
    security profile: Memory = MemorySwap = the language's memory class
    (256 MiB for Java and Dart, 100 MiB otherwise), NanoCpus = 1e9,
    PidsLimit = 50, NetworkMode = 'none', Privileged = false, SecurityOpt =
    ['no-new-privileges'], CapDrop = ['ALL'], and no TTY. Whatever the
    environment does, every createContainer call that the batch executor or
    the interactive socket handler adds to the record has this profile. *)
Theorem C5_security_profile :
  forall (env : Engine.Env) (toString : list Z -> string)
         (language code input : string) (w : Engine.World),
    Forall (Scenario.secureCall language) (Engine.calls w) ->
    Forall (Scenario.secureCall language)
           (Engine.calls (snd (Batch.executeCode env toString language code input w))) /\
    Forall (Scenario.secureCall language)
           (Engine.calls (snd (Interactive.onExecuteInteractive env language code w))).
Proof.
  intros env toString language code input w Hw. split.
  - revert w Hw.
    change (Scenario.keeps (Scenario.secureCall language)
              (Batch.executeCode env toString language code input)).
    unfold Batch.executeCode, Batch.run, Prim.mkdir, Prim.writeFile, Prim.rm,
      Prim.buildImage, Prim.createContainer, Prim.attach, Prim.start, Prim.wait,
      Prim.onTimeout, Prim.inspect, Prim.stop, Prim.containerLogs, Prim.remove,
      Prim.removeImage, Prim.emit, Prim.setTimeout, Prim.clearTimeout.
    keep; try exact I.
    all: apply batch_options_secure.
  - revert w Hw.
    change (Scenario.keeps (Scenario.secureCall language)
              (Interactive.onExecuteInteractive env language code)).
    unfold Interactive.onExecuteInteractive, Interactive.executeCodeInteractive,
      Interactive.run, Interactive.cleanup, Interactive.handle,
      Interactive.inputHandler, Interactive.streamWrite,
      Interactive.streamEndIfAlive, Prim.mkdir, Prim.writeFile, Prim.rm,
      Prim.createContainer, Prim.attach, Prim.start, Prim.wait,
      Prim.onTimeout, Prim.inspect, Prim.stop, Prim.remove,
      Prim.emit, Prim.setTimeout, Prim.clearTimeout.
    keep; try exact I.
    all: apply interactive_options_secure.
Qed.

Lemma C5_security_profile_witness :
  Forall (Scenario.secureCall "java")
         (Engine.calls (snd (Batch.executeCode Scenario.quiet Demux.asciiText
                                               "java" "class Main {}" "" Engine.empty))) /\
  Forall (Scenario.secureCall "java")
         (Engine.calls (snd (Interactive.onExecuteInteractive Scenario.quiet
                                               "java" "class Main {}" Engine.empty))).
Proof.
  exact (C5_security_profile Scenario.quiet Demux.asciiText "java" "class Main {}" ""
           Engine.empty (Forall_nil _)).
Defined.

(** ** Input routing *)

Lemma length_zero_eqb (d : string) :
  (String.length d =? 0)%nat = String.eqb d "".
Proof. destruct d; reflexivity. Qed.

Lemma inputHandler_step (id : string) (m : option Engine.InputData)
    (w : Engine.World) (st : Engine.Stream) :
  Engine.stream w = Some st ->
  Engine.destroyed st = false ->
  exists w',
    Interactive.inputHandler id m w = (inr tt, w') /\
    Engine.stream w'
    = Some {| Engine.destroyed := false;
              Engine.written := (Engine.written st ++ Scenario.delivery id m)%list |} /\
    Engine.calls w'
    = (Engine.calls w ++ map Engine.StreamWrite (Scenario.delivery id m))%list.
Proof.
  intros Hs Hd.
  destruct w as [d fl i c r t s l k]. destruct st as [ds wr].
  simpl in Hs, Hd. subst s ds.
  assert (Hnone : forall w0 : Engine.World,
             Engine.stream w0 = Some {| Engine.destroyed := false; Engine.written := wr |} ->
             exists w',
               (@inr string unit tt, w0) = (inr tt, w') /\
               Engine.stream w'
               = Some {| Engine.destroyed := false;
                         Engine.written := (wr ++ [])%list |} /\
               Engine.calls w' = (Engine.calls w0 ++ map Engine.StreamWrite [])%list).
  { intros w0 H0. exists w0. rewrite !app_nil_r. auto. }
  unfold Interactive.inputHandler, Engine.bind, Engine.gets. simpl.
  destruct m as [[eid dat]|]; simpl; [|apply Hnone; reflexivity].
  destruct eid as [|b|s]; simpl; try (apply Hnone; reflexivity).
  destruct dat as [|b|dt]; simpl;
    try (destruct (String.eqb s id); simpl; apply Hnone; reflexivity).
  rewrite length_zero_eqb.
  destruct (String.eqb s id); simpl; [|apply Hnone; reflexivity].
  destruct (String.eqb dt ""); simpl; [apply Hnone; reflexivity|].
  eexists; split; [reflexivity|]. simpl. auto.
Qed.

(** C3 (as the code has it). While the stream of an interactive execution
    is attached and not destroyed, the input listener writes to its stdin,
    for the messages in arrival order, the data of exactly those messages
    that carry the execution's id and whose data is a non-empty string,
    each followed by one newline; every other message (another id, no id,
    empty or non-string data, no message object) is dropped without a
    write and without an error. *)
Theorem C3_input_routing :
  forall (id : string) (msgs : list (option Engine.InputData))
         (w : Engine.World) (st : Engine.Stream),
    Engine.stream w = Some st ->
    Engine.destroyed st = false ->
    exists w',
      Prim.forEach msgs (Interactive.inputHandler id) w = (inr tt, w') /\
      Engine.stream w'
      = Some {| Engine.destroyed := false;
                Engine.written :=
                  (Engine.written st ++ flat_map (Scenario.delivery id) msgs)%list |} /\
      Engine.calls w'
      = (Engine.calls w ++
         map Engine.StreamWrite (flat_map (Scenario.delivery id) msgs))%list.
Proof.
  intros id msgs; induction msgs as [|m msgs IH]; intros w st Hs Hd.
  - exists w. simpl. rewrite !app_nil_r. destruct st; simpl in *; subst; auto.
  - destruct (inputHandler_step id m w st Hs Hd) as (w1 & E1 & S1 & C1).
    destruct (IH w1 _ S1 eq_refl) as (w2 & E2 & S2 & C2).
    exists w2. simpl. unfold Engine.bind. rewrite E1, E2.
    split; [reflexivity|]. rewrite S2, C2, C1. simpl.
    rewrite map_app, !app_assoc. auto.
Qed.

Lemma C3_input_routing_witness :
  exists w',
    Prim.forEach [ Scenario.message "id-1" "x"; Scenario.message "bogus" "z";
                   Scenario.message "id-1" "y" ]
                 (Interactive.inputHandler "id-1")
                 (Scenario.attached Scenario.freshStream) = (inr tt, w') /\
    Engine.stream w'
    = Some {| Engine.destroyed := false;
              Engine.written := [ "x" ++ JS.nl; "y" ++ JS.nl ] |} /\
    Engine.calls w'
    = [ Engine.StreamWrite ("x" ++ JS.nl); Engine.StreamWrite ("y" ++ JS.nl) ].
Proof.
  exact (C3_input_routing "id-1"
           [ Scenario.message "id-1" "x"; Scenario.message "bogus" "z";
             Scenario.message "id-1" "y" ]
           (Scenario.attached Scenario.freshStream) Scenario.freshStream
           eq_refl eq_refl).
Defined.

(** C3 fails as stated: a message that carries the execution's own id is
    not written to stdin when its data is the empty string, nor when its
    data is not a string. *)
Lemma C3_counterexample :
  let w := Scenario.attached Scenario.freshStream in
  let empty := Scenario.message "id-1" "" in
  let flag := Some {| Engine.executionId := JS.str "id-1";
                      Engine.data := JS.boolean true |} in
  Interactive.inputHandler "id-1" empty w = (inr tt, w) /\
  Interactive.inputHandler "id-1" flag w = (inr tt, w) /\
  Engine.written Scenario.freshStream = [].
Proof.
  repeat split.
Qed.

(** ** Events of an interactive session *)

Lemma awaited_refl (w : Engine.World) : Scenario.awaited w w.
Proof.
  unfold Scenario.awaited. repeat split.
  exists []. rewrite app_nil_r. split; [reflexivity|constructor].
Qed.

Lemma awaited_trans (w1 w2 w3 : Engine.World) :
  Scenario.awaited w1 w2 -> Scenario.awaited w2 w3 -> Scenario.awaited w1 w3.
Proof.
  unfold Scenario.awaited.
  intros (D1 & F1 & I1 & C1 & R1 & T1 & L1 & cs1 & E1 & Q1)
         (D2 & F2 & I2 & C2 & R2 & T2 & L2 & cs2 & E2 & Q2).
  repeat split; try congruence.
  exists (cs1 ++ cs2)%list. split.
  - rewrite E2, E1, app_assoc. reflexivity.
  - apply Forall_app. split; assumption.
Qed.

Lemma awaited_record (w : Engine.World) (c : Engine.Call) :
  Scenario.listenerCall c ->
  Scenario.awaited w (Prim.withCalls (fun l => (l ++ [c])%list) w).
Proof.
  intros Hc. destruct w. unfold Scenario.awaited; simpl. repeat split.
  exists [c]. split; [reflexivity|]. constructor; [exact Hc|constructor].
Qed.

Lemma awaited_stream (w : Engine.World) (s : option Engine.Stream) :
  Scenario.awaited w (Prim.withStream s w).
Proof.
  destruct w. unfold Scenario.awaited; simpl. repeat split.
  exists []. rewrite app_nil_r. split; [reflexivity|constructor].
Qed.

Lemma handle_awaited (id : string) (a : Engine.Arrival) (w : Engine.World) :
  exists w', Interactive.handle id a w = (inr tt, w') /\ Scenario.awaited w w'.
Proof.
  destruct a as [[|] chunk | m | | ]; simpl.
  - eexists; split; [reflexivity|]. apply awaited_record. exact I.
  - eexists; split; [reflexivity|]. apply awaited_record. exact I.
  - unfold Engine.bind, Engine.gets.
    destruct (Engine.listening w); [|eexists; split; [reflexivity|apply awaited_refl]].
    unfold Interactive.inputHandler, Engine.bind, Engine.gets.
    destruct (Engine.stream w) as [st|] eqn:Hs;
      [|eexists; split; [reflexivity|apply awaited_refl]].
    destruct (Engine.destroyed st);
      [eexists; split; [reflexivity|apply awaited_refl]|].
    destruct m as [[eid dat]|];
      [|eexists; split; [reflexivity|apply awaited_refl]].
    simpl. destruct (Interactive.differs eid id);
      [eexists; split; [reflexivity|apply awaited_refl]|].
    destruct dat as [|b|d];
      try (eexists; split; [reflexivity|apply awaited_refl]).
    destruct (String.length d =? 0)%nat;
      [eexists; split; [reflexivity|apply awaited_refl]|].
    unfold Interactive.streamWrite, Prim.record, Engine.bind, Engine.modify.
    eexists; split; [reflexivity|].
    apply (awaited_trans _
             (Prim.withCalls (fun l => (l ++ [Engine.StreamWrite (d ++ JS.nl)])%list) w)).
    + apply awaited_record. exact I.
    + apply awaited_stream.
  - unfold Interactive.streamEndIfAlive, Engine.bind, Engine.gets.
    destruct (Engine.stream w) as [st|];
      [|eexists; split; [reflexivity|apply awaited_refl]].
    destruct (Engine.destroyed st);
      [eexists; split; [reflexivity|apply awaited_refl]|].
    eexists; split; [reflexivity|]. apply awaited_record. exact I.
  - unfold Engine.modify. eexists; split; [reflexivity|]. apply awaited_stream.
Qed.

Lemma arrivals_awaited (id : string) (arrivals : list Engine.Arrival) :
  forall w, exists w',
    Prim.forEach arrivals (Interactive.handle id) w = (inr tt, w') /\
    Scenario.awaited w w'.
Proof.
  induction arrivals as [|a arrivals IH]; intros w; simpl.
  - exists w. split; [reflexivity|apply awaited_refl].
  - destruct (handle_awaited id a w) as (w1 & E1 & A1).
    destruct (IH w1) as (w2 & E2 & A2).
    exists w2. unfold Engine.bind. rewrite E1, E2.
    split; [reflexivity|]. eapply awaited_trans; eassumption.
Qed.

Lemma listener_events (cs : list Engine.Call) :
  Forall Scenario.listenerCall cs ->
  Forall Scenario.isOutput
    (flat_map (fun c => match c with Engine.Emit e => [e] | _ => [] end) cs).
Proof.
  induction 1 as [|c cs Hc _ IH]; simpl; [constructor|].
  destruct c; simpl in *; try contradiction; try exact IH.
  destruct e; simpl in *; try contradiction. constructor; [exact I|exact IH].
Qed.

Lemma started_then_notice (id : string) (outputs : list Engine.Event)
    (o : Engine.Event) (es : list Engine.Event) :
  Forall Scenario.isOutput outputs -> Scenario.isOutput o -> Scenario.ending id es ->
  Scenario.session id
    (Engine.Output Interactive.startingNotice None
     :: Engine.ExecutionStart id :: outputs ++ o :: es).
Proof.
  intros Ho Hn He.
  replace (outputs ++ o :: es)%list with ((outputs ++ [o]) ++ es)%list
    by (rewrite <- app_assoc; reflexivity).
  apply Scenario.started; [|exact He].
  apply Forall_app. split; [exact Ho|]. constructor; [exact Hn|constructor].
Qed.



(** ** Deadlines *)

Lemma detect_value (language code : string) (v : JS.value) :
  Detect.detectInteractiveCode language code = inr v ->
  v = JS.undefined \/ exists b, v = JS.boolean b.
Proof.
  unfold Detect.detectInteractiveCode.
  destruct (Registry.get Detect.patterns language); intros [= <-]; eauto.
Qed.

Lemma timeoutDuration_is_batchDeadline (language code : string) (v : JS.value) :
  Detect.detectInteractiveCode language code = inr v ->
  Batch.timeoutDuration v = Scenario.batchDeadline language code.
Proof.
  intros H. unfold Scenario.batchDeadline, Scenario.detectorMatches. rewrite H.
  destruct (detect_value _ _ _ H) as [-> | [[|] ->]]; reflexivity.
Qed.

Lemma not_running_without (container : string) (l : list string) :
  existsb (String.eqb container) (Prim.without container l) = false.
Proof.
  unfold Prim.without. induction l as [|x l IH]; simpl; [reflexivity|].
  destruct (String.eqb container x) eqn:E; simpl; [exact IH|].
  rewrite E. exact IH.
Qed.

Lemma forEach_skip {A : Type} (l : list A) (w : Engine.World) :
  Prim.forEach l (fun (_ : A) (w0 : Engine.World) => (@inr string unit tt, w0)) w
  = (inr tt, w).
Proof.
  induction l as [|a l IH]; simpl; [reflexivity|].
  unfold Engine.bind. exact IH.
Qed.

Lemma detect_own (language code : string) (spec : Registry.LanguageSpec) :
  Registry.get Registry.supportedLanguages language = Registry.Own spec ->
  exists b, Detect.detectInteractiveCode language code = inr (JS.boolean b).
Proof.
  unfold Registry.get. simpl.
  repeat match goal with
         | |- context [String.eqb language ?k] =>
             destruct (String.eqb_spec language k);
             [subst; intros _; eexists; reflexivity|]
         end.
  match goal with |- context [if ?c then _ else _] => destruct c end; discriminate.
Qed.

Lemma listener_no_timers (cs : list Engine.Call) :
  Forall Scenario.listenerCall cs ->
  flat_map (fun c => match c with Engine.SetTimeout d => [d] | _ => [] end) cs = [] /\
  flat_map (fun c => match c with Engine.Stop d => [d] | _ => [] end) cs = [].
Proof.
  induction 1 as [|c cs Hc _ [IH1 IH2]]; simpl; [auto|].
  destruct c; simpl in Hc; try contradiction; simpl; auto.
Qed.

Lemma batch_deadline_enforced (env : Engine.Env) (toString : list Z -> string)
    (language code input : string) (spec : Registry.LanguageSpec) :
  Registry.get Registry.supportedLanguages language = Registry.Own spec ->
  (forall op, Engine.fails env op = false) ->
  let w := snd (Batch.executeCode env toString language code input Engine.empty) in
  Scenario.timers w = [Scenario.batchDeadline language code] /\
  Scenario.stops w = (if Engine.expires env then [Engine.containerId env] else []).
Proof.
  intros Hspec Hok.
  destruct (detect_own language code spec Hspec) as [b Hd].
  rewrite <- (timeoutDuration_is_batchDeadline _ _ _ Hd).
  unfold Batch.executeCode, Batch.run. rewrite Hspec, Hd. simpl negb. cbv iota.
  destruct (cleanDockerLogs_returns toString (Engine.logs env)) as [text Ht].
  unfold Prim.mkdir, Prim.writeFile, Prim.rm, Prim.buildImage, Prim.createContainer,
    Prim.attach, Prim.start, Prim.wait, Prim.onTimeout, Prim.inspect, Prim.stop,
    Prim.containerLogs, Prim.remove,
    Prim.removeImage, Prim.setTimeout, Prim.clearTimeout, Prim.record, Prim.failing,
    Engine.tryCatch, Engine.tryFinally, Engine.bind, Engine.modify, Engine.gets,
    Engine.ret, Engine.throw.
  rewrite !Hok, Ht. unfold Scenario.timers, Scenario.stops.
  destruct (JS.truthy (JS.str input));
    destruct (JS.truthy (Batch.directStdin _ _ _)); simpl;
    rewrite forEach_skip; simpl;
    destruct (Engine.expires env); simpl; rewrite ?String.eqb_refl; simpl;
    split; reflexivity.
Qed.

Lemma interactive_deadline_enforced (env : Engine.Env) (language code : string)
    (spec : Registry.LanguageSpec) :
  Registry.get Registry.supportedLanguages language = Registry.Own spec ->
  (forall op, Engine.fails env op = false) ->
  let w := snd (Interactive.onExecuteInteractive env language code Engine.empty) in
  Scenario.timers w = [Scenario.interactiveDeadline] /\
  Scenario.stops w = (if Engine.expires env then [Engine.containerId env] else []).
Proof.
  intros Hspec Hok.
  unfold Interactive.onExecuteInteractive, Interactive.executeCodeInteractive.
  rewrite Hspec. simpl negb. cbv iota.
  unfold Interactive.run, Interactive.cleanup, Interactive.streamEndIfAlive,
    Prim.mkdir, Prim.writeFile, Prim.rm, Prim.createContainer, Prim.attach,
    Prim.start, Prim.wait, Prim.remove, Prim.emit, Prim.setTimeout,
    Prim.clearTimeout, Prim.record, Prim.failing,
    Engine.tryCatch, Engine.tryFinally, Engine.bind, Engine.modify, Engine.gets,
    Engine.ret, Engine.throw.
  rewrite !Hok. simpl.
  match goal with
  | |- context [Prim.forEach ?l ?f ?w0] =>
      destruct (arrivals_awaited (Engine.uuid env) l w0) as (w1 & E1 & A1)
  end.
  rewrite E1. clear E1.
  destruct w1 as [d1 f1 i1 c1 r1 t1 s1 l1 k1].
  destruct A1 as (D & F & I & C & R & T & L & cs & K & Q).
  simpl in D, F, I, C, R, T, L, K. subst d1 f1 i1 c1 r1 t1 l1 k1.
  destruct (listener_no_timers cs Q) as [Qt Qs].
  unfold Prim.onTimeout, Prim.inspect, Prim.stop, Prim.emit, Prim.record, Prim.failing,
    Engine.tryCatch, Engine.bind, Engine.modify, Engine.gets, Engine.ret, Engine.throw.
  rewrite !Hok. unfold Scenario.timers, Scenario.stops. simpl.
  destruct (Engine.expires env); simpl; rewrite ?String.eqb_refl; simpl;
    destruct s1 as [[[|] wr]|]; simpl;
    rewrite ?flat_map_app, ?Qt, ?Qs; simpl; split; reflexivity.
Qed.

(** C8. Every timer the batch executor sets has a delay of 15 s when the
    source matches the stdin detector of its language and of 10 s
    otherwise; every timer the interactive executor sets has a delay of
    300 s. When the engine answers every call, an execution of a registered
    language sets exactly one such timer, and, if the program is still
    running when the deadline passes, its container receives one stop
    call. In any world, the timer's callback leaves the container not
    running, having sent a stop call to a container that was running,
    provided the engine answers the inspect and stop calls. *)
Theorem C8_deadlines :
  forall (env : Engine.Env) (toString : list Z -> string)
         (language code input : string),
    let b := snd (Batch.executeCode env toString language code input Engine.empty) in
    let i := snd (Interactive.onExecuteInteractive env language code Engine.empty) in
    Forall (Scenario.deadlineCall (Scenario.batchDeadline language code)) (Engine.calls b) /\
    Forall (Scenario.deadlineCall Scenario.interactiveDeadline) (Engine.calls i) /\
    Scenario.batchDeadline language code
    = (if Scenario.detectorMatches language code then 15000 else 10000) /\
    Scenario.interactiveDeadline = 300000 /\
    (forall spec,
        Registry.get Registry.supportedLanguages language = Registry.Own spec ->
        (forall op, Engine.fails env op = false) ->
        Scenario.timers b = [Scenario.batchDeadline language code] /\
        Scenario.timers i = [Scenario.interactiveDeadline] /\
        Scenario.stops b = (if Engine.expires env then [Engine.containerId env] else []) /\
        Scenario.stops i = (if Engine.expires env then [Engine.containerId env] else [])) /\
    (forall (t : Engine.Timer) (w : Engine.World),
        Engine.fails env Engine.OpInspect = false ->
        Engine.fails env Engine.OpStop = false ->
        Scenario.isRunning (Engine.target t) (snd (Prim.onTimeout env t w)) = false /\
        (Scenario.isRunning (Engine.target t) w = true ->
         In (Engine.Stop (Engine.target t))
            (Engine.calls (snd (Prim.onTimeout env t w))))).
Proof.
  intros env toString language code input b i.
  split; [|split; [|split; [|split; [|split]]]].
  - subst b.
    assert (H : Scenario.keeps (Scenario.deadlineCall (Scenario.batchDeadline language code))
                  (Batch.executeCode env toString language code input)).
    { unfold Batch.executeCode, Batch.run.
      destruct (Detect.detectInteractiveCode language code) as [e|v] eqn:Hd.
      - unfold Prim.mkdir, Prim.writeFile, Prim.rm. keep; exact I.
      - unfold Prim.mkdir, Prim.writeFile, Prim.rm,
          Prim.buildImage, Prim.createContainer, Prim.attach, Prim.start, Prim.wait,
          Prim.onTimeout, Prim.inspect, Prim.stop, Prim.containerLogs, Prim.remove,
          Prim.removeImage, Prim.emit, Prim.setTimeout, Prim.clearTimeout.
        keep; try exact I.
        all: simpl; apply timeoutDuration_is_batchDeadline; exact Hd. }
    apply H. constructor.
  - subst i.
    assert (H : Scenario.keeps (Scenario.deadlineCall Scenario.interactiveDeadline)
                  (Interactive.onExecuteInteractive env language code)).
    { unfold Interactive.onExecuteInteractive, Interactive.executeCodeInteractive,
        Interactive.run, Interactive.cleanup, Interactive.handle,
        Interactive.inputHandler, Interactive.streamWrite,
        Interactive.streamEndIfAlive, Prim.mkdir, Prim.writeFile, Prim.rm,
        Prim.createContainer, Prim.attach, Prim.start, Prim.wait,
        Prim.onTimeout, Prim.inspect, Prim.stop, Prim.remove,
        Prim.emit, Prim.setTimeout, Prim.clearTimeout.
      keep; try exact I.
      all: reflexivity. }
    apply H. constructor.
  - reflexivity.
  - reflexivity.
  - intros spec Hspec Hok.
    destruct (batch_deadline_enforced env toString language code input spec Hspec Hok)
      as [Bt Bs].
    destruct (interactive_deadline_enforced env language code spec Hspec Hok)
      as [It Is].
    auto.
  - intros t w Hinspect Hstop.
    destruct w as [d fl im c r tm s l k].
    unfold Scenario.isRunning, Prim.onTimeout, Prim.inspect, Prim.stop, Prim.failing,
      Prim.emit, Prim.record, Engine.tryCatch, Engine.bind, Engine.modify, Engine.gets,
      Engine.ret.
    rewrite Hinspect, Hstop. simpl.
    destruct (existsb (String.eqb (Engine.target t)) r) eqn:Hr; simpl.
    + split.
      * destruct (Engine.notice t); simpl; apply not_running_without.
      * intros _. destruct (Engine.notice t); simpl;
          rewrite <- ?app_assoc; apply in_or_app; right; simpl; auto.
    + split; [exact Hr|discriminate].
Qed.

Lemma C8_deadlines_witness :
  Scenario.timers
    (snd (Batch.executeCode Scenario.endless Demux.asciiText "python"
                            Scenario.readsInput "" Engine.empty)) = [15000] /\
  Scenario.stops
    (snd (Interactive.onExecuteInteractive Scenario.endless "python"
                                          Scenario.readsInput Engine.empty)) = ["c-1"] /\
  In (Engine.Stop "c-1")
     (Engine.calls
        (snd (Prim.onTimeout Scenario.endless
                {| Engine.delay := 15000; Engine.target := "c-1"; Engine.notice := false |}
                Scenario.busy))).
Proof.
  destruct (C8_deadlines Scenario.endless Demux.asciiText "python" Scenario.readsInput "")
    as (_ & _ & _ & _ & Hrun & Hfire).
  destruct (Hrun Registry.python eq_refl (fun _ => eq_refl)) as (Bt & _ & _ & Is).
  destruct (Hfire {| Engine.delay := 15000; Engine.target := "c-1";
                     Engine.notice := false |}
                  Scenario.busy eq_refl eq_refl) as [_ Hstop].
  split; [exact Bt|]. split; [exact Is|]. exact (Hstop eq_refl).
Defined.

(** ** Cleanup *)

(** The straight-line paths do clean up: when the engine answers every
    call, no work directory, container or image of the execution is left,
    in either mode. *)
Lemma answered_run_cleans (env : Engine.Env) (toString : list Z -> string)
    (language code input : string) (spec : Registry.LanguageSpec) :
  Registry.get Registry.supportedLanguages language = Registry.Own spec ->
  (forall op, Engine.fails env op = false) ->
  let b := snd (Batch.executeCode env toString language code input Engine.empty) in
  let i := snd (Interactive.onExecuteInteractive env language code Engine.empty) in
  (Engine.dirs b = [] /\ Engine.containers b = [] /\ Engine.images b = []) /\
  (Engine.dirs i = [] /\ Engine.containers i = [] /\ Engine.images i = []).
Proof.
  intros Hspec Hok. split.
  - destruct (detect_own language code spec Hspec) as [b Hd].
    unfold Batch.executeCode, Batch.run. rewrite Hspec, Hd. simpl negb. cbv iota.
    destruct (cleanDockerLogs_returns toString (Engine.logs env)) as [text Ht].
    unfold Prim.mkdir, Prim.writeFile, Prim.rm, Prim.buildImage, Prim.createContainer,
      Prim.attach, Prim.start, Prim.wait, Prim.onTimeout, Prim.inspect, Prim.stop,
      Prim.containerLogs, Prim.remove,
      Prim.removeImage, Prim.setTimeout, Prim.clearTimeout, Prim.record, Prim.failing,
      Engine.tryCatch, Engine.tryFinally, Engine.bind, Engine.modify, Engine.gets,
      Engine.ret, Engine.throw.
    rewrite !Hok, Ht. unfold Prim.without.
    destruct (JS.truthy (JS.str input));
      destruct (JS.truthy (Batch.directStdin _ _ _)); simpl;
      rewrite forEach_skip; simpl;
      destruct (Engine.expires env); simpl; rewrite ?String.eqb_refl; simpl;
      rewrite ?String.eqb_refl; simpl; auto.
  - unfold Interactive.onExecuteInteractive, Interactive.executeCodeInteractive.
    rewrite Hspec. simpl negb. cbv iota.
    unfold Interactive.run, Interactive.cleanup, Interactive.streamEndIfAlive,
      Prim.mkdir, Prim.writeFile, Prim.rm, Prim.createContainer, Prim.attach,
      Prim.start, Prim.wait, Prim.remove, Prim.emit, Prim.setTimeout,
      Prim.clearTimeout, Prim.record, Prim.failing,
      Engine.tryCatch, Engine.tryFinally, Engine.bind, Engine.modify, Engine.gets,
      Engine.ret, Engine.throw.
    rewrite !Hok. simpl.
    match goal with
    | |- context [Prim.forEach ?l ?f ?w0] =>
        destruct (arrivals_awaited (Engine.uuid env) l w0) as (w1 & E1 & A1)
    end.
    rewrite E1. clear E1.
    destruct w1 as [d1 f1 i1 c1 r1 t1 s1 l1 k1].
    destruct A1 as (D & F & I & C & R & T & L & cs & K & Q).
    simpl in D, F, I, C, R, T, L, K. subst d1 f1 i1 c1 r1 t1 l1 k1.
    unfold Prim.onTimeout, Prim.inspect, Prim.stop, Prim.emit, Prim.record, Prim.failing,
      Engine.tryCatch, Engine.bind, Engine.modify, Engine.gets, Engine.ret, Engine.throw.
    rewrite !Hok. unfold Prim.without. simpl.
    destruct (Engine.expires env); simpl; rewrite ?String.eqb_refl; simpl;
      destruct s1 as [[[|] wr]|]; simpl; rewrite ?String.eqb_refl; simpl; auto.
Qed.


(** C4 (the code departs from it). A batch execution whose container is
    created but whose [container.start()] is rejected: the executor throws,
    the [finally] block removes the work directory, and nothing removes
    the container or the per-request image, which both still exist. The
    interactive executor on the same failure reports the error and the
    completion, removes the work directory and leaves the container. *)
Theorem C4_start_failure_leaves_container_and_image :
  let b := Batch.executeCode Scenario.startFails Demux.asciiText "python" "print(1)" ""
                             Engine.empty in
  let i := Interactive.onExecuteInteractive Scenario.startFails "python" "print(1)"
                                            Engine.empty in
  fst b = inl "start failed" /\
  Engine.dirs (snd b) = [] /\
  Engine.containers (snd b) = ["c-1"] /\
  Engine.images (snd b) = ["code-exec-tmp-id-1"] /\
  ~ In (Engine.Remove "c-1") (Engine.calls (snd b)) /\
  ~ In (Engine.RemoveImage "code-exec-tmp-id-1") (Engine.calls (snd b)) /\
  Engine.dirs (snd i) = [] /\
  Engine.containers (snd i) = ["c-1"] /\
  ~ In (Engine.Remove "c-1") (Engine.calls (snd i)).
Proof.
  repeat split; try reflexivity; vm_compute; intros H;
    repeat (destruct H as [H|H]; [discriminate H|]); exact H.
Qed.

(** ** Empty input *)

Lemma and_empty (v : JS.value) : JS.truthy (JS.and v (JS.str "")) = false.
Proof. destruct v as [|[|]|[|c s]]; reflexivity. Qed.

Lemma directStdin_empty (v : JS.value) (cmd : list string) :
  JS.truthy (Batch.directStdin v "" cmd) = false.
Proof.
  unfold Batch.directStdin. unfold JS.and at 1. rewrite and_empty. apply and_empty.
Qed.

Lemma command_empty (language : string) (plain : list string) (v : JS.value) :
  Batch.command language plain v "" = plain.
Proof. unfold Batch.command. rewrite and_empty. reflexivity. Qed.

Lemma empty_input_is_no_input (env : Engine.Env) (toString : list Z -> string)
    (language code : string) :
  Forall (Scenario.emptyInputCall env language code)
         (Engine.calls (snd (Batch.executeCode env toString language code ""
                                               Engine.empty))).
Proof.
  assert (H : Scenario.keeps (Scenario.emptyInputCall env language code)
                (Batch.executeCode env toString language code "")).
  { unfold Batch.executeCode, Batch.run.
    destruct (Detect.detectInteractiveCode language code) as [e|v] eqn:Hd.
    - unfold Prim.mkdir, Prim.writeFile, Prim.rm. keep; try exact I.
      all: left; split; reflexivity.
    - destruct (Registry.get Registry.supportedLanguages language) as [spec| |] eqn:Hs.
      + unfold Prim.mkdir, Prim.writeFile, Prim.rm,
          Prim.buildImage, Prim.createContainer, Prim.attach, Prim.start, Prim.wait,
          Prim.onTimeout, Prim.inspect, Prim.stop, Prim.containerLogs, Prim.remove,
          Prim.removeImage, Prim.emit, Prim.setTimeout, Prim.clearTimeout.
        repeat first
          [ match goal with
            | |- Scenario.keeps _ (if JS.truthy (Batch.directStdin _ "" _) then _ else _) =>
                rewrite directStdin_empty
            end
          | keep_step ]; try exact I.
        * left; split; reflexivity.
        * right; split; [reflexivity|eexists; reflexivity].
        * reflexivity.
        * simpl. rewrite !command_empty.
          split; [exists spec; auto|]. split; [apply directStdin_empty|].
          unfold Scenario.detectorMatches. rewrite Hd.
          destruct (detect_value _ _ _ Hd) as [-> | [[|] ->]]; simpl;
            split; intros H; try reflexivity; discriminate H.
      + unfold Prim.mkdir, Prim.writeFile, Prim.rm. keep; try exact I.
        all: left; split; reflexivity.
      + keep. }
  apply H. constructor.
Qed.


(** C9 (the code departs from it in one point). A batch request for a
    Python source that reads standard input, with the empty string as
    input: no input.txt is written, the Dockerfile copies no input, the
    build gets only the Dockerfile and the source, the plain run command
    is used; but the OpenStdin option of the container is the empty string,
    the value of [true && '' && ...], and not the boolean false. *)
Theorem C9_empty_input_open_stdin_is_empty_string :
  let w := snd (Batch.executeCode Scenario.quiet Demux.asciiText "python"
                                  Scenario.readsInput "" Engine.empty) in
  Scenario.detectorMatches "python" Scenario.readsInput = true /\
  map fst (Scenario.writes w) = ["/tmp/id-1/script.py"; "/tmp/id-1/Dockerfile"] /\
  Forall (fun f => JS.includes "input.txt" (snd f) = false) (Scenario.writes w) /\
  Scenario.builds w = [(["Dockerfile"; "script.py"], "code-exec-tmp-id-1")] /\
  map Engine.Cmd (Scenario.created w) = [Some ["python"; "script.py"]] /\
  ~ In Engine.StreamEnd (Engine.calls w) /\
  map Engine.OpenStdin (Scenario.created w) = [JS.str ""] /\
  JS.truthy (JS.str "") = false /\
  JS.str "" <> JS.boolean false.
Proof.
  repeat split; try reflexivity.
  - vm_compute. repeat constructor.
  - vm_compute. intros H.
    repeat (destruct H as [H|H]; [discriminate H|]); exact H.
  - discriminate.
Qed.

(** ** The stdin detector on sample sources *)

Example detect_python_input :
  Detect.detectInteractiveCode "python" "name = INPUT  ('who? ')" = inr (JS.boolean true).
Proof. reflexivity. Qed.

Example detect_python_boundary :
  Detect.detectInteractiveCode "python" "my_input(3)" = inr (JS.boolean false).
Proof. reflexivity. Qed.

Example detect_cpp_cin :
  Detect.detectInteractiveCode "cpp" "std::cin >> x;" = inr (JS.boolean true).
Proof. reflexivity. Qed.

Example detect_go_scanln :
  Detect.detectInteractiveCode "go" "fmt.Scanln(&x)" = inr (JS.boolean false).
Proof. reflexivity. Qed.

Example detect_unknown_language :
  Detect.detectInteractiveCode "cobol" "ACCEPT X" = inr JS.undefined.
Proof. reflexivity. Qed.

Example detect_inherited_key :
  Detect.detectInteractiveCode "constructor" "x"
  = inl "patterns[language].test is not a function".
Proof. reflexivity. Qed.

(** * Further properties of the code *)

(** ** The stdin detector *)

Lemma lower_lower (c : ascii) : Detect.lower (Detect.lower c) = Detect.lower c.
Proof. destruct c as [[|] [|] [|] [|] [|] [|] [|] [|]]; reflexivity. Qed.

Lemma isWord_lower (c : ascii) : Detect.isWord (Detect.lower c) = Detect.isWord c.
Proof. destruct c as [[|] [|] [|] [|] [|] [|] [|] [|]]; reflexivity. Qed.

Lemma isSpace_lower (c : ascii) : Detect.isSpace (Detect.lower c) = Detect.isSpace c.
Proof. destruct c as [[|] [|] [|] [|] [|] [|] [|] [|]]; reflexivity. Qed.

Lemma sameLetter_lower (c d : ascii) :
  Detect.sameLetter c (Detect.lower d) = Detect.sameLetter c d.
Proof. unfold Detect.sameLetter. rewrite lower_lower. reflexivity. Qed.

Lemma wordAt_lower (prev : option ascii) :
  Detect.wordAt (option_map Detect.lower prev) = Detect.wordAt prev.
Proof. destruct prev; simpl; [apply isWord_lower|reflexivity]. Qed.

Lemma next_lower (s : string) :
  Detect.next (More.lowerString s) = option_map Detect.lower (Detect.next s).
Proof. destruct s; reflexivity. Qed.

Lemma matchHere_lower (p : Detect.pattern) :
  forall (prev : option ascii) (s : string),
    Detect.matchHere p (option_map Detect.lower prev) (More.lowerString s)
    = Detect.matchHere p prev s.
Proof.
  induction p as [|a p IH]; intros prev s; [reflexivity|].
  destruct a as [c| |].
  - destruct s as [|d s]; simpl; [reflexivity|].
    rewrite sameLetter_lower. rewrite <- (IH (Some d) s). reflexivity.
  - simpl. rewrite wordAt_lower, next_lower, wordAt_lower, IH. reflexivity.
  - revert prev.
    induction s as [|d s IHs]; intros prev.
    + pose proof (IH prev "") as H0. simpl in *. rewrite H0. reflexivity.
    + pose proof (IH prev (String d s)) as H0.
      pose proof (IHs (Some d)) as H1.
      simpl in *. rewrite H0, isSpace_lower, H1. reflexivity.
Qed.

Lemma existsb_same {A : Type} (f g : A -> bool) (l : list A) :
  (forall x, f x = g x) -> existsb f l = existsb g l.
Proof.
  intros H. induction l as [|x l IH]; simpl; [reflexivity|].
  rewrite H, IH. reflexivity.
Qed.

Lemma searchFrom_lower (r : Detect.regex) :
  forall (prev : option ascii) (s : string),
    Detect.searchFrom r (option_map Detect.lower prev) (More.lowerString s)
    = Detect.searchFrom r prev s.
Proof.
  intros prev s; revert prev.
  induction s as [|c s IH]; intros prev; simpl.
  - f_equal. apply existsb_same. intros p. apply (matchHere_lower p prev "").
  - f_equal.
    + apply existsb_same. intros p. apply (matchHere_lower p prev (String c s)).
    + exact (IH (Some c)).
Qed.

(** X1. Detection does not look at the case of letters: two sources that
    differ only in the case of ASCII letters get the same answer from
    [detectInteractiveCode], for every language. *)
Theorem X1_detection_ignores_case :
  forall (language code code' : string),
    More.lowerString code = More.lowerString code' ->
    Detect.detectInteractiveCode language code
    = Detect.detectInteractiveCode language code'.
Proof.
  intros language code code' H.
  assert (E : forall c, Detect.detectInteractiveCode language (More.lowerString c)
                        = Detect.detectInteractiveCode language c).
  { intros c. unfold Detect.detectInteractiveCode, Detect.test.
    destruct (Registry.get Detect.patterns language) as [r| |]; try reflexivity.
    rewrite <- (searchFrom_lower r None c). reflexivity. }
  rewrite <- (E code), <- (E code'), H. reflexivity.
Qed.

Lemma X1_detection_ignores_case_witness :
  Detect.detectInteractiveCode "java" "new SCANNER(System.in)"
  = Detect.detectInteractiveCode "java" "new Scanner(system.IN)".
Proof.
  apply (X1_detection_ignores_case "java"). reflexivity.
Defined.
Lemma searchFrom_here (r : Detect.regex) (p : Detect.pattern)
    (prev : option ascii) (s : string) :
  In p r -> Detect.matchHere p prev s = true -> Detect.searchFrom r prev s = true.
Proof.
  intros Hin Hm.
  assert (E : existsb (fun q => Detect.matchHere q prev s) r = true).
  { apply existsb_exists. exists p. split; assumption. }
  destruct s; simpl; rewrite E; reflexivity.
Qed.

Lemma searchFrom_app (r : Detect.regex) (before s : string) :
  forall prev : option ascii,
    Detect.searchFrom r (More.lastOr prev before) s = true ->
    Detect.searchFrom r prev (before ++ s) = true.
Proof.
  induction before as [|c before IH]; intros prev H; simpl in *; [exact H|].
  rewrite (IH (Some c) H). apply orb_true_r.
Qed.

Lemma star_spaces (p : Detect.pattern) (gap s : string) :
  More.allSpace gap = true ->
  forall prev : option ascii,
    Detect.matchHere p (More.lastOr prev gap) s = true ->
    Detect.matchHere (Detect.SpaceStar :: p) prev (gap ++ s) = true.
Proof.
  intros Hgap. induction gap as [|c gap IH]; intros prev H.
  - simpl in *. destruct s; simpl; rewrite H; reflexivity.
  - simpl in Hgap. apply andb_true_iff in Hgap. destruct Hgap as [Hc Hgap].
    specialize (IH Hgap (Some c) H).
    simpl in *. rewrite Hc, IH. apply orb_true_r.
Qed.

(** X2. Python source is flagged as reading stdin whenever it holds a call
    of [input]: the word, in any position not preceded by a word character,
    followed by any amount of white space and an opening parenthesis. *)
Theorem X2_python_input_call_detected :
  forall (before gap rest : string),
    Detect.wordAt (More.lastOr None before) = false ->
    More.allSpace gap = true ->
    Detect.detectInteractiveCode "python" (before ++ More.pythonCall gap rest)
    = inr (JS.boolean true).
Proof.
  intros before gap rest Hb Hg.
  unfold Detect.detectInteractiveCode.
  assert (E : Registry.get Detect.patterns "python"
              = Registry.Own
                  [ Detect.WordBoundary :: Detect.Lit "i"%char :: Detect.Lit "n"%char
                    :: Detect.Lit "p"%char :: Detect.Lit "u"%char :: Detect.Lit "t"%char
                    :: Detect.SpaceStar :: [Detect.Lit "("%char] ]) by reflexivity.
  rewrite E. do 2 f_equal.
  unfold Detect.test. apply searchFrom_app.
  eapply searchFrom_here; [left; reflexivity|].
  unfold More.pythonCall.
  cbn [Detect.matchHere append Detect.next]. rewrite Hb.
  change (Detect.wordAt (Some "i"%char)) with true.
  change (Detect.sameLetter "i" "i") with true.
  change (Detect.sameLetter "n" "n") with true.
  change (Detect.sameLetter "p" "p") with true.
  change (Detect.sameLetter "u" "u") with true.
  change (Detect.sameLetter "t" "t") with true.
  cbn [xorb andb].
  apply (star_spaces [Detect.Lit "("%char] gap ("(" ++ rest) Hg (Some "t"%char)).
  reflexivity.
Qed.

Lemma X2_python_input_call_detected_witness :
  Detect.detectInteractiveCode "python"
    ("name = " ++ More.pythonCall "  " "'Who? ')")
  = inr (JS.boolean true).
Proof.
  apply (X2_python_input_call_detected "name = " "  " "'Who? ')"); reflexivity.
Defined.

Lemma tables_agree (language : string) :
  More.sameKind (Registry.get Registry.supportedLanguages language)
                (Registry.get Detect.patterns language).
Proof.
  unfold Registry.get. simpl.
  destruct (String.eqb language "python"); [exact I|].
  destruct (String.eqb language "javascript"); [exact I|].
  destruct (String.eqb language "java"); [exact I|].
  destruct (String.eqb language "cpp"); [exact I|].
  destruct (String.eqb language "ruby"); [exact I|].
  destruct (String.eqb language "go"); [exact I|].
  destruct (String.eqb language "dart"); [exact I|].
  match goal with |- context [if ?b then _ else _] => destruct b end; exact I.
Qed.

Lemma sameLetter_refl (c : ascii) : Detect.sameLetter c c = true.
Proof. unfold Detect.sameLetter. apply Ascii.eqb_refl. Qed.

Lemma matchHere_lit (k : string) (p : Detect.pattern) (s : string) :
  forall prev : option ascii,
    Detect.matchHere (Detect.lit k ++ p)%list prev (k ++ s)
    = Detect.matchHere p (More.lastOr prev k) s.
Proof.
  induction k as [|c k IH]; intros prev; [reflexivity|].
  change (Detect.lit (String c k) ++ p)%list
    with (Detect.Lit c :: (Detect.lit k ++ p))%list.
  simpl. rewrite sameLetter_refl. simpl. apply IH.
Qed.

(** X4. A keyword of a language's pattern is found wherever it stands as a
    word of its own: for every alternative [\bk\b] in the table, source
    text that holds [k] with a word boundary on either side is flagged as
    reading stdin. *)
Theorem X4_keyword_detected :
  forall (language : string) (r : Detect.regex) (k before rest : string),
    Registry.get Detect.patterns language = Registry.Own r ->
    In (Detect.word k) r ->
    xorb (Detect.wordAt (More.lastOr None before))
         (Detect.wordAt (Detect.next (k ++ rest))) = true ->
    xorb (Detect.wordAt (More.lastOr (More.lastOr None before) k))
         (Detect.wordAt (Detect.next rest)) = true ->
    Detect.detectInteractiveCode language (before ++ k ++ rest)
    = inr (JS.boolean true).
Proof.
  intros language r k before rest Hr Hin Hleft Hright.
  unfold Detect.detectInteractiveCode. rewrite Hr. do 2 f_equal.
  unfold Detect.test. apply searchFrom_app.
  apply (searchFrom_here r (Detect.word k)); [exact Hin|].
  unfold Detect.word.
  cbn [Detect.matchHere]. rewrite Hleft. cbn [andb].
  rewrite matchHere_lit. simpl. rewrite Hright. reflexivity.
Qed.

Lemma X4_keyword_detected_witness :
  Detect.detectInteractiveCode "cpp" ("std::" ++ "cin" ++ " >> x;")
  = inr (JS.boolean true).
Proof.
  apply (X4_keyword_detected "cpp"
           [Detect.word "cin"; Detect.word "getline"; Detect.word "scanf"]
           "cin" "std::" " >> x;").
  - reflexivity.
  - left. reflexivity.
  - reflexivity.
  - reflexivity.
Defined.

(** ** The registry and the files of an execution *)

Lemma registered_cases (language : string) (spec : Registry.LanguageSpec) :
  Registry.get Registry.supportedLanguages language = Registry.Own spec ->
  (language = "python" /\ spec = Registry.python) \/
  (language = "javascript" /\ spec = Registry.javascript) \/
  (language = "java" /\ spec = Registry.java) \/
  (language = "cpp" /\ spec = Registry.cpp) \/
  (language = "ruby" /\ spec = Registry.ruby) \/
  (language = "go" /\ spec = Registry.go) \/
  (language = "dart" /\ spec = Registry.dart).
Proof.
  unfold Registry.get. simpl.
  destruct (String.eqb_spec language "python");
    [intros H; injection H as <-; tauto|].
  destruct (String.eqb_spec language "javascript");
    [intros H; injection H as <-; tauto|].
  destruct (String.eqb_spec language "java");
    [intros H; injection H as <-; tauto|].
  destruct (String.eqb_spec language "cpp");
    [intros H; injection H as <-; tauto|].
  destruct (String.eqb_spec language "ruby");
    [intros H; injection H as <-; tauto|].
  destruct (String.eqb_spec language "go");
    [intros H; injection H as <-; tauto|].
  destruct (String.eqb_spec language "dart");
    [intros H; injection H as <-; tauto|].
  match goal with |- context [if ?b then _ else _] => destruct b end; discriminate.
Qed.

(** X5. The command of a registered language runs the file the executors
    write: the source file name ends with the registry's file extension
    and occurs in the last word of the registry command, and in the last
    word of the command that pipes [input.txt] into the program. *)
Theorem X5_command_runs_the_written_file :
  forall (language : string) (spec : Registry.LanguageSpec),
    Registry.get Registry.supportedLanguages language = Registry.Own spec ->
    (exists stem, Registry.fileName language = stem ++ Registry.fileExtension spec) /\
    JS.includes (Registry.fileName language) (last (Registry.command spec) "") = true /\
    JS.includes (Registry.fileName language)
                (last (Batch.pipedCommand language (Registry.command spec)) "") = true.
Proof.
  intros language spec H.
  destruct (registered_cases language spec H)
    as [[-> ->]|[[-> ->]|[[-> ->]|[[-> ->]|[[-> ->]|[[-> ->]|[-> ->]]]]]]].
  - split; [exists "script"; reflexivity|split; reflexivity].
  - split; [exists "script"; reflexivity|split; reflexivity].
  - split; [exists "Main"; reflexivity|split; reflexivity].
  - split; [exists "main"; reflexivity|split; reflexivity].
  - split; [exists "script"; reflexivity|split; reflexivity].
  - split; [exists "main"; reflexivity|split; reflexivity].
  - split; [exists "main"; reflexivity|split; reflexivity].
Qed.

Lemma X5_command_runs_the_written_file_witness :
  JS.includes (Registry.fileName "go") (last (Registry.command Registry.go) "") = true.
Proof.
  exact (proj1 (proj2 (X5_command_runs_the_written_file "go" Registry.go eq_refl))).
Defined.

Lemma endsWithChar_app (s : string) (c : ascii) :
  JS.endsWithChar (s ++ String c "") c = true.
Proof.
  induction s as [|d s IH]; simpl; [apply Ascii.eqb_refl|].
  destruct s; simpl in *; exact IH.
Qed.

(** X6. What is written to [input.txt] ends with a line feed: input that
    lacks the final line feed gets exactly one, input that has it is
    written as it is, and normalising twice changes nothing more. *)
Theorem X6_input_file_ends_with_newline :
  forall input : string,
    input <> "" ->
    JS.endsWithChar (Batch.inputContent input) (ascii_of_nat 10) = true /\
    Batch.inputContent input
    = (if JS.endsWithChar input (ascii_of_nat 10) then input else input ++ JS.nl) /\
    Batch.inputContent (Batch.inputContent input) = Batch.inputContent input.
Proof.
  intros input Hne.
  assert (Ht : JS.truthy (JS.str input) = true)
    by (destruct input; [contradiction Hne; reflexivity|reflexivity]).
  assert (E : Batch.inputContent input
              = (if JS.endsWithChar input (ascii_of_nat 10) then input
                 else input ++ JS.nl)).
  { unfold Batch.inputContent. rewrite Ht.
    destruct (JS.endsWithChar input (ascii_of_nat 10)); reflexivity. }
  assert (Hend : JS.endsWithChar (Batch.inputContent input) (ascii_of_nat 10) = true).
  { rewrite E. destruct (JS.endsWithChar input (ascii_of_nat 10)) eqn:He;
      [exact He|apply endsWithChar_app]. }
  split; [exact Hend|]. split; [exact E|].
  unfold Batch.inputContent at 1. rewrite Hend, andb_false_r. reflexivity.
Qed.

Lemma X6_input_file_ends_with_newline_witness :
  Batch.inputContent "42" = "42" ++ JS.nl.
Proof.
  assert (H : "42" <> "") by discriminate.
  exact (proj1 (proj2 (X6_input_file_ends_with_newline "42" H))).
Defined.
(** ** The batch executor and stdin *)

Lemma directStdin_never (language : string) (spec : Registry.LanguageSpec)
    (hasInteractiveInput : JS.value) (input : string) :
  Registry.get Registry.supportedLanguages language = Registry.Own spec ->
  JS.truthy
    (Batch.directStdin hasInteractiveInput input
       (Batch.command language (Registry.command spec) hasInteractiveInput input))
  = false.
Proof.
  intros H. unfold Batch.directStdin, Batch.command.
  destruct (JS.truthy (JS.and hasInteractiveInput (JS.str input))) eqn:Ht.
  - unfold JS.and at 1. rewrite Ht.
    destruct (registered_cases language spec H)
      as [[-> ->]|[[-> ->]|[[-> ->]|[[-> ->]|[[-> ->]|[[-> ->]|[-> ->]]]]]]];
      reflexivity.
  - unfold JS.and at 1. rewrite Ht. exact Ht.
Qed.

(** Breaks a computation into the calls it records, keeping the outcome
    of every test. *)
Ltac keep_eq_step :=
  first
    [ apply keeps_ret
    | apply keeps_throw
    | apply keeps_gets
    | apply keeps_failing
    | apply keeps_modify; intros []; reflexivity
    | match goal with
      | |- Scenario.keeps _ (Engine.bind (Engine.ret _) _) => apply keeps_bind_ret
      end
    | apply keeps_bind; [|intros ?]
    | apply keeps_tryCatch; [|intros ?]
    | apply keeps_tryFinally
    | apply keeps_forEach; intros ?
    | apply keeps_record
    | match goal with
      | |- Scenario.keeps _ (if ?b then _ else _) => destruct b eqn:?
      | |- Scenario.keeps _ (match ?x with _ => _ end) => destruct x eqn:?
      end ].

Ltac keep_eq := repeat keep_eq_step.

(** X8. Input given to a batch execution reaches the program only when the
    source matches the stdin detector: a registered language's container
    runs the command that pipes [input.txt] into the program when the
    detector matches and the input is not empty, and the registry's plain
    command otherwise. *)
Theorem X8_input_piped_only_when_detected :
  forall (env : Engine.Env) (toString : list Z -> string)
         (language code input : string) (spec : Registry.LanguageSpec),
    Registry.get Registry.supportedLanguages language = Registry.Own spec ->
    Scenario.keeps
      (More.runs (if Scenario.detectorMatches language code
                     && negb (String.eqb input "")
                  then Batch.pipedCommand language (Registry.command spec)
                  else Registry.command spec))
      (Batch.executeCode env toString language code input).
Proof.
  intros env toString language code input spec Hs.
  destruct (detect_own language code spec Hs) as [b Hd].
  unfold Scenario.detectorMatches, Batch.executeCode, Batch.run.
  rewrite Hd, Hs.
  unfold Prim.mkdir, Prim.writeFile, Prim.rm,
    Prim.buildImage, Prim.createContainer, Prim.attach, Prim.start, Prim.wait,
    Prim.onTimeout, Prim.inspect, Prim.stop, Prim.containerLogs, Prim.remove,
    Prim.removeImage, Prim.emit, Prim.setTimeout, Prim.clearTimeout.
  keep; try exact I.
  all: simpl; destruct b, input; reflexivity.
Qed.

Lemma X8_input_piped_only_when_detected_witness :
  Scenario.keeps
    (More.runs (Registry.command Registry.python))
    (Batch.executeCode Scenario.quiet Demux.asciiText "python" "print(1)" "4").
Proof.
  exact (X8_input_piped_only_when_detected Scenario.quiet Demux.asciiText
           "python" "print(1)" "4" Registry.python eq_refl).
Defined.
(** ** Cleanup on every exit path *)

Lemma without_not_in (x : string) (l : list string) : ~ In x (Prim.without x l).
Proof.
  unfold Prim.without. intros H. apply filter_In in H. destruct H as [_ H].
  rewrite String.eqb_refl in H. discriminate H.
Qed.

Lemma filter_outside {A : Type} (inside : A -> bool) (l : list A) :
  Forall (fun a => inside a = false) (filter (fun a => negb (inside a)) l).
Proof.
  induction l as [|a l IH]; simpl; [constructor|].
  destruct (inside a) eqn:E; simpl; [exact IH|].
  constructor; [exact E|exact IH].
Qed.

Lemma rm_clears (env : Engine.Env) (dir : string) (handler : string -> Engine.M unit)
    (w : Engine.World) :
  Engine.fails env Engine.OpRm = false ->
  More.cleared dir (snd (Engine.tryCatch (Prim.rm env dir) handler w)).
Proof.
  intros Hrm. destruct w as [d fl i c r t s l k].
  unfold Engine.tryCatch, Prim.rm, Prim.record, Prim.failing, Engine.bind, Engine.modify.
  rewrite Hrm. simpl. split; simpl.
  - apply without_not_in.
  - apply (filter_outside (fun f => String.prefix (dir ++ "/") (fst f))).
Qed.

Lemma cleanup_ends (env : Engine.Env) (dir : string) (w : Engine.World) :
  exists w1,
    Interactive.cleanup env dir w
    = Engine.tryCatch (Prim.rm env dir) (fun _ => Engine.ret tt) w1 /\
    Engine.listening w1 = false.
Proof.
  destruct w as [d fl i c r t s l k].
  unfold Interactive.cleanup, Interactive.streamEndIfAlive, Prim.record,
    Engine.bind, Engine.gets, Engine.modify, Engine.ret.
  destruct l, s as [[[|] wr]|]; simpl; eexists; split; reflexivity.
Qed.

Lemma rm_keeps_listening (env : Engine.Env) (dir : string) (w : Engine.World) :
  fst (Engine.tryCatch (Prim.rm env dir) (fun _ => Engine.ret tt) w) = inr tt /\
  Engine.listening (snd (Engine.tryCatch (Prim.rm env dir) (fun _ => Engine.ret tt) w))
  = Engine.listening w.
Proof.
  destruct w as [d fl i c r t s l k].
  unfold Engine.tryCatch, Prim.rm, Prim.record, Prim.failing, Engine.bind,
    Engine.modify, Engine.ret, Engine.throw.
  destruct (Engine.fails env Engine.OpRm); simpl; split; reflexivity.
Qed.

Lemma reported_keeps_files (message : string) (w : Engine.World) :
  let w' := snd ((Engine.bind (Prim.emit (Engine.Error message))
                    (fun _ => Prim.emit (Engine.ExecutionComplete "error" None None))) w) in
  Engine.dirs w' = Engine.dirs w /\ Engine.files w' = Engine.files w /\
  Engine.listening w' = Engine.listening w.
Proof.
  destruct w as [d fl i c r t s l k]. simpl. auto.
Qed.

(** X9. Both executors remove the work directory of an execution on every
    exit path. Whatever fails before (mkdir, the build, the container, the
    wait), once the language has passed the registry check and [fs.rm]
    itself succeeds, the directory and every file below it are gone when
    the executor returns or throws. *)
Theorem X9_work_directory_removed :
  forall (env : Engine.Env) (toString : list Z -> string)
         (language code input : string) (w : Engine.World),
    Engine.fails env Engine.OpRm = false ->
    Registry.present (Registry.get Registry.supportedLanguages language) = true ->
    More.cleared ("/tmp/" ++ Engine.uuid env)
      (snd (Batch.executeCode env toString language code input w)) /\
    More.cleared ("/workdir/" ++ Engine.uuid env)
      (snd (Interactive.onExecuteInteractive env language code w)).
Proof.
  intros env toString language code input w Hrm Hp. split.
  - unfold Batch.executeCode. rewrite Hp. change (negb true) with false. cbv iota.
    unfold Engine.tryFinally at 1.
    match goal with
    | |- context [Engine.tryCatch ?m ?h w] =>
        destruct (Engine.tryCatch m h w) as [r w1]
    end.
    pose proof (rm_clears env ("/tmp/" ++ Engine.uuid env)
                  (fun _ => Engine.ret tt) w1 Hrm) as Hc.
    destruct (Engine.tryCatch (Prim.rm env _) _ w1) as [[e|u] w2]; exact Hc.
  - unfold Interactive.onExecuteInteractive, Interactive.executeCodeInteractive.
    rewrite Hp. change (negb true) with false. cbv iota.
    unfold Engine.tryCatch at 1. unfold Engine.tryFinally at 1.
    match goal with
    | |- context [Engine.tryCatch ?m ?h w] =>
        destruct (Engine.tryCatch m h w) as [r w1]
    end.
    destruct (cleanup_ends env ("/workdir/" ++ Engine.uuid env) w1) as (w2 & E & _).
    rewrite E.
    pose proof (rm_clears env ("/workdir/" ++ Engine.uuid env)
                  (fun _ => Engine.ret tt) w2 Hrm) as Hc.
    destruct (Engine.tryCatch (Prim.rm env _) _ w2) as [[e|u] w3].
    + destruct (reported_keeps_files e w3) as (Hd & Hf & _).
      unfold More.cleared in *. simpl in Hc. rewrite Hd, Hf. exact Hc.
    + destruct r as [e|u']; [|exact Hc].
      destruct (reported_keeps_files e w3) as (Hd & Hf & _).
      unfold More.cleared in *. simpl in Hc. rewrite Hd, Hf. exact Hc.
Qed.

Lemma X9_work_directory_removed_witness :
  More.cleared "/tmp/id-1"
    (snd (Batch.executeCode Scenario.quiet Demux.asciiText "ruby" "puts 1" ""
            Engine.empty)) /\
  More.cleared "/workdir/id-1"
    (snd (Interactive.onExecuteInteractive Scenario.quiet "ruby" "puts 1" Engine.empty)).
Proof.
  exact (X9_work_directory_removed Scenario.quiet Demux.asciiText "ruby" "puts 1" ""
           Engine.empty eq_refl eq_refl).
Defined.

(** X10. The ['execute-interactive'] listener lets no error of the
    executor escape, whatever the environment does: every error is caught
    and reported on the socket, and the listener returns normally. And it
    leaves no ['input'] listener behind: when none is bound before the
    message, none is bound after it. *)
Theorem X10_socket_handler_never_throws :
  forall (env : Engine.Env) (language code : string) (w : Engine.World),
    fst (Interactive.onExecuteInteractive env language code w) = inr tt /\
    (Engine.listening w = false ->
     Engine.listening (snd (Interactive.onExecuteInteractive env language code w))
     = false).
Proof.
  intros env language code w.
  assert (H : exists w',
             Interactive.onExecuteInteractive env language code w = (inr tt, w') /\
             (Engine.listening w = false -> Engine.listening w' = false)).
  { unfold Interactive.onExecuteInteractive, Interactive.executeCodeInteractive.
    destruct (Registry.present _); simpl negb; cbv iota.
    - unfold Engine.tryCatch at 1. unfold Engine.tryFinally at 1.
      match goal with
      | |- context [Engine.tryCatch ?m ?h w] =>
          destruct (Engine.tryCatch m h w) as [r w1]
      end.
      destruct (cleanup_ends env ("/workdir/" ++ Engine.uuid env) w1) as (w2 & E & L).
      rewrite E.
      destruct (rm_keeps_listening env ("/workdir/" ++ Engine.uuid env) w2) as [Hf Hl].
      destruct (Engine.tryCatch (Prim.rm env _) _ w2) as [[e|u] w3];
        simpl in Hf, Hl; [discriminate Hf|].
      destruct r as [e|[]].
      + eexists. split; [reflexivity|]. intros _.
        destruct w3 as [d3 f3 i3 c3 r3 t3 s3 l3 k3]. simpl in *. congruence.
      + eexists. split; [reflexivity|]. intros _. rewrite Hl. exact L.
    - unfold Engine.tryCatch, Engine.throw.
      destruct w as [d fl i c r t s l k].
      eexists. split; [reflexivity|]. intros L. exact L. }
  destruct H as (w' & E & L). rewrite E. split; [reflexivity|exact L].
Qed.

Lemma X10_socket_handler_never_throws_witness :
  Engine.listening
    (snd (Interactive.onExecuteInteractive Scenario.quiet "go" "package main"
            Engine.empty)) = false.
Proof.
  exact (proj2 (X10_socket_handler_never_throws Scenario.quiet "go" "package main"
                  Engine.empty) eq_refl).
Defined.

(** X11. The two executors keep apart. An interactive session builds and
    removes no image and reads no container log: its container is created
    from the registry's image with the registry's command. A batch
    execution binds no socket listener: its container is created from the
    temporary image built for the execution and has no mount. *)
Theorem X11_executors_keep_apart :
  forall (env : Engine.Env) (toString : list Z -> string)
         (language code input : string),
    Scenario.keeps (More.sessionCall language)
                   (Interactive.onExecuteInteractive env language code) /\
    Scenario.keeps (More.batchCall env)
                   (Batch.executeCode env toString language code input).
Proof.
  intros env toString language code input. split.
  - unfold Interactive.onExecuteInteractive, Interactive.executeCodeInteractive,
      Interactive.run, Interactive.cleanup, Interactive.handle,
      Interactive.inputHandler, Interactive.streamWrite,
      Interactive.streamEndIfAlive, Prim.mkdir, Prim.writeFile, Prim.rm,
      Prim.createContainer, Prim.attach, Prim.start, Prim.wait,
      Prim.onTimeout, Prim.inspect, Prim.stop, Prim.remove,
      Prim.emit, Prim.setTimeout, Prim.clearTimeout.
    keep; try exact I.
    all: intros spec Hs; simpl; rewrite Hs; split; reflexivity.
  - unfold Batch.executeCode, Batch.run, Prim.mkdir, Prim.writeFile, Prim.rm,
      Prim.buildImage, Prim.createContainer, Prim.attach, Prim.start, Prim.wait,
      Prim.onTimeout, Prim.inspect, Prim.stop, Prim.containerLogs, Prim.remove,
      Prim.removeImage, Prim.emit, Prim.setTimeout, Prim.clearTimeout.
    keep; try exact I.
    all: simpl; split; reflexivity.
Qed.
(** ** The result of a batch execution *)

Section Yielding.

Import Engine Prim.

Lemma yields_ret {A : Type} (P : A -> Prop) (a : A) : P a -> More.yields P (ret a).
Proof. intros H w b E. injection E as <-. exact H. Qed.

Lemma yields_throw {A : Type} (P : A -> Prop) (e : string) :
  More.yields P (@throw A e).
Proof. intros w b E. discriminate E. Qed.

Lemma yields_bind_with {A B : Type} (Q : A -> Prop) (P : B -> Prop)
    (m : M A) (k : A -> M B) :
  More.yields Q m -> (forall a, Q a -> More.yields P (k a)) ->
  More.yields P (bind m k).
Proof.
  intros Hm Hk w b E. unfold bind in E. specialize (Hm w).
  destruct (m w) as [[e|a] w']; simpl in *; [discriminate E|].
  exact (Hk a (Hm a eq_refl) w' b E).
Qed.

Lemma yields_bind {A B : Type} (P : B -> Prop) (m : M A) (k : A -> M B) :
  (forall a, More.yields P (k a)) -> More.yields P (bind m k).
Proof.
  intros Hk. apply (yields_bind_with (fun _ => True)); [|intros a _; apply Hk].
  intros w a _. exact I.
Qed.

Lemma yields_rethrow {A : Type} (P : A -> Prop) (m : M A) :
  More.yields P m -> More.yields P (tryCatch m (fun error => throw error)).
Proof.
  intros Hm w a E. unfold tryCatch in E. specialize (Hm w).
  destruct (m w) as [[e|b] w']; simpl in *; [discriminate E|].
  injection E as <-. apply Hm. reflexivity.
Qed.

Lemma yields_tryFinally {A : Type} (P : A -> Prop) (m : M A) (fin : M unit) :
  More.yields P m -> More.yields P (tryFinally m fin).
Proof.
  intros Hm w a E. unfold tryFinally in E. specialize (Hm w).
  destruct (m w) as [r w']. destruct (fin w') as [[e|u] w'']; simpl in *;
    [discriminate E|].
  apply Hm. exact E.
Qed.

Lemma wait_yields (env : Env) (handle : Arrival -> M unit) (container : string) :
  More.yields (fun z => z = statusCode env) (wait env handle container).
Proof.
  unfold wait. repeat (apply yields_bind; intros ?). apply yields_ret. reflexivity.
Qed.

Lemma containerLogs_yields (env : Env) (container : string) :
  More.yields (fun l => l = logs env) (containerLogs env container).
Proof.
  unfold containerLogs. repeat (apply yields_bind; intros ?).
  apply yields_ret. reflexivity.
Qed.

End Yielding.

Lemma executeCode_reports (env : Engine.Env) (toString : list Z -> string)
    (language code input : string) :
  More.yields (More.reported env toString)
              (Batch.executeCode env toString language code input).
Proof.
  unfold Batch.executeCode.
  destruct (negb _); [apply yields_throw|].
  apply yields_tryFinally, yields_rethrow.
  unfold Batch.run. cbv zeta.
  do 4 (apply yields_bind; intros ?).
  destruct (Registry.get Registry.supportedLanguages language);
    try apply yields_throw.
  do 6 (apply yields_bind; intros ?).
  apply (yields_bind_with (fun z => z = Engine.statusCode env));
    [apply wait_yields|intros data ->].
  apply yields_bind; intros ?.
  apply (yields_bind_with (fun l => l = Engine.logs env));
    [apply containerLogs_yields|intros logs ->].
  apply (yields_bind_with
           (fun text => Demux.cleanDockerLogs toString (Engine.logs env) = Some text)).
  { destruct (Demux.cleanDockerLogs toString (Engine.logs env)) as [text|];
      [apply yields_ret; reflexivity|apply yields_throw]. }
  intros output Hout.
  do 2 (apply yields_bind; intros ?).
  apply yields_ret. unfold More.reported. simpl. auto.
Qed.

(** X12. What a batch execution returns is what the container did: the
    result carries the execution's id, the container's exit code, the
    status 'success' exactly when that code is 0 and 'error' otherwise,
    and as output the cleaned container log. *)
Theorem X12_batch_result_reports_the_container :
  forall (env : Engine.Env) (toString : list Z -> string)
         (language code input : string) (w : Engine.World) (r : Batch.Result),
    fst (Batch.executeCode env toString language code input w) = inr r ->
    More.reported env toString r.
Proof.
  intros env toString language code input w r.
  exact (executeCode_reports env toString language code input w r).
Qed.

Lemma X12_batch_result_reports_the_container_witness :
  More.reported Scenario.quiet Demux.asciiText
    {| Batch.executionId := "id-1"; Batch.status := "success";
       Batch.output := ""; Batch.exitCode := 0 |}.
Proof.
  apply (X12_batch_result_reports_the_container Scenario.quiet Demux.asciiText
           "python" "print(1)" "" Engine.empty).
  reflexivity.
Defined.
(** ** The queue: no idle slot, no lost request, no overtaking *)

Section Queue.

Import Server.

Variable maxConcurrentExecutions : Z.

Lemma after_app (history : list Happening) (h : Happening) :
  after maxConcurrentExecutions (history ++ [h])
  = step maxConcurrentExecutions (after maxConcurrentExecutions history) h.
Proof. unfold after. rewrite fold_left_app. reflexivity. Qed.

Lemma saturated_processQueue (s : State) :
  More.saturated maxConcurrentExecutions s \/
  (exists task, executionQueue s = [task]) ->
  More.saturated maxConcurrentExecutions (processQueue maxConcurrentExecutions s).
Proof.
  unfold More.saturated, processQueue.
  destruct (executionQueue s) as [|task rest] eqn:Hq; [auto|].
  destruct (Z.geb_spec (currentExecutions s) maxConcurrentExecutions) as [Hge|Hlt].
  - intros _. right. lia.
  - intros [[H|H]|[t H]]; simpl; [discriminate H|lia|].
    injection H as _ ->. left. reflexivity.
Qed.

Lemma saturated_step (s : State) (h : Happening) :
  More.saturated maxConcurrentExecutions s ->
  More.saturated maxConcurrentExecutions (step maxConcurrentExecutions s h).
Proof.
  intros Hs. destruct h as [req r | socket lang | i | i outcome | i]; simpl.
  - unfold postExecute.
    destruct (negb _ || negb _); [exact Hs|].
    apply saturated_processQueue. unfold More.saturated; simpl.
    destruct Hs as [Hq|Hc]; [|left; right; exact Hc].
    right. rewrite Hq. eexists. reflexivity.
  - destruct (Registry.present _); exact Hs.
  - exact Hs.
  - destruct (nth_error (live s) i) as [e|]; [|exact Hs].
    destruct (isBatch e); [|exact Hs].
    unfold More.saturated, processQueue in *; simpl.
    destruct (executionQueue s) as [|task rest] eqn:Hq; [left; reflexivity|].
    destruct Hs as [Hs|Hs]; [discriminate Hs|].
    destruct (Z.geb_spec (currentExecutions s - 1) maxConcurrentExecutions);
      simpl; right; lia.
  - destruct (nth_error (live s) i) as [e|]; [|exact Hs].
    destruct (isBatch e); exact Hs.
Qed.

Lemma saturated_after (history : list Happening) :
  More.saturated maxConcurrentExecutions (after maxConcurrentExecutions history).
Proof.
  induction history as [|h history IH] using rev_ind.
  - left. reflexivity.
  - rewrite after_app. apply saturated_step, IH.
Qed.

Lemma whereabouts_processQueue (s : State) :
  Permutation (More.whereabouts (processQueue maxConcurrentExecutions s))
              (More.whereabouts s).
Proof.
  unfold More.whereabouts, processQueue.
  destruct (executionQueue s) as [|task rest] eqn:Hq; [rewrite Hq; reflexivity|].
  destruct (currentExecutions s >=? maxConcurrentExecutions);
    [rewrite Hq; reflexivity|].
  simpl. rewrite filter_app, map_app. simpl.
  rewrite <- app_assoc. simpl.
  symmetry.
  rewrite (app_assoc (map res rest) (map owner (filter isBatch (live s)))
             (res task :: map fst (sent s))).
  apply Permutation_cons_app. rewrite <- app_assoc. reflexivity.
Qed.

Lemma owners_advanceAt (i : nat) (l : list Execution) :
  map owner (filter isBatch (advanceAt i l)) = map owner (filter isBatch l).
Proof.
  revert i; induction l as [|e l IH]; intros [|i]; simpl; auto.
  - unfold isBatch; simpl. destruct (mode e); reflexivity.
  - destruct (isBatch e); simpl; rewrite (IH i); reflexivity.
Qed.

Lemma owners_removeAt_hit (i : nat) (l : list Execution) (e : Execution) :
  nth_error l i = Some e -> isBatch e = true ->
  Permutation (owner e :: map owner (filter isBatch (removeAt i l)))
              (map owner (filter isBatch l)).
Proof.
  revert i; induction l as [|b l IH]; intros [|i]; simpl; try discriminate.
  - intros [= ->] ->. reflexivity.
  - intros Hn Hb. specialize (IH i Hn Hb).
    destruct (isBatch b); simpl; [|exact IH].
    rewrite perm_swap. apply perm_skip. exact IH.
Qed.

Lemma owners_removeAt_miss (i : nat) (l : list Execution) (e : Execution) :
  nth_error l i = Some e -> isBatch e = false ->
  map owner (filter isBatch (removeAt i l)) = map owner (filter isBatch l).
Proof.
  revert i; induction l as [|b l IH]; intros [|i]; simpl; try discriminate.
  - intros [= ->] ->. reflexivity.
  - intros Hn Hb. destruct (isBatch b); simpl; rewrite (IH i Hn Hb); reflexivity.
Qed.

Lemma whereabouts_step (s : State) (h : Happening) :
  Permutation (More.whereabouts (step maxConcurrentExecutions s h))
              (More.whereabouts s ++ More.posted [h]).
Proof.
  destruct h as [req r | socket lang | i | i outcome | i]; simpl;
    rewrite ?app_nil_r.
  - unfold postExecute.
    destruct (negb _ || negb _).
    + unfold More.whereabouts; simpl. rewrite map_app, !app_assoc. reflexivity.
    + rewrite whereabouts_processQueue. unfold More.whereabouts; simpl.
      rewrite map_app. simpl. rewrite <- !app_assoc. simpl.
      apply Permutation_app_head.
      rewrite (app_assoc (map owner (filter isBatch (live s)))).
      apply Permutation_cons_append.
  - destruct (Registry.present _); [|reflexivity].
    unfold More.whereabouts; simpl. rewrite filter_app. simpl.
    rewrite app_nil_r. reflexivity.
  - unfold More.whereabouts; simpl. rewrite owners_advanceAt. reflexivity.
  - destruct (nth_error (live s) i) as [e|] eqn:He; [|reflexivity].
    destruct (isBatch e) eqn:Hb; [|reflexivity].
    rewrite whereabouts_processQueue. unfold More.whereabouts; simpl.
    rewrite <- (owners_removeAt_hit i (live s) e He Hb).
    rewrite map_app. simpl.
    apply Permutation_app_head. simpl.
    rewrite (Permutation_app_comm (map fst (sent s)) [owner e]). simpl.
    symmetry. apply Permutation_middle.
  - destruct (nth_error (live s) i) as [e|] eqn:He; [|reflexivity].
    destruct (isBatch e) eqn:Hb; [reflexivity|].
    unfold More.whereabouts; simpl.
    rewrite (owners_removeAt_miss i (live s) e He Hb). reflexivity.
Qed.

Lemma queue_processQueue (s : State) :
  exists started,
    map res (executionQueue s)
    = (started ++ map res (executionQueue (processQueue maxConcurrentExecutions s)))%list.
Proof.
  unfold processQueue.
  destruct (executionQueue s) as [|task rest] eqn:Hq;
    [exists []; rewrite Hq; reflexivity|].
  destruct (currentExecutions s >=? maxConcurrentExecutions);
    [exists []; rewrite Hq; reflexivity|].
  exists [res task]. reflexivity.
Qed.

Lemma queue_step (s : State) (h : Happening) :
  exists started,
    (map res (executionQueue s) ++ More.queued [h])%list
    = (started ++ map res (executionQueue (step maxConcurrentExecutions s h)))%list.
Proof.
  destruct h as [req r | socket lang | i | i outcome | i]; simpl;
    rewrite ?app_nil_r.
  - unfold postExecute.
    destruct (negb _ || negb _); [exists []; rewrite app_nil_r; reflexivity|].
    match goal with
    | |- context [processQueue _ ?s0] =>
        destruct (queue_processQueue s0) as [started E]
    end.
    exists started. rewrite <- E. simpl. rewrite map_app. reflexivity.
  - exists []. destruct (Registry.present _); reflexivity.
  - exists []. reflexivity.
  - destruct (nth_error (live s) i) as [e|]; [|exists []; reflexivity].
    destruct (isBatch e); [|exists []; reflexivity].
    match goal with
    | |- context [processQueue _ ?s0] =>
        destruct (queue_processQueue s0) as [started E]
    end.
    exists started. rewrite <- E. reflexivity.
  - exists []. destruct (nth_error (live s) i) as [e|]; [|reflexivity].
    destruct (isBatch e); reflexivity.
Qed.

End Queue.

(** X13. The queue leaves no slot idle: in every state the server reaches,
    a request waits in the queue only while the counter has reached the
    cap; for a non-negative cap, exactly [maxConcurrentExecutions] batch
    executions are then under way. *)
Theorem X13_queue_waits_only_when_full :
  forall (maxConcurrentExecutions : Z) (history : list Server.Happening),
    0 <= maxConcurrentExecutions ->
    let s := Server.after maxConcurrentExecutions history in
    Server.executionQueue s <> [] ->
    Server.currentExecutions s = maxConcurrentExecutions /\
    Z.of_nat (Server.batchLive s) = maxConcurrentExecutions.
Proof.
  intros cap history Hcap s Hq.
  assert (Hc : Scenario.counted cap s).
  { apply counted_fold. unfold Scenario.counted, Server.batchLive; simpl. lia. }
  destruct Hc as [Hc Hm].
  destruct (saturated_after cap history) as [Hs|Hs]; [contradiction|].
  fold s in Hs. split; lia.
Qed.

Lemma X13_queue_waits_only_when_full_witness :
  Server.currentExecutions (Server.after 5 Scenario.sevenPosts) = 5 /\
  Z.of_nat (Server.batchLive (Server.after 5 Scenario.sevenPosts)) = 5.
Proof.
  apply (X13_queue_waits_only_when_full 5 Scenario.sevenPosts); [lia|].
  vm_compute. discriminate.
Defined.

(** X14. No request is lost and none is answered twice: in every state the
    server reaches, the response handles of all POST requests so far are,
    counted with multiplicity, exactly those waiting in the queue, those of
    the batch executions under way and those already answered. *)
Theorem X14_every_request_is_accounted_for :
  forall (maxConcurrentExecutions : Z) (history : list Server.Happening),
    Permutation (More.posted history)
                (More.whereabouts (Server.after maxConcurrentExecutions history)).
Proof.
  intros cap history.
  induction history as [|h history IH] using rev_ind; [reflexivity|].
  rewrite after_app, whereabouts_step.
  unfold More.posted in *. rewrite flat_map_app.
  apply Permutation_app_tail. exact IH.
Qed.

(** X15. The queue is first in, first out: in every state the server
    reaches, the waiting requests are the most recently admitted ones, in
    their order of arrival. The requests that passed the endpoint's check
    are, in arrival order, those dispatched so far followed by those in
    the queue. *)
Theorem X15_queue_is_first_in_first_out :
  forall (maxConcurrentExecutions : Z) (history : list Server.Happening),
    exists started,
      More.queued history
      = (started ++
         map Server.res
             (Server.executionQueue (Server.after maxConcurrentExecutions history)))%list.
Proof.
  intros cap history.
  induction history as [|h history IH] using rev_ind; [exists []; reflexivity|].
  destruct IH as [started E].
  destruct (queue_step cap (Server.after cap history) h) as [more E'].
  exists (started ++ more)%list.
  rewrite after_app. unfold More.queued in *. rewrite flat_map_app, E.
  rewrite <- !app_assoc. f_equal. exact E'.
Qed.
(** ** The log cleaner on every buffer *)

(** X16. On a log in which no payload is empty and no payload byte is 0x01
    or 0x02, the cleaner is exact: it drops every 8-byte header and returns
    the payloads of the frames, decoded and in order, whatever the stream
    tags and however many frames there are. *)
Theorem X16_cleaner_exact_without_tag_bytes :
  forall (toString : list Z -> string) (fs : list (Demux.streamTag * list Z)),
    Forall (fun f => Scenario.plain (snd f)) fs ->
    Demux.cleanDockerLogs toString (Demux.frames fs)
    = Some (String.concat "" (map toString (map snd fs))).
Proof.
  intros toString fs H. unfold Demux.cleanDockerLogs.
  rewrite (cleaner_exact_on_plain_frames fs H). reflexivity.
Qed.

Lemma X16_cleaner_exact_without_tag_bytes_witness :
  Demux.cleanDockerLogs Demux.asciiText
    (Demux.frames [(Demux.stdout, [104; 105]); (Demux.stderr, [33])])
  = Some "hi!".
Proof.
  apply (X16_cleaner_exact_without_tag_bytes Demux.asciiText
           [(Demux.stdout, [104; 105]); (Demux.stderr, [33])]).
  repeat constructor; discriminate.
Defined.

Lemma slice_length (bufferLogs : list Z) (a b : nat) :
  length (Demux.slice bufferLogs a b) = Nat.min (b - a) (length bufferLogs - a).
Proof. unfold Demux.slice. rewrite length_firstn, length_skipn. reflexivity. Qed.

Lemma cleanLoop_bounds (bufferLogs : list Z) :
  forall (fuel position : nat) (slices result : list (list Z)),
    Demux.cleanLoop fuel bufferLogs position slices = Some result ->
    (length (concat result)
     <= length (concat slices) + (length bufferLogs - (position + 8)))%nat /\
    (9 * length result
     <= 9 * length slices + (length bufferLogs + 8 - position))%nat.
Proof.
  induction fuel as [|fuel IH]; intros position slices result H; [discriminate H|].
  simpl in H.
  destruct (Nat.ltb_spec position (length bufferLogs)) as [Hlt|Hge].
  - destruct (findEnd_returns bufferLogs (position + 8)
                (length bufferLogs + 2) (position + 8)) as (e & He & Hle); [lia|].
    rewrite He in H. apply IH in H. destruct H as [Hbytes Hcount].
    rewrite concat_app, !length_app in *. simpl in *.
    rewrite app_nil_r, slice_length in Hbytes. lia.
  - injection H as <-. lia.
Qed.

(** X17. The cleaner returns on every buffer, well formed or not, and
    every pass of its loop drops at least eight bytes and moves on by at
    least nine: the bytes it returns are at most the length of the log
    minus eight, and it appends at most one slice per nine bytes of log.
    In particular a log of up to eight bytes is cleaned to nothing. *)
Theorem X17_cleaner_returns_and_drops_headers :
  forall logs : list Z,
    exists slices,
      Demux.logSlices logs = Some slices /\
      (length (concat slices) <= length logs - 8)%nat /\
      (9 * length slices <= length logs + 8)%nat.
Proof.
  intros logs. unfold Demux.logSlices.
  destruct (cleanLoop_returns logs (S (length logs)) 0 []) as (r & Hr); [lia|].
  exists r. split; [exact Hr|].
  destruct (cleanLoop_bounds logs _ _ _ _ Hr) as [Hb Hc].
  simpl in Hb, Hc. lia.
Qed.
(** ** The events the stream listeners add *)

Lemma events_record (w : Engine.World) (c : Engine.Call) :
  Interactive.events (Prim.withCalls (fun l => (l ++ [c])%list) w)
  = (Interactive.events w ++ match c with Engine.Emit e => [e] | _ => [] end)%list.
Proof.
  destruct w as [d fl i c0 r t s l k]. unfold Interactive.events. simpl.
  rewrite flat_map_app. simpl. rewrite app_nil_r. reflexivity.
Qed.

Lemma events_stream (w : Engine.World) (s : option Engine.Stream) :
  Interactive.events (Prim.withStream s w) = Interactive.events w.
Proof. destruct w. reflexivity. Qed.

Lemma handle_events (id : string) (a : Engine.Arrival) (w : Engine.World) :
  Interactive.events (snd (Interactive.handle id a w))
  = (Interactive.events w ++ More.relayed a)%list.
Proof.
  destruct a as [[|] chunk | m | | ]; simpl.
  - apply events_record.
  - apply events_record.
  - rewrite app_nil_r. unfold Engine.bind, Engine.gets.
    destruct (Engine.listening w); [|reflexivity].
    unfold Interactive.inputHandler, Engine.bind, Engine.gets.
    destruct (Engine.stream w) as [st|]; [|reflexivity].
    destruct (Engine.destroyed st); [reflexivity|].
    destruct m as [[eid dat]|]; [|reflexivity].
    simpl. destruct (Interactive.differs eid id); [reflexivity|].
    destruct dat as [|b|d]; try reflexivity.
    destruct (String.length d =? 0)%nat; [reflexivity|].
    unfold Interactive.streamWrite, Prim.record, Engine.bind, Engine.modify. simpl.
    rewrite events_stream, events_record, app_nil_r. reflexivity.
  - rewrite app_nil_r. unfold Interactive.streamEndIfAlive, Engine.bind, Engine.gets.
    destruct (Engine.stream w) as [st|]; [|reflexivity].
    destruct (Engine.destroyed st); [reflexivity|].
    unfold Prim.record, Engine.modify. simpl.
    rewrite events_record, app_nil_r. reflexivity.
  - rewrite app_nil_r. unfold Engine.modify. simpl. apply events_stream.
Qed.

(** ** A lost stream, the deadline callback, inherited keys *)

Lemma handle_lost (id : string) (a : Engine.Arrival) (w : Engine.World)
    (st : Engine.Stream) :
  Engine.stream w = Some st ->
  Engine.destroyed st = true ->
  exists w',
    Interactive.handle id a w = (inr tt, w') /\
    Engine.stream w' = Some st /\
    Engine.calls w' = (Engine.calls w ++ map Engine.Emit (More.relayed a))%list.
Proof.
  intros Hs Hd. destruct w as [d fl i c r t s l k]. destruct st as [ds wr].
  simpl in Hs, Hd. subst s ds.
  destruct a as [[|] chunk | m | | ]; simpl.
  - eexists. split; [reflexivity|]. simpl. auto.
  - eexists. split; [reflexivity|]. simpl. auto.
  - unfold Engine.bind, Engine.gets. simpl.
    destruct l; simpl; eexists; (split; [reflexivity|]); simpl;
      rewrite app_nil_r; auto.
  - eexists. split; [reflexivity|]. simpl. rewrite app_nil_r. auto.
  - eexists. split; [reflexivity|]. simpl. rewrite app_nil_r. auto.
Qed.

(** X19. Once the attached stream is destroyed, nothing is written to the
    program's stdin and the stream is not ended again: whatever arrives
    afterwards (input messages for this execution included), the listeners
    only relay output chunks to the caller, and they do not throw. *)
Theorem X19_destroyed_stream_is_left_alone :
  forall (id : string) (arrivals : list Engine.Arrival)
         (w : Engine.World) (st : Engine.Stream),
    Engine.stream w = Some st ->
    Engine.destroyed st = true ->
    exists w',
      Prim.forEach arrivals (Interactive.handle id) w = (inr tt, w') /\
      Engine.stream w' = Some st /\
      Engine.calls w'
      = (Engine.calls w ++ map Engine.Emit (flat_map More.relayed arrivals))%list.
Proof.
  intros id arrivals; induction arrivals as [|a arrivals IH]; intros w st Hs Hd.
  - exists w. simpl. rewrite app_nil_r. auto.
  - destruct (handle_lost id a w st Hs Hd) as (w1 & E1 & S1 & C1).
    destruct (IH w1 st S1 Hd) as (w2 & E2 & S2 & C2).
    exists w2. simpl. unfold Engine.bind. rewrite E1, E2.
    split; [reflexivity|]. split; [exact S2|].
    rewrite C2, C1, map_app, app_assoc. reflexivity.
Qed.

Lemma X19_destroyed_stream_is_left_alone_witness :
  exists w',
    Prim.forEach [ Engine.Input (Scenario.message "id-1" "x");
                   Engine.Frame Demux.stderr "late"; Engine.StreamEof ]
                 (Interactive.handle "id-1")
                 (Prim.withListening true
                    (Scenario.attached {| Engine.destroyed := true;
                                          Engine.written := [] |}))
    = (inr tt, w') /\
    Engine.stream w' = Some {| Engine.destroyed := true; Engine.written := [] |} /\
    Engine.calls w' = [Engine.Emit (Engine.Output "late" (Some "stderr"))].
Proof.
  exact (X19_destroyed_stream_is_left_alone "id-1"
           [ Engine.Input (Scenario.message "id-1" "x");
             Engine.Frame Demux.stderr "late"; Engine.StreamEof ]
           (Prim.withListening true
              (Scenario.attached {| Engine.destroyed := true; Engine.written := [] |}))
           {| Engine.destroyed := true; Engine.written := [] |}
           eq_refl eq_refl).
Defined.

(** X20. The deadline callback never throws, whatever the engine answers:
    errors of inspect and stop are caught. When the container has already
    exited it only inspects it: no stop call is made, no timeout notice is
    sent, and nothing else in the world changes. *)
Theorem X20_deadline_callback_is_safe :
  forall (env : Engine.Env) (t : Engine.Timer) (w : Engine.World),
    fst (Prim.onTimeout env t w) = inr tt /\
    (Scenario.isRunning (Engine.target t) w = false ->
     snd (Prim.onTimeout env t w)
     = Prim.withCalls (fun l => (l ++ [Engine.Inspect (Engine.target t)])%list) w).
Proof.
  intros env t w. destruct w as [d fl i c r tm s l k].
  unfold Scenario.isRunning, Prim.onTimeout, Prim.inspect, Prim.stop, Prim.emit,
    Prim.record, Prim.failing, Engine.tryCatch, Engine.bind, Engine.modify,
    Engine.gets, Engine.ret, Engine.throw.
  simpl.
  destruct (Engine.fails env Engine.OpInspect); simpl; [auto|].
  destruct (existsb (String.eqb (Engine.target t)) r); simpl.
  - destruct (Engine.fails env Engine.OpStop); simpl;
      [split; [reflexivity|discriminate]|].
    destruct (Engine.notice t); simpl; (split; [reflexivity|discriminate]).
  - auto.
Qed.

Lemma X20_deadline_callback_is_safe_witness :
  snd (Prim.onTimeout Scenario.quiet
         {| Engine.delay := 300000; Engine.target := "c-1"; Engine.notice := true |}
         Engine.empty)
  = Prim.withCalls (fun l => (l ++ [Engine.Inspect "c-1"])%list) Engine.empty.
Proof.
  exact (proj2 (X20_deadline_callback_is_safe Scenario.quiet
                  {| Engine.delay := 300000; Engine.target := "c-1";
                     Engine.notice := true |} Engine.empty) eq_refl).
Defined.

(** X21. A language that names a property every object inherits (such as
    ['constructor'] or ['toString']) is not refused as unsupported by
    [executeCode]: the registry read is truthy. The execution then always
    ends in an error and never reaches the engine: it makes file system
    calls only (the work directory, the source file, the removal), and no
    image is built and no container is created. *)
Theorem X21_inherited_key_fails_before_the_engine :
  forall (env : Engine.Env) (toString : list Z -> string)
         (language code input : string) (w : Engine.World),
    Registry.get Registry.supportedLanguages language = Registry.Inherited ->
    (exists message,
        fst (Batch.executeCode env toString language code input w) = inl message /\
        message <> "Unsupported language: " ++ language) /\
    (Forall More.fileCall (Engine.calls w) ->
     Forall More.fileCall
       (Engine.calls (snd (Batch.executeCode env toString language code input w)))).
Proof.
  intros env toString language code input w Hi.
  assert (Hp : Registry.get Detect.patterns language = Registry.Inherited).
  { pose proof (tables_agree language) as H. rewrite Hi in H.
    destruct (Registry.get Detect.patterns language); simpl in H;
      [contradiction|reflexivity|contradiction]. }
  split.
  - destruct w as [d fl i c r t s l k].
    unfold Batch.executeCode, Batch.run, Detect.detectInteractiveCode.
    rewrite Hi, Hp. simpl negb. cbv iota.
    unfold Prim.mkdir, Prim.writeFile, Prim.rm, Prim.record, Prim.failing,
      Engine.tryCatch, Engine.tryFinally, Engine.bind, Engine.modify, Engine.gets,
      Engine.ret, Engine.throw.
    simpl.
    destruct (Engine.fails env Engine.OpMkdir); simpl;
      [destruct (Engine.fails env Engine.OpRm); simpl;
       eexists; (split; [reflexivity|discriminate])|].
    destruct (Engine.fails env Engine.OpWriteFile); simpl;
      destruct (Engine.fails env Engine.OpRm); simpl;
      eexists; (split; [reflexivity|discriminate]).
  - revert w.
    change (Scenario.keeps More.fileCall
              (Batch.executeCode env toString language code input)).
    unfold Batch.executeCode, Batch.run, Detect.detectInteractiveCode.
    rewrite Hi, Hp.
    unfold Prim.mkdir, Prim.writeFile, Prim.rm.
    keep; exact I.
Qed.

Lemma X21_inherited_key_fails_before_the_engine_witness :
  exists message,
    fst (Batch.executeCode Scenario.quiet Demux.asciiText "constructor" "x" ""
           Engine.empty) = inl message /\
    message <> "Unsupported language: " ++ "constructor".
Proof.
  exact (proj1 (X21_inherited_key_fails_before_the_engine Scenario.quiet
                  Demux.asciiText "constructor" "x" "" Engine.empty eq_refl)).
Defined.

(** X22. A run in which the engine answers every call leaves nothing
    behind, in either mode: after a batch execution and after an
    interactive session of a registered language, no work directory, no
    container and no image of the execution remains. *)
Theorem X22_clean_run_leaves_nothing_behind :
  forall (env : Engine.Env) (toString : list Z -> string)
         (language code input : string) (spec : Registry.LanguageSpec),
    Registry.get Registry.supportedLanguages language = Registry.Own spec ->
    (forall op, Engine.fails env op = false) ->
    let b := snd (Batch.executeCode env toString language code input Engine.empty) in
    let i := snd (Interactive.onExecuteInteractive env language code Engine.empty) in
    (Engine.dirs b = [] /\ Engine.containers b = [] /\ Engine.images b = []) /\
    (Engine.dirs i = [] /\ Engine.containers i = [] /\ Engine.images i = []).
Proof.
  intros env toString language code input spec Hs Hok.
  exact (answered_run_cleans env toString language code input spec Hs Hok).
Qed.

Lemma X22_clean_run_leaves_nothing_behind_witness :
  Engine.images
    (snd (Batch.executeCode Scenario.chatty Demux.asciiText "cpp" "int main(){}" "1"
            Engine.empty)) = [].
Proof.
  exact (proj2 (proj2 (proj1
           (X22_clean_run_leaves_nothing_behind Scenario.chatty Demux.asciiText
              "cpp" "int main(){}" "1" Registry.cpp eq_refl (fun _ => eq_refl))))).
Defined.
(** ** The start script *)

Lemma probe_bounds (host : Startup.Host) (attempts : list nat) :
  snd (Startup.probe host attempts) = 0 /\
  (Startup.probes (fst (Startup.probe host attempts)) <= length attempts)%nat /\
  0 <= Startup.slept (fst (Startup.probe host attempts))
    <= 2 * Z.of_nat (length attempts) /\
  Startup.composed (fst (Startup.probe host attempts)) = [].
Proof.
  induction attempts as [|i rest IH].
  - simpl. repeat split; try reflexivity; lia.
  - change (length (i :: rest)) with (S (length rest)).
    rewrite Nat2Z.inj_succ.
    cbn [Startup.probe].
    destruct (Startup.healthy host i).
    + cbn -[Z.mul Z.of_nat Z.succ]. repeat split; try reflexivity; lia.
    + destruct (Startup.probe host rest) as [trace status].
      destruct IH as (Hs & Hp & Hz & Hc).
      unfold Startup.probes, Startup.slept, Startup.composed in *.
      cbn [fst snd filter fold_right length] in *.
      repeat split; try assumption; lia.
Qed.

Lemma probe_stops (host : Startup.Host) (k : nat) :
  Startup.healthy host k = true ->
  forall (n first : nat),
    (first <= k < first + n)%nat ->
    (Startup.probes (fst (Startup.probe host (seq first n))) <= k - first + 1)%nat.
Proof.
  intros Hk. induction n as [|n IH]; intros first Hr; [lia|].
  simpl. destruct (Startup.healthy host first) eqn:Hf; simpl.
  - unfold Startup.probes. simpl. lia.
  - assert (first <> k) by (intros ->; rewrite Hk in Hf; discriminate Hf).
    specialize (IH (S first) ltac:(lia)).
    destruct (Startup.probe host (seq (S first) n)) as [trace status].
    unfold Startup.probes in *. simpl in *. lia.
Qed.

(** X23. The start script exits with status 1 exactly when Docker is not
    running, the image build fails or the services fail to start, and it
    runs no compose command after a failed step. Otherwise it exits with
    status 0, also when the server never answers the health check: it asks
    the health endpoint at most ten times, not again after the first
    answer, and sleeps at most 25 seconds in all. *)
Theorem X23_start_script_status :
  forall host : Startup.Host,
    let trace := fst (Startup.start host) in
    snd (Startup.start host)
    = (if Startup.dockerInfo host && Startup.composeBuild host
          && Startup.composeUp host then 0 else 1) /\
    Startup.composed trace
    = (if Startup.dockerInfo host
       then Startup.ComposeBuild ::
            (if Startup.composeBuild host then [Startup.ComposeUp] else [])
       else []) /\
    (Startup.probes trace <= 10)%nat /\
    (forall k, (1 <= k <= 10)%nat -> Startup.healthy host k = true ->
               (Startup.probes trace <= k)%nat) /\
    0 <= Startup.slept trace <= 25.
Proof.
  intros host trace. subst trace. unfold Startup.start.
  destruct (Startup.dockerInfo host); cbn [negb andb];
    [|cbn; repeat split; try reflexivity; try lia].
  destruct (Startup.composeBuild host); cbn [negb andb];
    [|cbn; repeat split; try reflexivity; try lia].
  destruct (Startup.composeUp host); cbn [negb andb];
    [|cbn; repeat split; try reflexivity; try lia].
  pose proof (probe_bounds host (seq 1 10)) as (Hs & Hp & Hz & Hc).
  rewrite length_seq in Hp, Hz. change (2 * Z.of_nat 10) with 20 in Hz.
  pose proof (fun k Hk => probe_stops host k Hk 10 1) as Hstop.
  destruct (Startup.probe host (seq 1 10)) as [trace status].
  unfold Startup.probes, Startup.composed, Startup.slept in *.
  cbn [fst snd app filter fold_right length] in *.
  rewrite Hc.
  repeat split; try assumption; try reflexivity; try lia.
  intros k Hr Hk. specialize (Hstop k Hk ltac:(lia)). lia.
Qed.

Lemma X23_start_script_status_witness :
  (Startup.probes
     (fst (Startup.start {| Startup.dockerInfo := true;
                            Startup.composeBuild := true;
                            Startup.composeUp := true;
                            Startup.healthy := fun i => Nat.eqb i 3 |})) <= 3)%nat.
Proof.
  apply (X23_start_script_status
           {| Startup.dockerInfo := true; Startup.composeBuild := true;
              Startup.composeUp := true; Startup.healthy := fun i => Nat.eqb i 3 |}).
  - lia.
  - reflexivity.
Defined.
(** ** Output and input of a running session *)

Lemma handle_flowing (id : string) (a : Engine.Arrival) (w : Engine.World)
    (st : Engine.Stream) :
  Engine.stream w = Some st ->
  Engine.destroyed st = false ->
  Engine.listening w = true ->
  More.flowing a ->
  exists w',
    Interactive.handle id a w = (inr tt, w') /\
    Engine.stream w'
    = Some {| Engine.destroyed := false;
              Engine.written := (Engine.written st ++ More.typed id a)%list |} /\
    Engine.listening w' = true /\
    Engine.calls w' = (Engine.calls w ++ More.effect id a)%list.
Proof.
  intros Hs Hd Hl Hf.
  destruct a as [t chunk | m | | ]; try contradiction.
  - destruct w as [d fl i c r tm s l k]. destruct st as [ds wr].
    simpl in Hs, Hd, Hl. subst s ds l.
    destruct t; simpl; (eexists; split; [reflexivity|]); simpl;
      rewrite !app_nil_r; auto.
  - destruct (inputHandler_step id m w st Hs Hd) as (w1 & E1 & S1 & C1).
    destruct (handle_awaited id (Engine.Input m) w) as (w2 & E2 & A2).
    assert (E : Interactive.handle id (Engine.Input m) w = (inr tt, w1)).
    { simpl. unfold Engine.bind, Engine.gets. simpl. rewrite Hl. exact E1. }
    rewrite E in E2. injection E2 as <-.
    destruct A2 as (_ & _ & _ & _ & _ & _ & L & _).
    exists w1. split; [exact E|]. split; [exact S1|].
    split; [rewrite L; exact Hl|]. rewrite C1. reflexivity.
Qed.

(** X24. While the stream of an interactive execution is attached and its
    input listener is bound, output and input do not disturb each other:
    for any interleaving of output chunks and input messages, every chunk
    is relayed to the caller and every message that carries the
    execution's id and non-empty string data is written to stdin with a
    newline, each at its place in the order of arrival, and nothing else
    is done. *)
Theorem X24_output_and_input_interleave :
  forall (id : string) (arrivals : list Engine.Arrival)
         (w : Engine.World) (st : Engine.Stream),
    Engine.stream w = Some st ->
    Engine.destroyed st = false ->
    Engine.listening w = true ->
    Forall More.flowing arrivals ->
    exists w',
      Prim.forEach arrivals (Interactive.handle id) w = (inr tt, w') /\
      Engine.stream w'
      = Some {| Engine.destroyed := false;
                Engine.written :=
                  (Engine.written st ++ flat_map (More.typed id) arrivals)%list |} /\
      Engine.calls w'
      = (Engine.calls w ++ flat_map (More.effect id) arrivals)%list.
Proof.
  intros id arrivals; induction arrivals as [|a arrivals IH];
    intros w st Hs Hd Hl Hf.
  - exists w. simpl. rewrite !app_nil_r. destruct st; simpl in *; subst; auto.
  - inversion Hf as [|a' l' Ha Hrest]; subst.
    destruct (handle_flowing id a w st Hs Hd Hl Ha) as (w1 & E1 & S1 & L1 & C1).
    destruct (IH w1 _ S1 eq_refl L1 Hrest) as (w2 & E2 & S2 & C2).
    exists w2. simpl. unfold Engine.bind. rewrite E1, E2.
    split; [reflexivity|]. rewrite S2, C2, C1. simpl.
    rewrite !app_assoc. auto.
Qed.

Lemma X24_output_and_input_interleave_witness :
  exists w',
    Prim.forEach [ Engine.Frame Demux.stdout "Name? ";
                   Engine.Input (Scenario.message "id-1" "Ada");
                   Engine.Frame Demux.stdout "Hello Ada" ]
                 (Interactive.handle "id-1")
                 (Prim.withListening true (Scenario.attached Scenario.freshStream))
    = (inr tt, w') /\
    Engine.stream w'
    = Some {| Engine.destroyed := false; Engine.written := ["Ada" ++ JS.nl] |} /\
    Engine.calls w'
    = [ Engine.Emit (Engine.Output "Name? " None);
        Engine.StreamWrite ("Ada" ++ JS.nl);
        Engine.Emit (Engine.Output "Hello Ada" None) ].
Proof.
  apply (X24_output_and_input_interleave "id-1"
           [ Engine.Frame Demux.stdout "Name? ";
             Engine.Input (Scenario.message "id-1" "Ada");
             Engine.Frame Demux.stdout "Hello Ada" ]
           (Prim.withListening true (Scenario.attached Scenario.freshStream))
           Scenario.freshStream eq_refl eq_refl eq_refl).
  repeat constructor.
Defined.

(** ** The answer to a batch request *)

Lemma batch_returns (env : Engine.Env) (toString : list Z -> string)
    (language code input : string) (spec : Registry.LanguageSpec) (w : Engine.World) :
  Registry.get Registry.supportedLanguages language = Registry.Own spec ->
  (forall op, Engine.fails env op = false) ->
  exists r, fst (Batch.executeCode env toString language code input w) = inr r.
Proof.
  intros Hspec Hok. destruct w as [d fl i c r tm s l k].
  destruct (detect_own language code spec Hspec) as [b Hd].
  unfold Batch.executeCode, Batch.run. rewrite Hspec, Hd. simpl negb. cbv iota.
  destruct (cleanDockerLogs_returns toString (Engine.logs env)) as [text Ht].
  unfold Prim.mkdir, Prim.writeFile, Prim.rm, Prim.buildImage, Prim.createContainer,
    Prim.attach, Prim.start, Prim.wait, Prim.onTimeout, Prim.inspect, Prim.stop,
    Prim.containerLogs, Prim.remove,
    Prim.removeImage, Prim.setTimeout, Prim.clearTimeout, Prim.record, Prim.failing,
    Engine.tryCatch, Engine.tryFinally, Engine.bind, Engine.modify, Engine.gets,
    Engine.ret, Engine.throw.
  rewrite !Hok, Ht.
  destruct (JS.truthy (JS.str input));
    destruct (JS.truthy (Batch.directStdin _ _ _)); simpl;
    rewrite forEach_skip; simpl;
    destruct (Engine.expires env); simpl; rewrite ?String.eqb_refl; simpl;
    eexists; reflexivity.
Qed.

(** X25. When the engine answers every call, a dispatched request for a
    registered language is answered with HTTP status 200 and the result of
    the run, whatever the program did: also when it exits with a non-zero
    code or is stopped at its deadline, in which case only the status
    field of the body says 'error'. *)
Theorem X25_program_failure_is_answered_200 :
  forall (env : Engine.Env) (toString : list Z -> string)
         (req : Server.Request) (res : nat) (language : string)
         (spec : Registry.LanguageSpec) (w : Engine.World),
    Server.language req = Some language ->
    Registry.get Registry.supportedLanguages language = Registry.Own spec ->
    (forall op, Engine.fails env op = false) ->
    exists r,
      Server.settle (fst (Server.dispatched env toString (Scenario.taskOf req res) w))
      = {| Server.status := 200; Server.body := Server.ResultBody r |} /\
      More.reported env toString r.
Proof.
  intros env toString req res language spec w Hl Hs Hok.
  unfold Server.dispatched, Server.callArguments, Scenario.taskOf. simpl.
  rewrite Hl.
  match goal with
  | |- context [Batch.executeCode env toString language ?c ?i w] =>
      destruct (batch_returns env toString language c i spec w Hs Hok) as [r Hr];
      pose proof (executeCode_reports env toString language c i w r Hr) as Hrep
  end.
  exists r. rewrite Hr. split; [reflexivity|exact Hrep].
Qed.

Lemma X25_program_failure_is_answered_200_witness :
  exists r,
    Server.settle
      (fst (Server.dispatched Scenario.endless Demux.asciiText
              (Scenario.taskOf (Scenario.sampleRequest "python") 1) Engine.empty))
    = {| Server.status := 200; Server.body := Server.ResultBody r |} /\
    More.reported Scenario.endless Demux.asciiText r.
Proof.
  exact (X25_program_failure_is_answered_200 Scenario.endless Demux.asciiText
           (Scenario.sampleRequest "python") 1 "python" Registry.python Engine.empty
           eq_refl eq_refl (fun _ => eq_refl)).
Defined.
(** ** The stdin detector flags keywords only *)

Lemma prefix_cons (c : ascii) (a b : string) :
  String.prefix (String c a) (String c b) = String.prefix a b.
Proof.
  simpl. destruct (Ascii.ascii_dec c c) as [_|H]; [reflexivity|contradiction H; reflexivity].
Qed.

Lemma matchHere_stem (p : Detect.pattern) :
  forall (prev : option ascii) (s : string),
    Detect.matchHere p prev s = true ->
    String.prefix (More.lowerString (More.stem p)) (More.lowerString s) = true.
Proof.
  induction p as [|a p IH]; intros prev s H; [destruct s; reflexivity|].
  destruct a as [c| |].
  - destruct s as [|d s]; [discriminate H|].
    simpl in H. apply andb_true_iff in H. destruct H as [Hc Hp].
    unfold Detect.sameLetter in Hc. apply Ascii.eqb_eq in Hc.
    cbn [More.stem More.lowerString]. rewrite Hc, prefix_cons.
    exact (IH _ _ Hp).
  - simpl in H. apply andb_true_iff in H. destruct H as [_ Hp].
    exact (IH _ _ Hp).
  - destruct s; reflexivity.
Qed.

Lemma includes_prefix (sub s : string) :
  String.prefix sub s = true -> JS.includes sub s = true.
Proof. intros H. destruct s; simpl in *; rewrite H; reflexivity. Qed.

Lemma includes_tail (sub : string) (c : ascii) (s : string) :
  JS.includes sub s = true -> JS.includes sub (String c s) = true.
Proof.
  intros H. change (JS.includes sub (String c s))
    with (String.prefix sub (String c s) || JS.includes sub s).
  rewrite H. apply orb_true_r.
Qed.

Lemma searchFrom_stem (r : Detect.regex) (s : string) :
  forall prev : option ascii,
    Detect.searchFrom r prev s = true ->
    exists p, In p r /\
              JS.includes (More.lowerString (More.stem p)) (More.lowerString s) = true.
Proof.
  induction s as [|c s IH]; intros prev H; simpl in H.
  - rewrite orb_false_r in H. apply existsb_exists in H. destruct H as (p & Hin & Hm).
    exists p. split; [exact Hin|].
    apply includes_prefix. exact (matchHere_stem p prev "" Hm).
  - apply orb_true_iff in H. destruct H as [H|H].
    + apply existsb_exists in H. destruct H as (p & Hin & Hm).
      exists p. split; [exact Hin|].
      apply includes_prefix. exact (matchHere_stem p prev (String c s) Hm).
    + destruct (IH (Some c) H) as (p & Hin & Hi).
      exists p. split; [exact Hin|].
      cbn [More.lowerString]. apply includes_tail. exact Hi.
Qed.

(** X26. The detector flags keywords only: source that is flagged as
    reading stdin holds, in some letter case, the leading letters of one of
    the alternatives of its language's pattern. So source in which none of
    the language's keywords occurs is never flagged. *)
Theorem X26_flagged_source_holds_a_keyword :
  forall (language code : string),
    Detect.detectInteractiveCode language code = inr (JS.boolean true) ->
    exists r p,
      Registry.get Detect.patterns language = Registry.Own r /\
      In p r /\
      JS.includes (More.lowerString (More.stem p)) (More.lowerString code) = true.
Proof.
  intros language code H. unfold Detect.detectInteractiveCode in H.
  destruct (Registry.get Detect.patterns language) as [r| |]; try discriminate H.
  injection H as H. unfold Detect.test in H.
  destruct (searchFrom_stem r code None H) as (p & Hin & Hi).
  exists r, p. auto.
Qed.

Lemma X26_flagged_source_holds_a_keyword_witness :
  exists r p,
    Registry.get Detect.patterns "ruby" = Registry.Own r /\
    In p r /\
    JS.includes (More.lowerString (More.stem p)) (More.lowerString "name = GETS") = true.
Proof.
  apply (X26_flagged_source_holds_a_keyword "ruby" "name = GETS"). reflexivity.
Defined.

(** * The interactive session as the caller observes it *)

Lemma told_refl (w : Engine.World) : More.told [] w w.
Proof. unfold More.told. rewrite app_nil_r. auto 7. Qed.

Lemma told_trans (o1 o2 : list Engine.Event) (w1 w2 w3 : Engine.World) :
  More.told o1 w1 w2 -> More.told o2 w2 w3 -> More.told (o1 ++ o2) w1 w3.
Proof.
  unfold More.told.
  intros (D1 & F1 & I1 & C1 & L1 & E1) (D2 & F2 & I2 & C2 & L2 & E2).
  repeat split; try congruence.
  rewrite E2, E1, app_assoc. reflexivity.
Qed.

Lemma handle_told (id : string) (a : Engine.Arrival) (w : Engine.World) :
  exists w',
    Interactive.handle id a w = (inr tt, w') /\
    More.told (More.relayed a) w w' /\
    Engine.timer w' = Engine.timer w /\
    Engine.running w' = Engine.running w /\
    (Engine.stream w <> None -> Engine.stream w' <> None).
Proof.
  destruct (handle_awaited id a w) as (w' & E & D & F & I & C & R & T & L & _).
  pose proof (handle_events id a w) as Hev. rewrite E in Hev. simpl in Hev.
  exists w'. split; [exact E|]. split; [unfold More.told; auto 7|].
  split; [exact T|]. split; [exact R|].
  revert E. destruct w as [d fl i c r t s l k].
  destruct a as [[|] chunk | m | | ]; simpl.
  - intros [= <-]. simpl. auto.
  - intros [= <-]. simpl. auto.
  - unfold Engine.bind, Engine.gets. simpl.
    destruct l; [|intros [= <-]; simpl; auto].
    unfold Interactive.inputHandler, Engine.bind, Engine.gets. simpl.
    destruct s as [st|]; [|intros [= <-]; simpl; auto].
    destruct (Engine.destroyed st); [intros [= <-]; simpl; auto|].
    destruct m as [[eid dat]|]; [|intros [= <-]; simpl; auto].
    simpl. destruct (Interactive.differs eid id); [intros [= <-]; simpl; auto|].
    destruct dat as [|b|dt]; try (intros [= <-]; simpl; auto).
    destruct (String.length dt =? 0)%nat; [intros [= <-]; simpl; auto|].
    intros [= <-]. simpl. discriminate.
  - unfold Interactive.streamEndIfAlive, Engine.bind, Engine.gets. simpl.
    destruct s as [st|]; [|intros [= <-]; simpl; auto].
    destruct (Engine.destroyed st); intros [= <-]; simpl; auto.
  - unfold Engine.modify. intros [= <-]. simpl.
    destruct s; [discriminate|auto].
Qed.









Lemma happens_heard (env : Engine.Env) (id : string) :
  (forall op, Engine.fails env op = false) ->
  forall (m : Session.Moment) (armed : bool) (w : Engine.World),
    More.waiting armed w ->
    exists w',
      Session.happens env id m w = (inr tt, w') /\
      More.told (More.heard armed [m]) w w' /\
      More.waiting (More.stillArmed armed m) w'.
Proof.
  intros Hok m armed w [Hs Ht]. destruct m as [a|]; simpl.
  - unfold Engine.bind, Engine.gets. simpl.
    destruct (Engine.stream w) as [st|] eqn:Est; [|contradiction Hs; reflexivity].
    destruct (handle_told id a w) as (w' & E & T & Tm & R & S).
    exists w'. split; [exact E|]. rewrite app_nil_r. split; [exact T|].
    split; [apply S; rewrite Est; discriminate|].
    unfold Scenario.isRunning in *. rewrite Tm, R. exact Ht.
  - destruct w as [d fl i c r t s l k]. simpl in Hs, Ht.
    unfold Session.fire, Prim.onTimeout, Prim.inspect, Prim.stop, Prim.emit,
      Prim.record, Prim.failing, Engine.tryCatch, Engine.bind, Engine.modify,
      Engine.gets, Engine.ret, Engine.throw.
    destruct armed; simpl.
    + destruct Ht as (t0 & -> & Hn & Hr). unfold Scenario.isRunning in Hr.
      simpl in Hr. simpl. rewrite ?Hok. simpl. rewrite Hr. simpl.
      rewrite ?Hok. simpl. rewrite Hn. simpl.
      eexists. split; [reflexivity|].
      unfold More.told, More.waiting, Interactive.events. simpl.
      rewrite !flat_map_app. simpl. rewrite !app_nil_r.
      repeat split; auto.
    + subst t. simpl. eexists. split; [reflexivity|].
      unfold More.told, More.waiting. simpl. rewrite app_nil_r.
      repeat split; auto.
Qed.

Lemma heard_cons (armed : bool) (m : Session.Moment) (moments : list Session.Moment) :
  More.heard armed (m :: moments)
  = (More.heard armed [m] ++ More.heard (More.stillArmed armed m) moments)%list.
Proof.
  destruct m as [a|]; simpl; rewrite ?app_nil_r; [reflexivity|].
  destruct armed; reflexivity.
Qed.

Lemma moments_heard (env : Engine.Env) (id : string) :
  (forall op, Engine.fails env op = false) ->
  forall (moments : list Session.Moment) (armed : bool) (w : Engine.World),
    More.waiting armed w ->
    exists w',
      Prim.forEach moments (Session.happens env id) w = (inr tt, w') /\
      More.told (More.heard armed moments) w w' /\
      Engine.stream w' <> None.
Proof.
  intros Hok moments. induction moments as [|m moments IH]; intros armed w Hw.
  - exists w. split; [reflexivity|]. split; [apply told_refl|exact (proj1 Hw)].
  - destruct (happens_heard env id Hok m armed w Hw) as (w1 & E1 & T1 & W1).
    destruct (IH _ w1 W1) as (w2 & E2 & T2 & S2).
    exists w2. simpl Prim.forEach. unfold Engine.bind. rewrite E1, E2.
    split; [reflexivity|]. split; [|exact S2].
    rewrite heard_cons. eapply told_trans; eassumption.
Qed.

(** X18. In an interactive session of a registered language in which no
    operation fails, the caller receives the starting notice and
    execution-start with the execution id; then, in the order in which
    they happen while the executor waits for the container, one output
    per stdout or stderr chunk (stderr chunks typed 'stderr') and, at the
    first expiry of the deadline, the timeout notice typed 'error'; then
    execution-complete with the exit code, the execution id and the
    status 'success' exactly when the exit code is 0. Chunks that arrive
    after the wait has settled are still relayed, after
    execution-complete, because the listeners of the stream stay bound; a
    deadline that passes then does nothing, the timer being cleared. *)
Theorem X18_session_transcript :
  forall (env : Engine.Env) (language : Wire.Language) (code : string)
         (spec : Registry.LanguageSpec) (during after : list Session.Moment),
    Registry.get Registry.supportedLanguages (Wire.key language) = Registry.Own spec ->
    (forall op, Engine.fails env op = false) ->
    Session.events env
      (Some {| Session.language := language; Session.code := code |}) during after
    = ([ Engine.Output Interactive.startingNotice None;
         Engine.ExecutionStart (Engine.uuid env) ] ++
       More.heard true during ++
       [ Engine.ExecutionComplete
           (if Engine.statusCode env =? 0 then "success" else "error")
           (Some (Engine.statusCode env)) (Some (Engine.uuid env)) ] ++
       More.heard false after)%list.
Proof.
  intros env language code spec during after Hs Hok.
  unfold Session.events, Session.observed,
    Session.onExecuteInteractive, Session.executeCodeInteractive.
  cbn [Session.language Session.code].
  rewrite Hs. simpl negb. cbv iota.
  unfold Session.run, Interactive.cleanup, Interactive.streamEndIfAlive,
    Prim.mkdir, Prim.writeFile, Prim.rm, Prim.createContainer, Prim.attach,
    Prim.start, Prim.remove, Prim.emit, Prim.setTimeout,
    Prim.clearTimeout, Prim.record, Prim.failing,
    Engine.tryCatch, Engine.tryFinally, Engine.bind, Engine.modify, Engine.gets,
    Engine.ret, Engine.throw.
  rewrite !Hok. simpl.
  match goal with
  | |- context [Prim.forEach during ?f ?w0] =>
      destruct (moments_heard env (Engine.uuid env) Hok during true w0)
        as (w1 & E1 & T1 & S1)
  end.
  { split; [discriminate|]. eexists. split; [reflexivity|]. split; [reflexivity|].
    unfold Scenario.isRunning. simpl. rewrite String.eqb_refl. reflexivity. }
  rewrite E1. clear E1.
  destruct w1 as [d1 f1 i1 c1 r1 t1 s1 l1 k1].
  destruct T1 as (D & F & I & C & L & K).
  unfold Interactive.events in K.
  simpl in D, F, I, C, L, K, S1. subst d1 f1 i1 c1 l1.
  rewrite ?Hok. simpl.
  destruct s1 as [[[|] wr]|]; [| |contradiction S1; reflexivity]; simpl;
    rewrite ?Hok; simpl.
  - match goal with
    | |- context [Prim.forEach after ?f ?w0] =>
        destruct (moments_heard env (Engine.uuid env) Hok after false w0)
          as (w2 & E2 & T2 & _)
    end.
    { split; [discriminate|reflexivity]. }
    rewrite E2. simpl snd. destruct T2 as (_ & _ & _ & _ & _ & K2). rewrite K2.
    unfold Interactive.events. simpl. rewrite !flat_map_app. simpl.
    rewrite K. simpl. rewrite <- !app_assoc. reflexivity.
  - match goal with
    | |- context [Prim.forEach after ?f ?w0] =>
        destruct (moments_heard env (Engine.uuid env) Hok after false w0)
          as (w2 & E2 & T2 & _)
    end.
    { split; [discriminate|reflexivity]. }
    rewrite E2. simpl snd. destruct T2 as (_ & _ & _ & _ & _ & K2). rewrite K2.
    unfold Interactive.events. simpl. rewrite !flat_map_app. simpl.
    rewrite K. simpl. rewrite <- !app_assoc. reflexivity.
Qed.

Lemma X18_session_transcript_witness :
  Session.events Scenario.endless
    (Some {| Session.language := Wire.Text "python"; Session.code := "print('hi')" |})
    [ Session.Arrives (Engine.Frame Demux.stdout "hi"); Session.Deadline;
      Session.Arrives (Engine.Frame Demux.stderr "Killed"); Session.Deadline ]
    [ Session.Arrives (Engine.Frame Demux.stdout "!"); Session.Deadline ]
  = [ Engine.Output Interactive.startingNotice None;
      Engine.ExecutionStart "id-1";
      Engine.Output "hi" None;
      Engine.Output Prim.timeoutNotice (Some "error");
      Engine.Output "Killed" (Some "stderr");
      Engine.ExecutionComplete "error" (Some 137) (Some "id-1");
      Engine.Output "!" None ].
Proof.
  apply (X18_session_transcript Scenario.endless (Wire.Text "python") "print('hi')"
           Registry.python
           [ Session.Arrives (Engine.Frame Demux.stdout "hi"); Session.Deadline;
             Session.Arrives (Engine.Frame Demux.stderr "Killed"); Session.Deadline ]
           [ Session.Arrives (Engine.Frame Demux.stdout "!"); Session.Deadline ]
           eq_refl).
  intros op. reflexivity.
Defined.
(** * The batch executor on a language that is not a string *)

Lemma executeCode_of_text (env : Engine.Env) (toString : list Z -> string)
    (s code input : string) :
  Wire.executeCode env toString (Wire.Text s) code input
  = Batch.executeCode env toString s code input.
Proof. reflexivity. Qed.

Lemma command_other (key : string) (plain : list string)
    (hasInteractiveInput : JS.value) (input : string) :
  Wire.command (Wire.Other key) plain hasInteractiveInput input = plain.
Proof.
  unfold Wire.command.
  destruct (JS.truthy (JS.and hasInteractiveInput (JS.str input))); reflexivity.
Qed.

Lemma direct_other (key code input : string) (spec : Registry.LanguageSpec) (b : bool) :
  Detect.detectInteractiveCode key code = inr (JS.boolean b) ->
  JS.truthy (Batch.directStdin (JS.boolean b) input (Registry.command spec))
  = More.direct key code input spec.
Proof.
  intros Hd. unfold More.direct, Scenario.detectorMatches, Batch.directStdin.
  rewrite Hd.
  destruct b, input; reflexivity.
Qed.

(** X7. For a language given as a string, the batch executor never gives
    the program a stdin stream: it creates no container with a truthy
    [OpenStdin] and never attaches to, writes to or ends a stream, because
    every command that pipes the input file starts with [sh]. The branch
    that writes the input to the container's stdin is taken only for a
    language that is not a string, such as the array [["python"]]: its key
    passes the registry while every [language === ...] test fails, so the
    container runs the registry's command, and it is created with a truthy
    [OpenStdin], and the stream is attached, written and ended, only when
    the detector matches, the input is not empty and the first word of
    that command does not contain [sh]. With [["python"]] the branch is
    taken. *)
Theorem X7_stdin_branch_needs_a_non_string_language :
  forall (env : Engine.Env) (toString : list Z -> string) (code input : string),
    (forall s,
        Wire.executeCode env toString (Wire.Text s) code input
        = Batch.executeCode env toString s code input /\
        Scenario.keeps More.noStdin (Batch.executeCode env toString s code input)) /\
    (forall key spec,
        Registry.get Registry.supportedLanguages key = Registry.Own spec ->
        Scenario.keeps
          (More.stdinWhen (More.direct key code input spec) (Registry.command spec))
          (Wire.executeCode env toString (Wire.Other key) code input)) /\
    (let calls :=
       Engine.calls (snd (Wire.executeCode Scenario.quiet Demux.asciiText
                            (Wire.Other "python") Scenario.readsInput "Ada"
                            Engine.empty)) in
     In (Engine.Attach "c-1") calls /\
     In (Engine.StreamWrite ("Ada" ++ JS.nl)) calls /\
     In Engine.StreamEnd calls).
Proof.
  intros env toString code input. split; [|split].
  - intros s. split; [apply executeCode_of_text|].
    unfold Batch.executeCode, Batch.run, Prim.mkdir, Prim.writeFile, Prim.rm,
      Prim.buildImage, Prim.createContainer, Prim.attach, Prim.start, Prim.wait,
      Prim.onTimeout, Prim.inspect, Prim.stop, Prim.containerLogs, Prim.remove,
      Prim.removeImage, Prim.emit, Prim.setTimeout, Prim.clearTimeout.
    keep_eq; try exact I.
    all: try (simpl; apply directStdin_never; assumption).
    all: exfalso;
      match goal with
      | Hs : Registry.get _ _ = Registry.Own ?spec,
        Ht : JS.truthy (Batch.directStdin ?h ?i _) = true |- _ =>
          pose proof (directStdin_never _ _ h i Hs) as Hn;
          simpl in Ht; rewrite Ht in Hn; discriminate Hn
      end.
  - intros key spec Hs.
    destruct (detect_own key code spec Hs) as [b Hd].
    pose proof (direct_other key code input spec b Hd) as Hdir.
    unfold Wire.executeCode, Wire.run. cbn [Wire.key].
    rewrite Hd, Hs.
    unfold Prim.mkdir, Prim.writeFile, Prim.rm,
      Prim.buildImage, Prim.createContainer, Prim.attach, Prim.start, Prim.wait,
      Prim.onTimeout, Prim.inspect, Prim.stop, Prim.containerLogs, Prim.remove,
      Prim.removeImage, Prim.emit, Prim.setTimeout, Prim.clearTimeout.
    keep_eq; try exact I.
    all: cbv zeta in *; rewrite ?command_other in *;
      cbn [More.stdinWhen Batch.containerOptions Engine.OpenStdin Engine.Cmd];
      rewrite ?command_other;
      try (split; [exact Hdir|reflexivity]); congruence.
  - vm_compute. repeat split; tauto.
Qed.

Lemma X7_stdin_branch_needs_a_non_string_language_witness :
  Scenario.keeps
    (More.stdinWhen true (Registry.command Registry.python))
    (Wire.executeCode Scenario.quiet Demux.asciiText (Wire.Other "python")
       Scenario.readsInput "Ada").
Proof.
  exact (proj1 (proj2 (X7_stdin_branch_needs_a_non_string_language
                         Scenario.quiet Demux.asciiText Scenario.readsInput "Ada"))
           "python" Registry.python eq_refl).
Defined.
(** * Validation of a batch request *)

Lemma inherited_not_refused (env : Engine.Env) (toString : list Z -> string)
    (language code input : string) (w : Engine.World) :
  Registry.get Registry.supportedLanguages language = Registry.Inherited ->
  exists message,
    fst (Batch.executeCode env toString language code input w) = inl message /\
    message <> "Unsupported language: " ++ language.
Proof.
  intros Hi.
  assert (Hp : Registry.get Detect.patterns language = Registry.Inherited).
  { pose proof (tables_agree language) as H. rewrite Hi in H.
    destruct (Registry.get Detect.patterns language); simpl in H;
      [contradiction|reflexivity|contradiction]. }
  destruct w as [d fl i c r t s l k].
  unfold Batch.executeCode, Batch.run, Detect.detectInteractiveCode.
  rewrite Hi, Hp. simpl negb. cbv iota.
  unfold Prim.mkdir, Prim.writeFile, Prim.rm, Prim.record, Prim.failing,
    Engine.tryCatch, Engine.tryFinally, Engine.bind, Engine.modify, Engine.gets,
    Engine.ret, Engine.throw.
  simpl.
  destruct (Engine.fails env Engine.OpMkdir); simpl;
    [destruct (Engine.fails env Engine.OpRm); simpl;
     eexists; (split; [reflexivity|discriminate])|].
  destruct (Engine.fails env Engine.OpWriteFile); simpl;
    destruct (Engine.fails env Engine.OpRm); simpl;
    eexists; (split; [reflexivity|discriminate]).
Qed.

Lemma given_processQueue (cap : Z) (s : Server.State) :
  Server.sent (Server.processQueue cap s) = Server.sent s.
Proof.
  unfold Server.processQueue.
  destruct (Server.executionQueue s); [reflexivity|].
  destruct (Server.currentExecutions s >=? cap); reflexivity.
Qed.

Lemma given_step (cap : Z) (s : Server.State) (h : Server.Happening) :
  Forall More.given (Server.sent s) ->
  Forall More.given (Server.sent (Server.step cap s h)).
Proof.
  intros Hs. destruct h as [req r | socket lang | i | i outcome | i]; simpl.
  - unfold Server.postExecute.
    destruct (negb _ || negb _).
    + simpl. apply Forall_app. split; [exact Hs|].
      constructor; [right; left; reflexivity|constructor].
    + rewrite given_processQueue. exact Hs.
  - destruct (Registry.present _); exact Hs.
  - exact Hs.
  - destruct (nth_error (Server.live s) i) as [e|]; [|exact Hs].
    destruct (Server.isBatch e); [|exact Hs].
    rewrite given_processQueue. simpl. apply Forall_app. split; [exact Hs|].
    constructor; [|constructor].
    destruct outcome; simpl; [right; right; reflexivity|left; reflexivity].
  - destruct (nth_error (Server.live s) i) as [e|]; [|exact Hs].
    destruct (Server.isBatch e); exact Hs.
Qed.

(** C6 (as the code has it). The endpoint answers 400 'Language and code are
    required', before anything is queued, when language or code is missing
    or empty. Every other request is appended to the queue without a look
    at the registry and without a look at the size of the source or of the
    stdin text; whatever happens, the handler and the queue answer with
    status 200, 400 or 500 only, never 413. A task whose language is
    neither a key of the registry nor a name every object inherits is
    refused by the executor when it is dispatched, leaving the world
    untouched, and is answered 500 'Unsupported language: <language>'. A
    language that is an inherited name, such as 'constructor', passes the
    executor's check: the execution fails later with another error, and
    the request is answered 500 with that error's message. *)
Theorem C6_validation_at_the_endpoint :
  forall (cap : Z) (req : Server.Request) (res : nat) (s : Server.State),
    (JS.truthy (JS.field (Server.language req)) = false \/
     JS.truthy (JS.field (Server.code req)) = false ->
     Server.postExecute cap req res s = Scenario.answered s res Scenario.badRequest) /\
    (JS.truthy (JS.field (Server.language req)) = true ->
     JS.truthy (JS.field (Server.code req)) = true ->
     Server.postExecute cap req res s
     = Server.processQueue cap (Scenario.admitted s req res)) /\
    (forall history,
        Forall More.given (Server.sent (Server.after cap history))) /\
    (forall env toString language w,
        Server.language req = Some language ->
        Registry.get Registry.supportedLanguages language = Registry.Missing ->
        Server.dispatched env toString (Scenario.taskOf req res) w
        = (inl ("Unsupported language: " ++ language), w) /\
        Server.settle (fst (Server.dispatched env toString (Scenario.taskOf req res) w))
        = Scenario.unsupported language) /\
    (forall env toString language w,
        Server.language req = Some language ->
        Registry.get Registry.supportedLanguages language = Registry.Inherited ->
        exists message,
          Server.settle
            (fst (Server.dispatched env toString (Scenario.taskOf req res) w))
          = {| Server.status := 500; Server.body := Server.ErrorBody message |} /\
          message <> "Unsupported language: " ++ language).
Proof.
  intros cap req res s. split; [|split; [|split; [|split]]].
  - intros [H | H]; unfold Server.postExecute; rewrite H; simpl;
      rewrite ?orb_true_r; reflexivity.
  - intros Hl Hc. unfold Server.postExecute. rewrite Hl, Hc. reflexivity.
  - intros history.
    induction history as [|h history IH] using rev_ind; [constructor|].
    rewrite after_app. apply given_step. exact IH.
  - intros env toString language w Hl Hm.
    assert (E : Server.dispatched env toString (Scenario.taskOf req res) w
                = (inl ("Unsupported language: " ++ language), w)).
    { unfold Server.dispatched, Server.callArguments, Scenario.taskOf; simpl.
      rewrite Hl. apply executeCode_unsupported. exact Hm. }
    split; [exact E|]. rewrite E. reflexivity.
  - intros env toString language w Hl Hi.
    unfold Server.dispatched, Server.callArguments, Scenario.taskOf; simpl.
    rewrite Hl.
    match goal with
    | |- context [Batch.executeCode env toString language ?c ?i w] =>
        destruct (inherited_not_refused env toString language c i w Hi)
          as (message & E & Hne)
    end.
    exists message. rewrite E. split; [reflexivity|exact Hne].
Qed.

Lemma C6_validation_at_the_endpoint_witness :
  Server.postExecute 5 (Scenario.sampleRequest "") 1 Server.initial
  = Scenario.answered Server.initial 1 Scenario.badRequest /\
  Server.postExecute 5 More.oversized 1 Server.initial
  = Server.processQueue 5 (Scenario.admitted Server.initial More.oversized 1) /\
  Server.settle
    (fst (Server.dispatched Scenario.quiet Demux.asciiText
                            (Scenario.taskOf Scenario.cobolRequest 1) Engine.empty))
  = Scenario.unsupported "cobol".
Proof.
  split; [|split].
  - apply (proj1 (C6_validation_at_the_endpoint 5 (Scenario.sampleRequest "") 1
                    Server.initial)).
    left. reflexivity.
  - apply (proj1 (proj2 (C6_validation_at_the_endpoint 5 More.oversized 1
                           Server.initial))); reflexivity.
  - apply (proj2 (proj1 (proj2 (proj2 (proj2
             (C6_validation_at_the_endpoint 5 Scenario.cobolRequest 1 Server.initial))))
             Scenario.quiet Demux.asciiText "cobol" Engine.empty eq_refl eq_refl)).
Defined.

(** C6 fails as stated: a request for a language outside the registry is
    not answered 400 before admission; it is queued and dispatched, and the
    answer it gets is 500. And a request whose source has 50 001 code
    points and whose stdin text has 10 001 is not answered 413: it is
    dispatched like any other and, when the engine answers every call,
    answered 200. *)
Lemma C6_counterexample :
  (Registry.get Registry.supportedLanguages "cobol" = Registry.Missing /\
   let s := Server.postExecute 5 Scenario.cobolRequest 1 Server.initial in
   Server.sent s = [] /\
   Server.live s = [ {| Server.mode := Server.batch;
                        Server.phase := Server.preparing;
                        Server.owner := 1%nat |} ] /\
   Server.settle
     (fst (Server.dispatched Scenario.quiet Demux.asciiText
                             (Scenario.taskOf Scenario.cobolRequest 1) Engine.empty))
   = {| Server.status := 500;
        Server.body := Server.ErrorBody "Unsupported language: cobol" |}) /\
  (option_map (fun c => Z.of_nat (String.length c)) (Server.code More.oversized)
   = Some 50001 /\
   option_map (fun i => Z.of_nat (String.length i)) (Server.input More.oversized)
   = Some 10001 /\
   let s := Server.postExecute 5 More.oversized 1 Server.initial in
   Server.sent s = [] /\
   Server.executionQueue s = [] /\
   Server.live s = [ {| Server.mode := Server.batch;
                        Server.phase := Server.preparing;
                        Server.owner := 1%nat |} ] /\
   Server.status
     (Server.settle
        (fst (Server.dispatched Scenario.quiet Demux.asciiText
                                (Scenario.taskOf More.oversized 1) Engine.empty)))
   = 200).
Proof.
  split.
  - vm_compute. repeat split.
  - split; [vm_compute; reflexivity|].
    split; [vm_compute; reflexivity|].
    split; [vm_compute; reflexivity|].
    split; [vm_compute; reflexivity|].
    split; [vm_compute; reflexivity|].
    destruct (batch_returns Scenario.quiet Demux.asciiText "python"
                (More.letters (Z.to_nat 50001)) (More.letters (Z.to_nat 10001))
                Registry.python Engine.empty eq_refl (fun _ => eq_refl)) as [r Hr].
    unfold Server.dispatched, Server.callArguments, Scenario.taskOf, More.oversized.
    cbn [Server.task_language Server.task_code Server.task_input
         Server.language Server.code Server.input].
    rewrite Hr. reflexivity.
Qed.

(** * The wait of the environment is one schedule of the session *)

Lemma forEach_app {A : Type} (l1 l2 : list A) (f : A -> Engine.M unit)
    (w : Engine.World) :
  Prim.forEach (l1 ++ l2) f w
  = Engine.bind (Prim.forEach l1 f) (fun _ => Prim.forEach l2 f) w.
Proof.
  revert w. induction l1 as [|a l1 IH]; intros w; simpl; [reflexivity|].
  unfold Engine.bind in *. destruct (f a w) as [[e|u] w1]; [reflexivity|].
  apply IH.
Qed.

Lemma arrivals_happen (env : Engine.Env) (id : string) (l : list Engine.Arrival) :
  forall w,
    Engine.stream w <> None ->
    Prim.forEach (map Session.Arrives l) (Session.happens env id) w
    = Prim.forEach l (Interactive.handle id) w.
Proof.
  induction l as [|a l IH]; intros w Hs; simpl; [reflexivity|].
  unfold Engine.bind at 1 3. unfold Engine.bind at 1. unfold Engine.gets.
  destruct (Engine.stream w) as [st|] eqn:Est; [|contradiction Hs; reflexivity].
  destruct (handle_told id a w) as (w1 & E & _ & _ & _ & S).
  rewrite E. apply IH. apply S. rewrite Est. discriminate.
Qed.

(** The socket listener of the first part, which takes what happens
    during the wait from the environment, is the listener of the session
    for a string language and the schedule of the environment: both end
    the same way and make the same calls. *)
Lemma wait_is_a_schedule (env : Engine.Env) (language code : string) :
  let old := Interactive.onExecuteInteractive env language code Engine.empty in
  let new := Session.onExecuteInteractive env
               (Some {| Session.language := Wire.Text language; Session.code := code |})
               (More.schedule env) Engine.empty in
  fst new = fst old /\ Engine.calls (snd new) = Engine.calls (snd old).
Proof.
  unfold Interactive.onExecuteInteractive, Interactive.executeCodeInteractive,
    Session.onExecuteInteractive, Session.executeCodeInteractive.
  cbn [Session.language Session.code Wire.key].
  destruct (Registry.present _); simpl negb; cbv iota; [|split; reflexivity].
  unfold Session.run, Interactive.run.
  change (Wire.fileName (Wire.Text language)) with (Registry.fileName language).
  change (Session.containerOptions (Wire.Text language) (Engine.uuid env))
    with (Interactive.containerOptions language (Engine.uuid env)).
  unfold Interactive.cleanup,
    Interactive.streamEndIfAlive, Prim.wait,
    Prim.mkdir, Prim.writeFile, Prim.rm, Prim.createContainer, Prim.attach,
    Prim.start, Prim.remove, Prim.emit, Prim.setTimeout,
    Prim.clearTimeout, Prim.record, Prim.failing,
    Engine.tryCatch, Engine.tryFinally, Engine.bind, Engine.modify, Engine.gets,
    Engine.ret, Engine.throw.
  destruct (Engine.fails env Engine.OpMkdir); simpl;
    [destruct (Engine.fails env Engine.OpRm); split; reflexivity|].
  destruct (Engine.fails env Engine.OpWriteFile); simpl;
    [destruct (Engine.fails env Engine.OpRm); split; reflexivity|].
  destruct (Engine.fails env Engine.OpCreate); simpl;
    [destruct (Engine.fails env Engine.OpRm); split; reflexivity|].
  destruct (Engine.fails env Engine.OpAttach); simpl;
    [destruct (Engine.fails env Engine.OpRm); split; reflexivity|].
  destruct (Engine.fails env Engine.OpStart); simpl;
    [destruct (Engine.fails env Engine.OpRm); split; reflexivity|].
  unfold More.schedule. rewrite forEach_app. unfold Engine.bind.
  rewrite arrivals_happen by (simpl; discriminate).
  match goal with
  | |- context [Prim.forEach ?l (Interactive.handle ?id) ?w0] =>
      destruct (arrivals_awaited id l w0) as (w1 & E1 & A1)
  end.
  rewrite E1. clear E1.
  destruct w1 as [d1 f1 i1 c1 r1 t1 s1 l1 k1].
  destruct A1 as (D & F & I & C & R & T & L & cs & K & Q).
  simpl in D, F, I, C, R, T, L, K. subst d1 f1 i1 c1 r1 t1 l1 k1.
  unfold Session.fire, Prim.onTimeout, Prim.inspect, Prim.stop, Prim.emit,
    Prim.record, Prim.failing,
    Engine.tryCatch, Engine.bind, Engine.modify, Engine.gets, Engine.ret, Engine.throw.
  simpl.
  destruct (Engine.expires env); simpl;
    unfold Session.fire, Prim.onTimeout, Prim.inspect, Prim.stop, Prim.emit,
      Prim.record, Prim.failing,
      Engine.tryCatch, Engine.bind, Engine.modify, Engine.gets, Engine.ret,
      Engine.throw;
    simpl.
  - destruct (Engine.fails env Engine.OpInspect); simpl.
    + destruct (Engine.fails env Engine.OpWait); simpl;
        [|destruct (Engine.fails env Engine.OpRemove); simpl];
        destruct s1 as [[[|] wr]|]; simpl;
        destruct (Engine.fails env Engine.OpRm); split; reflexivity.
    + rewrite String.eqb_refl; simpl.
      destruct (Engine.fails env Engine.OpStop); simpl;
        (destruct (Engine.fails env Engine.OpWait); simpl;
         [|destruct (Engine.fails env Engine.OpRemove); simpl]);
        destruct s1 as [[[|] wr]|]; simpl;
        destruct (Engine.fails env Engine.OpRm); split; reflexivity.
  - destruct (Engine.fails env Engine.OpWait); simpl;
      [|destruct (Engine.fails env Engine.OpRemove); simpl];
      destruct s1 as [[[|] wr]|]; simpl;
      destruct (Engine.fails env Engine.OpRm); split; reflexivity.
Qed.
